(** * funcx-endpoint: the endpoint lifecycle manager

    A shallow embedding of [funcx_endpoint/endpoint/endpoint.py]: the
    pidfile liveness check, the two registration paths, the
    [configure] / [start] / [stop] / [restart] / [list] / [delete] commands,
    and the initialization that [main] runs before them, as state
    passing functions over an explicit model of the configuration
    directory, the process table and the remote services.

    Conventions of the model.
    - [State.FUNCX_DIR] is a finite map from endpoint names to endpoint
      directories, and a directory is a finite map from file names to
      files.  The keys are the entries of the directories, so a name stands
      for its entry only if it is one path component; a name such as
      [default/] or [./default], which the file system resolves to the entry
      [default], is outside the model, and the properties that depend on a
      name having no entry state [endpoint_name] of it (and [launchable] of
      the output files of the daemon).
    - The tree is the one under [State.FUNCX_DIR], read literally.  [glob]
      reads a root with [*], [?] or [[] in it as a pattern over other
      directories; the properties of what [glob] finds state [literal_root].
    - [os.kill] is modelled for the id of one process, a positive number
      within [pid_t].  Zero and negative numbers address process groups and
      larger ones raise [OverflowError]; the properties that depend on the
      signalling of a recorded pid state [process_id] of it.
    - What a process prints and logs is recorded in the trace, also for a
      detached daemon, whose output the daemon context sends to the two
      output files; the contents of these files while the daemon runs, and
      the log files the interchange writes into the endpoint directory, are
      not modelled.
    - A file is described by what each reader the program applies to it
      returns: [int(f.read())], [json.load(f)] and
      [SourceFileLoader(..).load_module().config].
    - Everything outside the program (signals and how a process reacts to
      them, the coordination service, the mock hub, the pseudo random
      generator, the answer typed at a confirmation prompt) is an input held
      in the [environment].
    - What the program reads outside the configuration directory (the
      templates of the installed package, a file named with
      [--endpoint-config]) is an [installation]; [main] and [init_endpoint]
      work on a [home]: the state of the commands together with the
      [config.py] at the root and the backup directory.
    - Unbounded loops ([retry] with [tries=-1], the supervision loop of
      [start]) run on fuel; a run that is still inside such a loop when the
      fuel is used up has result [Running]. *)

From Stdlib Require Import ZArith QArith Ascii String List.
From stdpp Require Import base option gmap strings list fin_maps.

#[local] Set Warnings "-register-all".
#[local] Open Scope string_scope.
#[local] Open Scope Z_scope.

(** ** Python values and exceptions *)

(** Python values: what [json.load] and the services return, what the
    global options hold, and [VObject] for an object that is none of these
    (its argument is the class name). *)
Inductive value : Type :=
| VNone
| VBool (b : bool)
| VInt (n : Z)
| VStr (s : string)
| VList (l : list value)
| VDict (d : gmap string value)
| VObject (class : string).

(** The exceptions the program raises, catches or lets through. *)
Inductive exn : Type :=
| ValueError
| TypeError
| KeyError (key : string)
| AttributeError
| JSONDecodeError
| ModuleLoadError            (* config.py cannot be loaded or defines no [config] *)
| FileNotFoundError
| ProcessLookupError
| PermissionError
| AlreadyLocked              (* lockfile: the pidfile already exists *)
| NoSuchProcess              (* psutil *)
| ConnectionError            (* requests.exceptions.ConnectionError *)
| HTTPError (status : Z)
| RegistrationError (reason : string)
| Abort                      (* typer.Abort *)
| SystemExit (code : Z).

(** [except OSError]: the builtin OS errors, and the exceptions of
    [requests], which derive from [IOError]. *)
Definition is_OSError (e : exn) : bool :=
  match e with
  | FileNotFoundError | ProcessLookupError | PermissionError
  | ConnectionError | HTTPError _ => true
  | _ => false
  end.

(** [except Exception]: everything but [SystemExit]. *)
Definition is_Exception (e : exn) : bool :=
  match e with
  | SystemExit _ => false
  | _ => true
  end.

Definition is_NoSuchProcess (e : exn) : bool :=
  match e with NoSuchProcess => true | _ => false end.

Definition is_ConnectionError (e : exn) : bool :=
  match e with ConnectionError => true | _ => false end.

(** ** Files, processes, the environment *)

(** [endpoint_config.config], as far as the program reads it. *)
Record config : Type := {
  funcx_service_address : string;
  detach_endpoint : bool;
  stdout : string;
  stderr : string
}.

Record file : Type := {
  as_int : option Z;          (* int(f.read().strip()), None: ValueError *)
  as_json : option value;      (* json.load(f), None: JSONDecodeError *)
  as_module : option config   (* load_module().config, None: it fails *)
}.

(** What [open(path, 'w+')] leaves before anything is written. *)
Definition empty_text : file :=
  {| as_int := None; as_json := None; as_module := None |}.

(** What [json.dump(j, fp)] leaves: a document that loads back as [j]; a
    bare number is also a decimal integer. *)
Definition json_text (j : value) : file :=
  {| as_int := match j with VInt n => Some n | _ => None end;
     as_json := Some j;
     as_module := None |}.

(** What [PIDLockFile] writes: the decimal pid and a newline. *)
Definition pid_text (pid : Z) : file :=
  {| as_int := Some pid; as_json := Some (VInt pid); as_module := None |}.

Definition module_text (c : config) : file :=
  {| as_int := None; as_json := None; as_module := Some c |}.

(** A file of an endpoint directory: directory name under
    [State.FUNCX_DIR], file name. *)
Definition path : Type := string * string.

Record process : Type := {
  pname : string;             (* psutil.Process(pid).name() *)
  killable : bool;            (* false: os.kill raises PermissionError *)
  holds : option string       (* the endpoint whose pidfile lock it holds *)
}.

Inductive signal : Type := SIGTERM | SIGKILL.

(** What a process that received SIGTERM has done by the time the sender
    has slept its 0.1 s. *)
Inductive term_reaction : Type :=
| Lingers        (* still running, nothing released *)
| Dies           (* gone, nothing released *)
| ExitsCleanly   (* daemon context closed: pidfile removed, process gone *)
| Releasing.     (* pidfile removed, process still there to be signalled *)

(** The reply of the mock hub to one POST. *)
Inductive post_result : Type :=
| PostRaises (e : exn)
| Response (status_code : Z) (reason : string) (body : option value).

(** The outcome of one call of [FuncXClient.register_endpoint]. *)
Inductive call_result : Type :=
| Returns (reg_info : value)
| Throws (e : exn).

Record environment : Type := {
  on_sigterm : Z → term_reaction;
  confirm_answer : bool;          (* the answer given to typer.confirm *)
  next_uuid : string;             (* str(uuid.uuid4()) *)
  random_choice : nat → nat;      (* the index random.choice picks, per POST *)
  hub_reply : nat → post_result;  (* the mock hub, per POST *)
  service_reply : nat → call_result; (* the funcX service, per call *)
  self_name : string;             (* process name of the running command *)
  fork_pid : Z                    (* pid of the detached daemon *)
}.

Inductive level : Type := DEBUG_ | INFO | WARNING | CRITICAL.

(** A table row of [list]: name, status, endpoint id. *)
Definition row : Type := string * string * option value.

(** What the program lets the outside observe, in order. *)
Inductive event : Type :=
| Log (lvl : level) (fmt : string) (args : list value)
| Print (fmt : string) (args : list value)
| Sleep (seconds : Q)
| Retrying (e : exn) (delay : Q)     (* retry: '%s, retrying in %s seconds...' *)
| Delivered (pid : Z) (sig : signal)
| Post (url : string) (body : value)
| ClientRegister (name : string) (endpoint_uuid : value)
| RunInterchange (cfg : config) (endpoint_id : value) (optionals : gmap string value)
| DrawTable (headings : list string) (rows : list row).

Record world : Type := {
  env : environment;
  FUNCX_DIR : string;                         (* State.FUNCX_DIR *)
  FUNCX_CONFIG : gmap string value;            (* State.FUNCX_CONFIG *)
  DEBUG : bool;                               (* State.DEBUG *)
  funcx_dir : gmap string (gmap string file); (* the tree under FUNCX_DIR *)
  procs : gmap Z process;                     (* live processes *)
  self_pid : Z;                               (* os.getpid() *)
  requests : nat;                             (* calls made to the services *)
  trace : list event
}.

Definition set_funcx_dir (d : gmap string (gmap string file)) (w : world) : world :=
  {| env := env w; FUNCX_DIR := FUNCX_DIR w; FUNCX_CONFIG := FUNCX_CONFIG w;
     DEBUG := DEBUG w; funcx_dir := d; procs := procs w;
     self_pid := self_pid w; requests := requests w; trace := trace w |}.

Definition set_procs (p : gmap Z process) (w : world) : world :=
  {| env := env w; FUNCX_DIR := FUNCX_DIR w; FUNCX_CONFIG := FUNCX_CONFIG w;
     DEBUG := DEBUG w; funcx_dir := funcx_dir w; procs := p;
     self_pid := self_pid w; requests := requests w; trace := trace w |}.

Definition set_self_pid (pid : Z) (w : world) : world :=
  {| env := env w; FUNCX_DIR := FUNCX_DIR w; FUNCX_CONFIG := FUNCX_CONFIG w;
     DEBUG := DEBUG w; funcx_dir := funcx_dir w; procs := procs w;
     self_pid := pid; requests := requests w; trace := trace w |}.

Definition set_requests (n : nat) (w : world) : world :=
  {| env := env w; FUNCX_DIR := FUNCX_DIR w; FUNCX_CONFIG := FUNCX_CONFIG w;
     DEBUG := DEBUG w; funcx_dir := funcx_dir w; procs := procs w;
     self_pid := self_pid w; requests := n; trace := trace w |}.

Definition set_trace (t : list event) (w : world) : world :=
  {| env := env w; FUNCX_DIR := FUNCX_DIR w; FUNCX_CONFIG := FUNCX_CONFIG w;
     DEBUG := DEBUG w; funcx_dir := funcx_dir w; procs := procs w;
     self_pid := self_pid w; requests := requests w; trace := t |}.

(** ** The monad: state, exceptions, fuel *)

Inductive result (A : Type) : Type :=
| Ok (a : A)
| Raise (e : exn)
| Running.
Arguments Ok {A} a.
Arguments Raise {A} e.
Arguments Running {A}.

Definition M (A : Type) : Type := world → result A * world.

Definition ret {A : Type} (a : A) : M A := λ w, (Ok a, w).

Definition bind {A B : Type} (m : M A) (k : A → M B) : M B := λ w,
  match m w with
  | (Ok a, w') => k a w'
  | (Raise e, w') => (Raise e, w')
  | (Running, w') => (Running, w')
  end.

Declare Scope py_scope.
Delimit Scope py_scope with py.
Notation "x ← m ; k" := (bind m (λ x, k))
  (at level 20, m at level 100, k at level 200, only parsing) : py_scope.
Notation "m ;; k" := (bind m (λ _, k))
  (at level 100, k at level 200, only parsing, right associativity) : py_scope.
#[local] Open Scope py_scope.

Definition raise {A : Type} (e : exn) : M A := λ w, (Raise e, w).

Definition get_world : M world := λ w, (Ok w, w).

Definition modify (f : world → world) : M unit := λ w, (Ok tt, f w).

(** [try: body except <handles> as e: handler e] *)
Definition try_except {A : Type} (body : M A) (handles : exn → bool)
    (handler : exn → M A) : M A := λ w,
  match body w with
  | (Raise e, w') => if handles e then handler e w' else (Raise e, w')
  | r => r
  end.

(** [try: body finally: cleanup] as a context manager's exit runs it. *)
Definition finally {A : Type} (body : M A) (cleanup : world → world) : M A := λ w,
  let '(r, w') := body w in
  match r with
  | Running => (Running, w')
  | _ => (r, cleanup w')
  end.

Definition emit (e : event) : M unit :=
  modify (λ w, set_trace (trace w ++ [e]) w).

Definition logger (lvl : level) (fmt : string) (args : list value) : M unit :=
  emit (Log lvl fmt args).

Definition print (fmt : string) (args : list value) : M unit :=
  emit (Print fmt args).

Definition time_sleep (seconds : Q) : M unit := emit (Sleep seconds).

(** The exit status the shell sees. *)
Definition exit_status {A : Type} (r : result A) : option Z :=
  match r with
  | Ok _ => Some 0
  | Raise (SystemExit c) => Some (c mod 256)
  | Raise _ => Some 1
  | Running => None
  end.

(** ** The file system and the process table *)

Definition os_path_join (a b : string) : string := a ++ "/" ++ b.

Definition endpoint_dir_path (w : world) (name : string) : string :=
  os_path_join (FUNCX_DIR w) name.

Definition lookup_file (w : world) (p : path) : option file :=
  funcx_dir w !! p.1 ≫= λ d, d !! p.2.

(** [os.path.exists(os.path.join(State.FUNCX_DIR, name))], for a [name]
    that is one path component: the entry of that name. *)
Definition dir_exists (name : string) : M bool := λ w,
  (Ok (bool_decide (is_Some (funcx_dir w !! name))), w).

(** [os.path.exists(os.path.join(endpoint_dir, file))], for a directory
    and a file named by one path component each. *)
Definition os_path_exists (p : path) : M bool := λ w,
  (Ok (bool_decide (is_Some (lookup_file w p))), w).

Definition read_file (p : path) : M file := λ w,
  match lookup_file w p with
  | Some f => (Ok f, w)
  | None => (Raise FileNotFoundError, w)
  end.

(** [with open(p, 'w+') as fp: <write f>] *)
Definition write_file (p : path) (f : file) : M unit := λ w,
  match funcx_dir w !! p.1 with
  | Some d => (Ok tt, set_funcx_dir (<[p.1 := <[p.2 := f]> d]> (funcx_dir w)) w)
  | None => (Raise FileNotFoundError, w)
  end.

Definition remove_file (p : path) (w : world) : world :=
  set_funcx_dir (alter (delete p.2) p.1 (funcx_dir w)) w.

Definition os_remove (p : path) : M unit := λ w,
  match lookup_file w p with
  | Some _ => (Ok tt, remove_file p w)
  | None => (Raise FileNotFoundError, w)
  end.

(** [shutil.rmtree(os.path.join(State.FUNCX_DIR, name))], for a [name]
    that is one path component. *)
Definition shutil_rmtree (name : string) : M unit := λ w,
  match funcx_dir w !! name with
  | Some _ => (Ok tt, set_funcx_dir (delete name (funcx_dir w)) w)
  | None => (Raise FileNotFoundError, w)
  end.

(** [int(open(p).read().strip())] *)
Definition read_int (p : path) : M Z :=
  f ← read_file p;
  match as_int f with
  | Some n => ret n
  | None => raise ValueError
  end.

(** [json.load(open(p))] *)
Definition json_load (p : path) : M value :=
  f ← read_file p;
  match as_json f with
  | Some j => ret j
  | None => raise JSONDecodeError
  end.

(** [SourceFileLoader('config', p).load_module().config] *)
Definition load_config (p : path) : M config :=
  f ← read_file p;
  match as_module f with
  | Some c => ret c
  | None => raise ModuleLoadError
  end.

(** [obj[key]] *)
Definition getitem (obj : value) (key : string) : M value :=
  match obj with
  | VDict d =>
      match d !! key with
      | Some v => ret v
      | None => raise (KeyError key)
      end
  | _ => raise TypeError
  end.

(** [psutil.Process(pid).name()] *)
Definition psutil_Process_name (pid : Z) : M string := λ w,
  if pid <? 0 then (Raise ValueError, w)
  else match procs w !! pid with
       | Some pr => (Ok (pname pr), w)
       | None => (Raise NoSuchProcess, w)
       end.

(** ** check_pidfile *)

Record pid_record : Type := { pr_exists : Z; pr_active : Z }.

Definition default_match_name : string := "funcx-endpoint".

(** [check_pidfile(filepath, match_name, endpoint_name, log)], lines 57-116.
    The record's fields are the integers 0 and 1, as in the source. *)
Definition check_pidfile (filepath : path) (match_name : string)
    (endpoint_name : string) (log : bool) : M pid_record :=
  ex ← os_path_exists filepath;
  if negb ex then ret {| pr_exists := 0; pr_active := 0 |}
  else
    older_pid ← read_int filepath;
    proc_found ← try_except (A := bool)
      (name ← psutil_Process_name older_pid;
       if String.eqb name match_name then ret true else ret false)
      is_NoSuchProcess (λ _, ret false);
    (if log then
       if proc_found then logger INFO "Endpoint is already active" []
       else
         logger INFO "A prior Endpoint instance appears to have been terminated without proper cleanup" [];;
         logger INFO "Please cleanup using:
    $ funcx-endpoint stop {}" [VStr endpoint_name]
     else ret tt);;
    if proc_found then ret {| pr_exists := 1; pr_active := 1 |}
    else ret {| pr_exists := 1; pr_active := 0 |}.

(** Python truth value of a value ([not v] is its negation). *)
Definition truthy (v : value) : bool :=
  match v with
  | VNone => false
  | VBool b => b
  | VInt n => negb (n =? 0)
  | VStr s => negb (String.eqb s "")
  | VList l => match l with [] => false | _ => true end
  | VDict d => negb (bool_decide (d = ∅))
  | VObject _ => true
  end.

(** [sys.exit(code)] and the builtin [exit(code)] *)
Definition sys_exit {A : Type} (code : Z) : M A := raise (SystemExit code).

(** ** Signals *)

(** [PIDLockFile.release] by process [pid] for the pidfile of endpoint
    [name]: the pidfile is removed by the process whose pid it holds. *)
Definition release_pidfile (pid : Z) (name : string) (w : world) : world :=
  match lookup_file w (name, "daemon.pid") ≫= as_int with
  | Some recorded =>
      if recorded =? pid then remove_file (name, "daemon.pid") w else w
  | None => w
  end.

(** A process that closes its daemon context releases the lock it holds. *)
Definition close_context (pid : Z) (pr : process) (w : world) : world :=
  match holds pr with
  | Some name => release_pidfile pid name w
  | None => w
  end.

Definition drop_process (pid : Z) (w : world) : world :=
  set_procs (delete pid (procs w)) w.

(** The state the receiver is in when the sender wakes from the sleep that
    follows the signal. *)
Definition deliver (pid : Z) (pr : process) (sig : signal) (w : world) : world :=
  match sig with
  | SIGKILL => drop_process pid w
  | SIGTERM =>
      match on_sigterm (env w) pid with
      | Lingers => w
      | Dies => drop_process pid w
      | ExitsCleanly => drop_process pid (close_context pid pr w)
      | Releasing => close_context pid pr w
      end
  end.

(** [os.kill(pid, sig)] for the id of one process: a positive [pid]
    within [pid_t].  Outside this range the call is another one (a process
    group is signalled for [pid <= 0], [OverflowError] is raised beyond
    [pid_t]), which the model does not describe. *)
Definition os_kill (pid : Z) (sig : signal) : M unit := λ w,
  match procs w !! pid with
  | None => (Raise ProcessLookupError, w)
  | Some pr =>
      if killable pr
      then (Ok tt, deliver pid pr sig (set_trace (trace w ++ [Delivered pid sig]) w))
      else (Raise PermissionError, w)
  end.

(** ** stop_endpoint *)

Definition pid_file_of (name : string) : path := (name, "daemon.pid").

(** The body of the [try] in [stop_endpoint]. *)
Definition signal_endpoint (name : string) (pid : Z) : M unit :=
  logger DEBUG_ "Signalling process: {}" [VInt pid];;
  os_kill pid SIGTERM;;
  time_sleep 0.1;;
  os_kill pid SIGKILL;;
  time_sleep 0.1;;
  still ← os_path_exists (pid_file_of name);
  if negb still
  then logger INFO "Endpoint <{}> is now stopped" [VStr name]
  else ret tt.

(** The [except OSError] handler of [stop_endpoint]. *)
Definition stop_cleanup (name : string) : M unit :=
  logger WARNING "Endpoint {} could not be terminated" [VStr name];;
  logger WARNING "Attempting Endpoint {} cleanup" [VStr name];;
  os_remove (pid_file_of name);;
  sys_exit (-1).

(** [stop_endpoint(name)], lines 411-442. *)
Definition stop_endpoint (name : string) : M unit :=
  let pid_file := pid_file_of name in
  has_pidfile ← os_path_exists pid_file;
  if has_pidfile then
    logger DEBUG_ "{} has a daemon.pid file" [VStr name];;
    pid ← read_int pid_file;
    try_except (signal_endpoint name pid) is_OSError (λ _, stop_cleanup name)
  else
    logger INFO "Endpoint <{}> is not active." [VStr name].

(** ** Registration *)

(** The [retry] decorator of the [retry] package ([__retry_internal]):
    [f] is called until it returns; an exception matched by [exceptions]
    uses up one of [tries], is logged, and is followed by a sleep of the
    current delay.  The package's defaults are [exceptions=Exception],
    [tries=-1], [delay=0], [max_delay=None], [backoff=1], [jitter=0].
    [while _tries:] ends the loop with [None] when the counter is 0. *)
Fixpoint retry_internal (fuel : nat) (f : M value) (exceptions : exn → bool)
    (tries : Z) (delay : Q) (max_delay : option Q) (backoff jitter : Q)
    (log : bool) : M value :=
  if tries =? 0 then ret VNone
  else
    match fuel with
    | O => λ w, (Running, w)
    | S fuel' =>
        try_except f exceptions (λ e,
          let tries' := tries - 1 in
          if tries' =? 0 then raise e
          else
            (if log then emit (Retrying e delay) else ret tt);;
            time_sleep delay;;
            let delay' := (delay * backoff + jitter)%Q in
            let delay'' := match max_delay with
                           | Some m => if Qle_bool delay' m then delay' else m
                           | None => delay'
                           end in
            retry_internal fuel' f exceptions tries' delay'' max_delay
              backoff jitter log)
    end.

(** Modelled from the spec: [FuncXClient.register_endpoint] of the funcX
    SDK, which is not among the sources.  One call performs the handshake
    with the coordination service and either returns the registration record
    or raises: a connectivity failure when the service cannot be reached, a
    [RegistrationError] on an explicit non-success response.  Which one is
    the environment's [service_reply] for that call. *)
Definition funcx_client_register_endpoint (endpoint_name : string)
    (endpoint_uuid : value) : M value := λ w,
  let w' := set_requests (S (requests w))
              (set_trace (trace w ++ [ClientRegister endpoint_name endpoint_uuid]) w) in
  match service_reply (env w) (requests w) with
  | Returns reg_info => (Ok reg_info, w')
  | Throws e => (Raise e, w')
  end.

(** [with open(p, 'w+') as fp: json.dump(j, fp)]: the file is truncated,
    then the document is written, unless the value is an object [json]
    cannot serialise (checked at the top of the value only). *)
Definition json_dump (j : value) (p : path) : M unit :=
  write_file p empty_text;;
  match j with
  | VObject _ => raise TypeError
  | _ => write_file p (json_text j)
  end.

(** The function under the decorator.  [endpoint_dir] is the endpoint's
    directory, named by its key in [funcx_dir]. *)
Definition register_endpoint_attempt (endpoint_name : string)
    (endpoint_uuid : value) (endpoint_dir : string) : M value :=
  logger DEBUG_ "Attempting registration" [];;
  logger DEBUG_ "Trying with eid : {}" [endpoint_uuid];;
  reg_info ← funcx_client_register_endpoint endpoint_name endpoint_uuid;
  json_dump reg_info (endpoint_dir, "endpoint.json");;
  w ← get_world;
  logger DEBUG_ "Registration info written to {}/endpoint.json"
    [VStr (endpoint_dir_path w endpoint_dir)];;
  ret reg_info.

(** [@retry(delay=5, logger=logging.getLogger('funcx'))] *)
Definition register_endpoint (fuel : nat) (endpoint_name : string)
    (endpoint_uuid : value) (endpoint_dir : string) : M value :=
  retry_internal fuel
    (register_endpoint_attempt endpoint_name endpoint_uuid endpoint_dir)
    is_Exception (-1) 5 None 1 0 true.

Definition sites : list string :=
  ["128.135.112.73"; "140.221.69.24"; "52.86.208.63"; "129.114.63.99";
   "128.219.134.72"; "134.79.129.79"].

(** [random.choice(seq)] for a non-empty [seq] *)
Definition random_pick (seq : list string) : M string := λ w,
  (Ok (List.nth (random_choice (env w) (requests w) mod length seq)%nat seq ""), w).

(** [requests.post(url, json=body)] *)
Definition requests_post (url : string) (body : value) : M post_result := λ w,
  let w' := set_requests (S (requests w)) (set_trace (trace w ++ [Post url body]) w) in
  match hub_reply (env w) (requests w) with
  | PostRaises e => (Raise e, w')
  | r => (Ok r, w')
  end.

(** [address + '/register'] *)
Definition add_str (address : value) (suffix : string) : M string :=
  match address with
  | VStr s => ret (s ++ suffix)
  | _ => raise TypeError
  end.

Definition status_code_of (r : post_result) : Z :=
  match r with Response c _ _ => c | PostRaises _ => 0 end.

Definition reason_of (r : post_result) : string :=
  match r with Response _ s _ => s | PostRaises _ => "" end.

(** [r.json()] *)
Definition response_json (r : post_result) : M value :=
  match r with
  | Response _ _ (Some j) => ret j
  | _ => raise JSONDecodeError
  end.

Definition default_redis_host : string :=
  "funcx-redis.wtgh6h.0001.use1.cache.amazonaws.com".

(** [register_with_hub(endpoint_uuid, endpoint_dir, address, redis_host)],
    lines 191-221: the registration with the mock hub. *)
Definition register_with_hub (endpoint_uuid : value) (endpoint_dir : string)
    (address : value) (redis_host : value) : M value :=
  print "Picking source as a mock site" [];;
  ip_addr ← random_pick sites;
  r ← try_except
    (url ← add_str address "/register";
     requests_post url
       (VDict (<["endpoint_id" := endpoint_uuid]>
                (<["endpoint_addr" := VStr ip_addr]>
                  (<["redis_address" := redis_host]> ∅)))))
    is_ConnectionError
    (λ _, logger CRITICAL "Unable to reach the funcX hub at {}" [address];;
          sys_exit (-1));
  (if negb (status_code_of r =? 200) then
     print "{}" [VObject "dir(r)"];;
     print "<Response [{}]>" [VInt (status_code_of r)];;
     raise (RegistrationError (reason_of r))
   else ret tt);;
  write_file (endpoint_dir, "endpoint.json") empty_text;;
  j ← response_json r;
  json_dump j (endpoint_dir, "endpoint.json");;
  w ← get_world;
  logger DEBUG_ "Registration info written to {}/endpoint.json"
    [VStr (endpoint_dir_path w endpoint_dir)];;
  response_json r.

(** ** start_endpoint *)

(** [DaemonContext.open]: detach when asked to (the run follows the
    daemon, whose pid is [fork_pid]), then take the pidfile lock, which
    fails when the pidfile exists. *)
Definition daemon_open (name : string) (pid_path : path) (detach : bool) : M unit :=
  (if detach then modify (λ w, set_self_pid (fork_pid (env w)) w) else ret tt);;
  locked ← os_path_exists pid_path;
  if locked then raise AlreadyLocked
  else
    w ← get_world;
    write_file pid_path (pid_text (self_pid w));;
    modify (λ w, set_procs
      (<[self_pid w := {| pname := self_name (env w); killable := true;
                          holds := Some name |}]> (procs w)) w).

(** [DaemonContext.close] on the way out of the [with] block, and the end
    of the process that the exception brings. *)
Definition daemon_close (name : string) (w : world) : world :=
  drop_process (self_pid w) (release_pidfile (self_pid w) name w).

(** [with context: body] *)
Definition with_context {A : Type} (name : string) (pid_path : path)
    (detach : bool) (body : M A) : M A :=
  daemon_open name pid_path detach;;
  finally body (daemon_close name).

(** [State.FUNCX_CONFIG.get('broker_test', False) is True] *)
Definition broker_test (w : world) : bool :=
  match FUNCX_CONFIG w !! "broker_test" with
  | Some (VBool true) => true
  | _ => false
  end.

(** [State.FUNCX_CONFIG[key]] *)
Definition funcx_config_item (key : string) : M value := λ w,
  match FUNCX_CONFIG w !! key with
  | Some v => (Ok v, w)
  | None => (Raise (KeyError key), w)
  end.

(** [s.split(sep)] for a one character separator *)
Fixpoint split_on (sep : ascii) (s : string) : list string :=
  match s with
  | EmptyString => [EmptyString]
  | String c rest =>
      if Ascii.eqb c sep then EmptyString :: split_on sep rest
      else match split_on sep rest with
           | x :: xs => String c x :: xs
           | [] => [String c EmptyString]
           end
  end.

(** [v.split(',')] *)
Definition str_split (v : value) : M value :=
  match v with
  | VStr s => ret (VList (VStr <$> split_on "," s))
  | _ => raise AttributeError
  end.

(** [logging.DEBUG] *)
Definition logging_DEBUG : Z := 10.

(** The parameters handed to the interchange. *)
Definition interchange_optionals (name : string) (reg_info : value) : M (gmap string value) :=
  client_address ← getitem reg_info "address";
  ports ← getitem reg_info "client_ports";
  client_ports ← str_split ports;
  w ← get_world;
  let optionals : gmap string value :=
    <["client_ports" := client_ports]> (<["client_address" := client_address]> ∅) in
  let optionals :=
    match FUNCX_CONFIG w !! "endpoint_address" with
    | Some a => <["interchange_address" := a]> optionals
    | None => optionals
    end in
  let optionals := <["logdir" := VStr (endpoint_dir_path w name)]> optionals in
  let optionals :=
    if DEBUG w then <["logging_level" := VInt logging_DEBUG]> optionals
    else optionals in
  ret optionals.

(** The [while True:] loop inside the daemon context. *)
Fixpoint supervise (fuel : nat) (name : string) (cfg : config)
    (endpoint_uuid : value) : M unit :=
  match fuel with
  | O => λ w, (Running, w)
  | S fuel' =>
      logger INFO "Registering endpoint" [];;
      w ← get_world;
      reg_info ←
        (if broker_test w then
           logger WARNING "**************** BROKER State.DEBUG MODE *******************" [];;
           broker_address ← funcx_config_item "broker_address";
           redis_host ← funcx_config_item "redis_host";
           register_with_hub endpoint_uuid name broker_address redis_host
         else register_endpoint fuel' name endpoint_uuid name);
      registered_id ← getitem reg_info "endpoint_id";
      logger INFO "Endpoint registered with UUID: {}" [registered_id];;
      optionals ← interchange_optionals name reg_info;
      emit (RunInterchange cfg endpoint_uuid optionals);;
      logger CRITICAL "Interchange terminated." [];;
      time_sleep 10;;
      supervise fuel' name cfg endpoint_uuid
  end.

(** [str(uuid.uuid4())] *)
Definition uuid4 : M value := λ w, (Ok (VStr (next_uuid (env w))), w).

(** The identity [start_endpoint] runs under, lines 297-304. *)
Definition endpoint_identity (name : string) (endpoint_uuid : value) : M value :=
  let endpoint_json := (name, "endpoint.json") in
  recorded ← os_path_exists endpoint_json;
  if recorded then
    logger DEBUG_ "Connection info loaded from prior registration record" [];;
    reg_info ← json_load endpoint_json;
    getitem reg_info "endpoint_id"
  else if negb (truthy endpoint_uuid) then uuid4
  else ret endpoint_uuid.

(** The part of [start_endpoint] after the pidfile check: the output
    files of a detached daemon are opened, the configuration is loaded again,
    and the supervision loop runs inside the daemon context.  Opening the
    files empties them; what the daemon then sends to them, and what the
    interchange writes to its [logdir], is not part of the state: the
    messages of the daemon are in the trace. *)
Definition start_daemon (fuel : nat) (name : string) (endpoint_config : config)
    (endpoint_uuid : value) : M unit :=
  let pid_path := (name, "daemon.pid") in
  (if detach_endpoint endpoint_config then
     write_file (name, stdout endpoint_config) empty_text;;
     write_file (name, stderr endpoint_config) empty_text
   else ret tt);;
  let detach := detach_endpoint endpoint_config in
  endpoint_config ← load_config (name, "config.py");
  with_context name pid_path detach
    (supervise fuel name endpoint_config endpoint_uuid).

(** [start_endpoint(name, endpoint_uuid)], lines 247-373.  The two
    [FuncXClient(..)] constructions have no effect the model observes. *)
Definition start_endpoint (fuel : nat) (name : string) (endpoint_uuid : value) : M unit :=
  dir_found ← dir_exists name;
  if negb dir_found then
    print "Endpoint {0} is not configured!
1. Please create a configuration template with:
   $ funcx-endpoint configure {0}
2. Update configuration
3. Start the endpoint.
        " [VStr name]
  else
    endpoint_config ← load_config (name, "config.py");
    endpoint_uuid ← endpoint_identity name endpoint_uuid;
    logger INFO "Starting endpoint with uuid: {}" [endpoint_uuid];;
    record ← check_pidfile (name, "daemon.pid") default_match_name name true;
    if negb (pr_exists record =? 0) then ret tt
    else start_daemon fuel name endpoint_config endpoint_uuid.

(** The value of [endpoint_uuid] when [start_endpoint] is called as a
    function without it: the parameter's default, the [typer.Option(..)]
    object itself. *)
Definition endpoint_uuid_default : value := VObject "typer.models.OptionInfo".

(** ** restart_endpoint *)

(** [restart_endpoint(name)], lines 445-449: both commands are called as
    functions, [start_endpoint] without its option. *)
Definition restart_endpoint (fuel : nat) (name : string) : M unit :=
  stop_endpoint name;;
  start_endpoint fuel name endpoint_uuid_default.

(** ** list_endpoints *)

(** [glob.glob('{}/*/config.py'.format(State.FUNCX_DIR))], as the names of
    the directories found; [*] does not match a name that starts with a
    dot.  [State.FUNCX_DIR] is read literally: it has none of the characters
    [*], [?] and [[], with which [glob] would take the root itself for a
    pattern. *)
Definition hidden (name : string) : bool :=
  match name with
  | String "." _ => true
  | _ => false
  end.

Definition glob_config_files (w : world) : list string :=
  (List.filter (λ nd : string * gmap string file,
       negb (hidden nd.1) && bool_decide (is_Some (nd.2 !! "config.py")))
     (map_to_list (funcx_dir w))).*1.

(** The body of the [for] loop: the row of one endpoint. *)
Definition list_row (endpoint_name : string) : M row :=
  let endpoint_json := (endpoint_name, "endpoint.json") in
  recorded ← os_path_exists endpoint_json;
  if recorded then
    endpoint_info ← json_load endpoint_json;
    endpoint_id ← getitem endpoint_info "endpoint_id";
    record ← check_pidfile (endpoint_name, "daemon.pid") default_match_name "" false;
    if negb (pr_active record =? 0)
    then ret (endpoint_name, "Active", Some endpoint_id)
    else ret (endpoint_name, "Inactive", Some endpoint_id)
  else ret (endpoint_name, "Initialized", None).

Fixpoint for_each {A B : Type} (f : A → M B) (l : list A) : M (list B) :=
  match l with
  | [] => ret []
  | x :: xs => y ← f x; ys ← for_each f xs; ret (y :: ys)
  end.

Definition list_rows : M (list row) :=
  w ← get_world;
  for_each list_row (glob_config_files w).

Definition headings : list string := ["Endpoint Name"; "Status"; "Endpoint ID"].

(** [list_endpoints()], lines 452-481; drawing the table is one event. *)
Definition list_endpoints : M unit :=
  rows ← list_rows;
  emit (DrawTable headings rows).

(** ** delete_endpoint *)

(** [typer.confirm(text, abort=True)] *)
Definition typer_confirm (text : string) (args : list value) : M unit :=
  print text args;;
  w ← get_world;
  if confirm_answer (env w) then ret tt else raise Abort.

(** [delete_endpoint(name, autoconfirm)], lines 484-501. *)
Definition delete_endpoint (name : string) (autoconfirm : bool) : M unit :=
  (if negb autoconfirm
   then typer_confirm "Are you sure you want to delete the endpoint <{}>?" [VStr name]
   else ret tt);;
  active ← os_path_exists (name, "daemon.pid");
  (if active then stop_endpoint name else ret tt);;
  shutil_rmtree name.

(** ** configure_endpoint and what it reads *)

(** [State.FUNCX_CONFIG_FILE], the [config.py] at the root of the
    configuration directory, described by what [main] reads from it. *)
Record global_file : Type := {
  global_options : option (gmap string value)
    (* load_module().global_options, None: it fails *)
}.

(** What the commands read outside the configuration directory: the
    endpoint configuration template of the installed package, by the file
    that [Template(text).substitute(name=endpoint_name)] leaves when written
    out, or the exception [substitute] raises; the package's
    [global_config.py], which is [State.FUNCX_DEFAULT_CONFIG_TEMPLATE]; and
    the files the user can name with [--endpoint-config], by their path.
    These paths do not lead into [State.FUNCX_DIR]. *)
Record installation : Type := {
  render_default_config : string → file + exn;
  global_config_template : global_file;
  user_files : gmap string file
}.

(** [os.makedirs(endpoint_dir, exist_ok=True)] *)
Definition os_makedirs (name : string) : M unit :=
  modify (λ w, match funcx_dir w !! name with
               | Some _ => w
               | None => set_funcx_dir (<[name := ∅]> (funcx_dir w)) w
               end).

(** [shutil.copyfile(src, dst)] for a source outside the configuration
    directory. *)
Definition shutil_copyfile (inst : installation) (src : value) (dst : path) : M unit :=
  match src with
  | VStr s =>
      match user_files inst !! s with
      | Some f => write_file dst f
      | None => raise FileNotFoundError
      end
  | _ => raise TypeError
  end.

(** [init_endpoint_dir(endpoint_name, endpoint_config)], lines 119-151. *)
Definition init_endpoint_dir (inst : installation) (endpoint_name : string)
    (endpoint_config : value) : M string :=
  w ← get_world;
  let endpoint_dir := endpoint_dir_path w endpoint_name in
  logger DEBUG_ "Creating endpoint dir {}" [VStr endpoint_dir];;
  os_makedirs endpoint_name;;
  let endpoint_config_target_file := (endpoint_name, "config.py") in
  if truthy endpoint_config then
    shutil_copyfile inst endpoint_config endpoint_config_target_file;;
    ret endpoint_dir
  else
    match render_default_config inst endpoint_name with
    | inl endpoint_config_template =>
        write_file endpoint_config_target_file endpoint_config_template;;
        ret endpoint_dir
    | inr e => raise e
    end.

(** [configure_endpoint(name, endpoint_config)], lines 224-244. *)
Definition configure_endpoint (inst : installation) (name : string)
    (endpoint_config : value) : M unit :=
  w ← get_world;
  let endpoint_dir := endpoint_dir_path w name in
  let new_config_file := os_path_join endpoint_dir "config.py" in
  found ← dir_exists name;
  if negb found then
    init_endpoint_dir inst name endpoint_config;;
    print "A default profile has been create for <{}> at {}
Configure this file and try restarting with:
    $ funcx-endpoint start {}" [VStr name; VStr new_config_file; VStr name]
  else ret tt.

(** [complete_endpoint_name()], lines 51-54: the names the generator
    yields, in order. *)
Definition complete_endpoint_name : M (list string) :=
  w ← get_world;
  ret (glob_config_files w).

(** ** The configuration directory as a whole: init_endpoint and main *)

(** A root that was moved away: its [config.py] and its endpoint
    directories. *)
Definition snapshot : Type := option global_file * gmap string (gmap string file).

(** The state [main] and [init_endpoint] work on: the world of the
    commands, whose tree is the one under the directory [main] is given; the
    [config.py] at its root; and the backup directory
    [State.FUNCX_DIR + ".bak"].  A home is the tree of one configuration
    directory: two runs of [main] are on the same home only if they are given
    the same [config_dir]. *)
Record home : Type := {
  commands : world;
  funcx_config_file : option global_file;
  backup_dir : option snapshot
}.

Definition HM (A : Type) : Type := home → result A * home.

Definition retH {A : Type} (a : A) : HM A := λ h, (Ok a, h).

Definition bindH {A B : Type} (m : HM A) (k : A → HM B) : HM B := λ h,
  match m h with
  | (Ok a, h') => k a h'
  | (Raise e, h') => (Raise e, h')
  | (Running, h') => (Running, h')
  end.

(** A command step, run inside the larger state. *)
Definition lift {A : Type} (m : M A) : HM A := λ h,
  let '(r, w') := m (commands h) in
  (r, {| commands := w'; funcx_config_file := funcx_config_file h;
         backup_dir := backup_dir h |}).

Declare Scope home_scope.
Delimit Scope home_scope with home.
Notation "x ← m ; k" := (bindH m (λ x, k))
  (at level 20, m at level 100, k at level 200, only parsing) : home_scope.
Notation "m ;; k" := (bindH m (λ _, k))
  (at level 100, k at level 200, only parsing, right associativity) : home_scope.

(** [os.path.exists(State.FUNCX_CONFIG_FILE)], the [config.py] at the
    root of the home's directory. *)
Definition config_file_exists : HM bool := λ h,
  (Ok (bool_decide (is_Some (funcx_config_file h))), h).

(** [try: shutil.rmtree(backup_dir) except OSError: pass] *)
Definition remove_backup : HM unit := λ h,
  (Ok tt, {| commands := commands h; funcx_config_file := funcx_config_file h;
             backup_dir := None |}).

(** [os.renames(State.FUNCX_DIR, backup_dir)], once the old backup is out
    of the way: the whole root is moved. *)
Definition os_renames_to_backup : HM unit := λ h,
  (Ok tt, {| commands := set_funcx_dir ∅ (commands h);
             funcx_config_file := None;
             backup_dir := Some (funcx_config_file h, funcx_dir (commands h)) |}).

(** [shutil.copyfile(State.FUNCX_DEFAULT_CONFIG_TEMPLATE,
    State.FUNCX_CONFIG_FILE)], after [os.makedirs(State.FUNCX_DIR,
    exist_ok=True)]; the template is the package's [global_config.py]. *)
Definition copy_global_template (template : global_file) : HM unit := λ h,
  (Ok tt, {| commands := commands h; funcx_config_file := Some template;
             backup_dir := backup_dir h |}).

(** [init_endpoint()], lines 154-188.  The construction [FuncXClient()]
    has no effect the model observes. *)
Definition init_endpoint (inst : installation) : HM unit :=
  (initialized ← config_file_exists;
   (if initialized then
      w ← lift get_world;
      lift (typer_confirm
              "Are you sure you want to initialize this directory? This will erase everything in {}"
              [VStr (FUNCX_DIR w)]);;
      lift (logger INFO "Wiping all current configs in {}" [VStr (FUNCX_DIR w)]);;
      lift (logger DEBUG_ "Removing old backups in {}" [VStr (FUNCX_DIR w ++ ".bak")]);;
      remove_backup;;
      os_renames_to_backup
    else retH tt);;
   still_there ← config_file_exists;
   if still_there then
     w ← lift get_world;
     lift (logger DEBUG_ "Config file exists at {}"
             [VStr (os_path_join (FUNCX_DIR w) "config.py")])
   else
     copy_global_template (global_config_template inst);;
     lift (init_endpoint_dir inst "default" VNone);;
     retH tt)%home.

(** [State.DEBUG = debug; State.FUNCX_DIR = config_dir] *)
Definition set_State (debug : bool) (config_dir : string) (w : world) : world :=
  {| env := env w; FUNCX_DIR := config_dir; FUNCX_CONFIG := FUNCX_CONFIG w;
     DEBUG := debug; funcx_dir := funcx_dir w; procs := procs w;
     self_pid := self_pid w; requests := requests w; trace := trace w |}.

(** [State.FUNCX_CONFIG = funcx_config.global_options] *)
Definition set_FUNCX_CONFIG (options : gmap string value) (w : world) : world :=
  {| env := env w; FUNCX_DIR := FUNCX_DIR w; FUNCX_CONFIG := options;
     DEBUG := DEBUG w; funcx_dir := funcx_dir w; procs := procs w;
     self_pid := self_pid w; requests := requests w; trace := trace w |}.

(** [SourceFileLoader('global_config', State.FUNCX_CONFIG_FILE)
    .load_module().global_options] *)
Definition load_global_options : HM (gmap string value) := λ h,
  match funcx_config_file h with
  | Some f =>
      match global_options f with
      | Some options => (Ok options, h)
      | None => (Raise ModuleLoadError, h)
      end
  | None => (Raise FileNotFoundError, h)
  end.

(** [main(ctx, _, debug, config_dir)], lines 504-533: the callback that
    runs before every command.  [invoked_subcommand] is
    [ctx.invoked_subcommand]. *)
Definition main (inst : installation) (invoked_subcommand : string)
    (debug : bool) (config_dir : string) : HM unit :=
  (lift (logger DEBUG_ "Command: {}" [VStr invoked_subcommand]);;
   lift (modify (set_State debug config_dir));;
   has_config ← config_file_exists;
   (if negb has_config then
      lift (logger INFO "No existing configuration found at {}. Initializing..."
              [VStr (os_path_join config_dir "config.py")]);;
      init_endpoint inst
    else retH tt);;
   lift (logger DEBUG_ "Loading config files from {}" [VStr config_dir]);;
   funcx_config ← load_global_options;
   lift (modify (set_FUNCX_CONFIG funcx_config)))%home.

(** * Vocabulary of the properties *)

(** ** Names, paths and process ids *)

(** The character occurs in the string. *)
Fixpoint occurs (c : ascii) (s : string) : bool :=
  match s with
  | EmptyString => false
  | String a rest => Ascii.eqb a c || occurs c rest
  end.

(** The string is one component of a path, naming an entry of a directory:
    not empty, not [.] or [..], without a slash and without a NUL. *)
Definition path_component (s : string) : Prop :=
  s ≠ "" ∧ s ≠ "." ∧ s ≠ ".."
  ∧ occurs "/" s = false ∧ occurs Ascii.zero s = false.

(** A name for an endpoint: one path component, so that
    [os.path.join(State.FUNCX_DIR, name)] is the entry of that name in the
    root, and not the name of the root's own [config.py], the one file the
    program keeps beside the endpoint directories. *)
Definition endpoint_name (name : string) : Prop :=
  path_component name ∧ name ≠ "config.py".

(** [glob.has_magic] *)
Definition has_magic (s : string) : bool :=
  occurs "*" s || occurs "?" s || occurs "[" s.

(** [State.FUNCX_DIR] holds none of the characters [glob] gives a meaning
    to, so that the pattern [FUNCX_DIR/*/config.py] ranges over the entries
    of that very directory. *)
Definition literal_root (w : world) : Prop := has_magic (FUNCX_DIR w) = false.

(** The number is the id of one process: positive, and within [pid_t]. *)
Definition process_id (pid : Z) : Prop := 0 < pid ∧ pid < 2147483648.

(** ** States and logs *)

(** [w] with the events [es] appended to what was observed so far. *)
Definition logged (es : list event) (w : world) : world :=
  set_trace (trace w ++ es) w.

(** The messages [check_pidfile] logs when asked to. *)
Definition check_pidfile_log (endpoint_name : string) (found : bool) : list event :=
  if found then [Log INFO "Endpoint is already active" []]
  else [Log INFO "A prior Endpoint instance appears to have been terminated without proper cleanup" [];
        Log INFO "Please cleanup using:
    $ funcx-endpoint stop {}" [VStr endpoint_name]].

(** The messages of [start_endpoint] up to its decision. *)
Definition start_refusal_log (name : string) (id : value) (found : bool) : list event :=
  Log INFO "Starting endpoint with uuid: {}" [id] :: check_pidfile_log name found.

(** The result is an exception. *)
Definition raises {A : Type} (r : result A) : bool :=
  match r with Raise _ => true | _ => false end.

(** ** The files of an endpoint *)

(** The registration record of endpoint [name]. *)
Definition record_file (name : string) : path := (name, "endpoint.json").

(** The endpoint directory exists and its [config.py] loads as [cfg]. *)
Definition configured (w : world) (name : string) (cfg : config) : Prop :=
  ∃ f, lookup_file w (name, "config.py") = Some f ∧ as_module f = Some cfg.

(** The endpoint's registration record, when there is one, is a JSON object
    with an [endpoint_id]. *)
Definition record_readable (w : world) (name : string) : Prop :=
  ∀ f, lookup_file w (record_file name) = Some f →
       ∃ d e, as_json f = Some (VDict d) ∧ d !! "endpoint_id" = Some e.

(** The endpoint's pidfile, when there is one, holds a pid. *)
Definition pidfile_readable (w : world) (name : string) : Prop :=
  ∀ f, lookup_file w (pid_file_of name) = Some f →
       ∃ pid, as_int f = Some pid ∧ 0 ≤ pid.

(** The pidfile of [name] is there and holds a pid that can name a
    process. *)
Definition pidfile_records (w : world) (name : string) (pid : Z) : Prop :=
  ∃ f, lookup_file w (pid_file_of name) = Some f ∧ as_int f = Some pid ∧ 0 ≤ pid.

(** [json.dump] accepts the value. *)
Definition serializable (j : value) : Prop := ∀ c, j ≠ VObject c.

(** ** Processes and signals *)

(** A live process with pid [pid] exists and its name is [name]. *)
Definition live_named (w : world) (pid : Z) (name : string) : Prop :=
  ∃ pr, procs w !! pid = Some pr ∧ pname pr = name.

(** The same, as the test [check_pidfile] makes. *)
Definition live_namedb (w : world) (pid : Z) (name : string) : bool :=
  match procs w !! pid with
  | Some pr => String.eqb (pname pr) name
  | None => false
  end.

(** The pidfile of [name] is stale: it records a pid, and no live process
    with the expected name has it. *)
Definition stale (w : world) (name : string) : Prop :=
  ∃ pid, pidfile_records w name pid ∧ live_namedb w pid default_match_name = false.

(** One of the two [os.kill] calls of [stop_endpoint] raises: the first,
    or the second in the state the first has left. *)
Definition signalling_fails (w : world) (pid : Z) : bool :=
  raises (os_kill pid SIGTERM w).1
  || raises (os_kill pid SIGKILL (os_kill pid SIGTERM w).2).1.

(** ** The listing *)

(** The status the specification gives an endpoint: [Initialized] without a
    registration record, else [Active] or [Inactive] as the liveness check
    of its pidfile says. *)
Definition expected_status (w : world) (name : string) : string :=
  match lookup_file w (record_file name) with
  | None => "Initialized"
  | Some _ =>
      match (check_pidfile (pid_file_of name) default_match_name "" false w).1 with
      | Ok {| pr_exists := _; pr_active := 1 |} => "Active"
      | _ => "Inactive"
      end
  end.

(** The [endpoint_id] of the registration record, when there is one. *)
Definition recorded_id (w : world) (name : string) : option value :=
  match lookup_file w (record_file name) ≫= as_json with
  | Some (VDict d) => d !! "endpoint_id"
  | _ => None
  end.

(** The row the specification gives an endpoint. *)
Definition expected_row (w : world) (name : string) : row :=
  (name, expected_status w name, recorded_id w name).

(** ** Registration *)

(** The reply the mock hub gives to the next POST. *)
Definition next_hub_reply (w : world) : post_result := hub_reply (env w) (requests w).

(** The state after the POST of [register_with_hub] has been sent. *)
Definition hub_posted (endpoint_uuid : value) (a : string) (redis_host : value)
    (w : world) : world :=
  let ip_addr := List.nth (random_choice (env w) (requests w) mod length sites)%nat sites "" in
  set_requests (S (requests w))
    (logged [Print "Picking source as a mock site" [];
             Post (a ++ "/register")
               (VDict (<["endpoint_id" := endpoint_uuid]>
                        (<["endpoint_addr" := VStr ip_addr]>
                          (<["redis_address" := redis_host]> ∅))))] w).

(** The outcome of the next call of the funcX client. *)
Definition next_service_reply (w : world) : call_result :=
  service_reply (env w) (requests w).

(** The state after one call of the funcX client has been made. *)
Definition client_called (name : string) (u : value) (w : world) : world :=
  set_requests (S (requests w))
    (logged [Log DEBUG_ "Attempting registration" [];
             Log DEBUG_ "Trying with eid : {}" [u];
             ClientRegister name u] w).

(** The calls of the funcX client, in order: endpoint name and identity. *)
Definition registrations (t : list event) : list (string * value) :=
  omap (λ e, match e with ClientRegister n u => Some (n, u) | _ => None end) t.

(** The durations slept, in order. *)
Definition slept (t : list event) : list Q :=
  omap (λ e, match e with Sleep q => Some q | _ => None end) t.

(** ** What an action leaves alone *)

(** [m] takes every state to one related to it by [R], whatever its
    result. *)
Definition keeps (R : world → world → Prop) {A : Type} (m : M A) : Prop :=
  ∀ w, R w (m w).2.

(** The pidfile of [name] and the process table are the same in both
    states. *)
Definition steady (name : string) (w w' : world) : Prop :=
  lookup_file w' (pid_file_of name) = lookup_file w (pid_file_of name)
  ∧ procs w' = procs w.

(** ** The daemon *)

(** The output files of a detached daemon are plain file names in the
    endpoint directory, and none of them is the configuration, the pidfile or
    the registration record (under another spelling either, since a plain
    name has no other). *)
Definition launchable (cfg : config) : Prop :=
  detach_endpoint cfg = true →
  stdout cfg ≠ "config.py" ∧ stdout cfg ≠ "daemon.pid"
  ∧ stderr cfg ≠ "config.py" ∧ stderr cfg ≠ "daemon.pid"
  ∧ stdout cfg ≠ "endpoint.json" ∧ stderr cfg ≠ "endpoint.json"
  ∧ path_component (stdout cfg) ∧ path_component (stderr cfg).

(** The pid the daemon runs under. *)
Definition daemon_pid (w : world) (cfg : config) : Z :=
  if detach_endpoint cfg then fork_pid (env w) else self_pid w.

(** The daemon, as the process table has it. *)
Definition daemon_process (w : world) (name : string) : process :=
  {| pname := self_name (env w); killable := true; holds := Some name |}.

(** ** Deleting *)

(** The confirmation is given, or not asked for. *)
Definition confirmed (w : world) (autoconfirm : bool) : Prop :=
  autoconfirm = true ∨ confirm_answer (env w) = true.

(** The state after the confirmation step of [delete_endpoint]. *)
Definition asked (name : string) (autoconfirm : bool) (w : world) : world :=
  if autoconfirm then w
  else logged [Print "Are you sure you want to delete the endpoint <{}>?" [VStr name]] w.

(** ** What the commands show *)

(** The guidance [start_endpoint] prints for an endpoint without a
    directory. *)
Definition not_configured_message (name : string) : event :=
  Print "Endpoint {0} is not configured!
1. Please create a configuration template with:
   $ funcx-endpoint configure {0}
2. Update configuration
3. Start the endpoint.
        " [VStr name].

(** What [stop_endpoint] adds to the log when both signals are delivered. *)
Definition stop_events (name : string) (pid : Z) (released : bool) : list event :=
  [Log DEBUG_ "{} has a daemon.pid file" [VStr name];
   Log DEBUG_ "Signalling process: {}" [VInt pid];
   Delivered pid SIGTERM; Sleep 0.1; Delivered pid SIGKILL; Sleep 0.1]
  ++ (if released then [Log INFO "Endpoint <{}> is now stopped" [VStr name]] else []).

(** What [configure] shows after a successful run. *)
Definition configure_log (w : world) (name : string) : list event :=
  [Log DEBUG_ "Creating endpoint dir {}" [VStr (endpoint_dir_path w name)];
   Print "A default profile has been create for <{}> at {}
Configure this file and try restarting with:
    $ funcx-endpoint start {}"
     [VStr name; VStr (os_path_join (endpoint_dir_path w name) "config.py"); VStr name]].

(** The confirmation prompt of [init_endpoint]. *)
Definition wipe_prompt (w : world) : event :=
  Print "Are you sure you want to initialize this directory? This will erase everything in {}"
    [VStr (FUNCX_DIR w)].

(** The events that a run added to the log. *)
Definition added (before after : world) : list event :=
  drop (length (trace before)) (trace after).

(** ** More states of the pidfile and of the root *)

(** The pidfile of [name] is there and does not hold a number. *)
Definition pidfile_garbled (w : world) (name : string) : Prop :=
  ∃ f, lookup_file w (pid_file_of name) = Some f ∧ as_int f = None.

(** The root with one more endpoint directory, holding the files [d]. *)
Definition with_endpoint (name : string) (d : gmap string file) (w : world) : world :=
  set_funcx_dir (<[name := d]> (funcx_dir w)) w.

(** The state after [init_endpoint_dir("default")] has installed the
    rendered template [f]: the directory [default] exists and its [config.py]
    is [f]; what else the directory held is still there. *)
Definition default_installed (f : file) (w : world) : world :=
  with_endpoint "default"
    (<["config.py" := f]> (default ∅ (funcx_dir w !! "default")))
    (logged [Log DEBUG_ "Creating endpoint dir {}" [VStr (endpoint_dir_path w "default")]] w).

(** The state in which a confirmed [init_endpoint] starts afresh. *)
Definition wiped (h : home) : home :=
  {| commands := set_funcx_dir ∅
       (logged [wipe_prompt (commands h);
                Log INFO "Wiping all current configs in {}" [VStr (FUNCX_DIR (commands h))];
                Log DEBUG_ "Removing old backups in {}"
                  [VStr (FUNCX_DIR (commands h) ++ ".bak")]] (commands h));
     funcx_config_file := None;
     backup_dir := Some (funcx_config_file h, funcx_dir (commands h)) |}.

(** ** More of what an action leaves alone *)

(** Between the two states nothing has changed but registration records,
    the log and the count of requests. *)
Definition undisturbed (w w' : world) : Prop :=
  (∀ p, p.2 ≠ "endpoint.json" → lookup_file w' p = lookup_file w p)
  ∧ (∀ dir, is_Some (funcx_dir w' !! dir) ↔ is_Some (funcx_dir w !! dir))
  ∧ procs w' = procs w ∧ self_pid w' = self_pid w ∧ env w' = env w
  ∧ FUNCX_CONFIG w' = FUNCX_CONFIG w ∧ DEBUG w' = DEBUG w
  ∧ FUNCX_DIR w' = FUNCX_DIR w.

(** The settings of the command are the same in both states: the
    environment, the command's pid, [State] and the count of requests. *)
Definition same_settings (w w' : world) : Prop :=
  env w' = env w ∧ self_pid w' = self_pid w ∧ FUNCX_DIR w' = FUNCX_DIR w
  ∧ FUNCX_CONFIG w' = FUNCX_CONFIG w ∧ DEBUG w' = DEBUG w ∧ requests w' = requests w.

(** [m] only adds to the log, and every event it adds satisfies [P]. *)
Definition emits (P : event → Prop) {A : Type} (m : M A) : Prop :=
  ∀ w, ∃ es, trace (m w).2 = (trace w ++ es)%list ∧ Forall P es.

(** The event, if it is a request to a service or a run of the interchange,
    is made for endpoint [name] under the identity [u] with the
    configuration [cfg]. *)
Definition carries_identity (name : string) (cfg : config) (u : value) (e : event) : Prop :=
  match e with
  | ClientRegister n i => n = name ∧ i = u
  | Post _ body => ∃ d, body = VDict d ∧ d !! "endpoint_id" = Some u
  | RunInterchange c i _ => c = cfg ∧ i = u
  | _ => True
  end.

(** ** Strings and rows *)

(** [sep.join(pieces)] for a one character separator *)
Fixpoint join_with (sep : ascii) (pieces : list string) : string :=
  match pieces with
  | [] => EmptyString
  | [x] => x
  | x :: rest => x ++ String sep (join_with sep rest)
  end.

(** The keys [start_endpoint] can put into [optionals]. *)
Definition optional_keys : list string :=
  ["client_address"; "client_ports"; "interchange_address"; "logdir"; "logging_level"].

(** The endpoint name of a row. *)
Definition row_name (r : row) : string := r.1.1.

(** ** Worlds to run the program on *)

Definition ex_reg_info : value :=
  VDict (<["endpoint_id" := VStr "6f1c2a0e-5b7d-4c3a-9e21-0a4d8b7c1f55"]>
          (<["address" := VStr "10.0.0.7"]>
            (<["client_ports" := VStr "55001,55002,55003"]> ∅))).

Definition ex_config : config :=
  {| funcx_service_address := "https://api.funcx.org/v1";
     detach_endpoint := true;
     stdout := "endpoint.log";
     stderr := "endpoint.log" |}.

(** A service that rejects the first registration and accepts the next
    ones; a hub that accepts. *)
Definition ex_env : environment :=
  {| on_sigterm := λ _, Lingers;
     confirm_answer := true;
     next_uuid := "0b9d6c5e-3f42-4a8b-b1d7-2c6e9a0f4d13";
     random_choice := λ _, 2%nat;
     hub_reply := λ _, Response 200 "OK" (Some ex_reg_info);
     service_reply := λ n, match n with
                           | O => Throws (RegistrationError "Forbidden")
                           | _ => Returns ex_reg_info
                           end;
     self_name := "funcx-endpoint";
     fork_pid := 5150 |}.

Definition ex_world (d : gmap string file) (p : gmap Z process) : world :=
  {| env := ex_env; FUNCX_DIR := "/home/user/.funcx"; FUNCX_CONFIG := ∅;
     DEBUG := false; funcx_dir := {["default" := d]}; procs := p;
     self_pid := 4000; requests := 0; trace := [] |}.

(** Configured, never started. *)
Definition ex_initialized : world :=
  ex_world {["config.py" := module_text ex_config]} ∅.

(** Registered once, the daemon gone without cleaning up: the pidfile names
    pid 4242 and no such process lives. *)
Definition ex_stale : world :=
  ex_world (<["daemon.pid" := pid_text 4242]>
             (<["endpoint.json" := json_text ex_reg_info]>
               {["config.py" := module_text ex_config]})) ∅.

(** Registered and running as process 4242. *)
Definition ex_active : world :=
  ex_world (<["daemon.pid" := pid_text 4242]>
             (<["endpoint.json" := json_text ex_reg_info]>
               {["config.py" := module_text ex_config]}))
           {[4242 := {| pname := "funcx-endpoint"; killable := true;
                        holds := Some "default" |}]}.

(** The same world with processes that all react to SIGTERM as [r]. *)
Definition reacting (r : term_reaction) (w : world) : world :=
  {| env := {| on_sigterm := λ _, r;
               confirm_answer := confirm_answer (env w);
               next_uuid := next_uuid (env w);
               random_choice := random_choice (env w);
               hub_reply := hub_reply (env w);
               service_reply := service_reply (env w);
               self_name := self_name (env w);
               fork_pid := fork_pid (env w) |};
     FUNCX_DIR := FUNCX_DIR w; FUNCX_CONFIG := FUNCX_CONFIG w; DEBUG := DEBUG w;
     funcx_dir := funcx_dir w; procs := procs w; self_pid := self_pid w;
     requests := requests w; trace := trace w |}.

(** ** More worlds *)

(** An endpoint whose daemon was interrupted while writing its pidfile. *)
Definition ex_garbled : world :=
  ex_world (<["daemon.pid" := empty_text]>
             (<["endpoint.json" := json_text ex_reg_info]>
               {["config.py" := module_text ex_config]})) ∅.

(** A mock-hub setup whose hub turns the registration down. *)
Definition ex_broker : world :=
  {| env := {| on_sigterm := λ _, Lingers;
               confirm_answer := false;
               next_uuid := "0b9d6c5e-3f42-4a8b-b1d7-2c6e9a0f4d13";
               random_choice := λ _, 4%nat;
               hub_reply := λ _, Response 503 "Service Unavailable" None;
               service_reply := λ _, Throws ConnectionError;
               self_name := "funcx-endpoint";
               fork_pid := 5150 |};
     FUNCX_DIR := "/home/user/.funcx";
     FUNCX_CONFIG := <["broker_test" := VBool true]>
                       (<["broker_address" := VStr "http://hub:8080"]>
                         (<["redis_host" := VStr default_redis_host]> ∅));
     DEBUG := true;
     funcx_dir := {["default" := {["config.py" := module_text ex_config]}]};
     procs := ∅; self_pid := 4000; requests := 0; trace := [] |}.

(** The same world with a hub that answers every POST with [r]. *)
Definition answering (r : post_result) (w : world) : world :=
  {| env := {| on_sigterm := on_sigterm (env w);
               confirm_answer := confirm_answer (env w);
               next_uuid := next_uuid (env w);
               random_choice := random_choice (env w);
               hub_reply := λ _, r;
               service_reply := service_reply (env w);
               self_name := self_name (env w);
               fork_pid := fork_pid (env w) |};
     FUNCX_DIR := FUNCX_DIR w; FUNCX_CONFIG := FUNCX_CONFIG w; DEBUG := DEBUG w;
     funcx_dir := funcx_dir w; procs := procs w; self_pid := self_pid w;
     requests := requests w; trace := trace w |}.

(** Two endpoints, one of them with a registration record that was cut
    short. *)
Definition ex_two : world :=
  {| env := ex_env; FUNCX_DIR := "/home/user/.funcx"; FUNCX_CONFIG := ∅;
     DEBUG := false;
     funcx_dir := <["default" := {["config.py" := module_text ex_config]}]>
                    {["gpu" := <["endpoint.json" := empty_text]>
                                 {["config.py" := module_text ex_config]}]};
     procs := ∅; self_pid := 4000; requests := 0; trace := [] |}.

(** A package whose endpoint template loads as [ex_config] for every name
    and whose global options are empty, and one file of the user's. *)
Definition ex_installation : installation :=
  {| render_default_config := λ _, inl (module_text ex_config);
     global_config_template := {| global_options := Some ∅ |};
     user_files := {["/home/user/gpu_config.py" := module_text ex_config]} |}.

(** A package whose endpoint template has a placeholder that
    [init_endpoint_dir] does not fill in. *)
Definition ex_broken_installation : installation :=
  {| render_default_config := λ _, inr (KeyError "user");
     global_config_template := {| global_options := Some ∅ |};
     user_files := ∅ |}.

(** A first run: nothing is there yet. *)
Definition ex_empty_home : home :=
  {| commands := {| env := ex_env; FUNCX_DIR := "/home/user/.funcx"; FUNCX_CONFIG := ∅;
                    DEBUG := false; funcx_dir := ∅; procs := ∅;
                    self_pid := 4000; requests := 0; trace := [] |};
     funcx_config_file := None;
     backup_dir := None |}.

(** An initialized home with the active endpoint of [ex_active]. *)
Definition ex_home : home :=
  {| commands := ex_active;
     funcx_config_file := Some {| global_options := Some {["broker_test" := VBool false]} |};
     backup_dir := None |}.

(** * Properties *)

(** An endpoint name given in full. *)
Ltac plain_name :=
  unfold endpoint_name, path_component;
  split_and!; first [reflexivity | let H := fresh in intros H; discriminate H].

(** ** Files and logs *)

Lemma lookup_file_set_trace t w p : lookup_file (set_trace t w) p = lookup_file w p.
Proof. done. Qed.

Lemma lookup_file_logged es w p : lookup_file (logged es w) p = lookup_file w p.
Proof. done. Qed.

Lemma live_namedb_logged es w pid n : live_namedb (logged es w) pid n = live_namedb w pid n.
Proof. done. Qed.

Lemma logged_logged es1 es2 w : logged es2 (logged es1 w) = logged (es1 ++ es2) w.
Proof. unfold logged. cbn. by rewrite app_assoc. Qed.

Lemma lookup_file_drop_process pid w p :
  lookup_file (drop_process pid w) p = lookup_file w p.
Proof. done. Qed.

Lemma lookup_file_remove_file p w : lookup_file (remove_file p w) p = None.
Proof.
  unfold lookup_file, remove_file; cbn. rewrite lookup_alter.
  case_decide; [|done].
  destruct (funcx_dir w !! p.1) as [d|]; cbn; [|done]. apply lookup_delete_eq.
Qed.

Lemma lookup_file_remove_file_other p q w :
  p ≠ q → lookup_file (remove_file p w) q = lookup_file w q.
Proof.
  intros Hne. destruct p as [pd pf], q as [qd qf].
  unfold lookup_file, remove_file; cbn. rewrite lookup_alter.
  case_decide as Hd; [subst qd|done].
  destruct (funcx_dir w !! pd) as [d|]; cbn; [|done].
  rewrite lookup_delete_ne; [done|congruence].
Qed.

Lemma lookup_file_dir w p : is_Some (lookup_file w p) → is_Some (funcx_dir w !! p.1).
Proof.
  unfold lookup_file. destruct (funcx_dir w !! p.1); [eauto|by intros [? ?]].
Qed.

Lemma lookup_file_write_file_eq p f w :
  is_Some (funcx_dir w !! p.1) → lookup_file (write_file p f w).2 p = Some f.
Proof.
  intros [d Hd]. unfold write_file, lookup_file. rewrite Hd. cbn.
  rewrite lookup_insert_eq. cbn. apply lookup_insert_eq.
Qed.

Lemma write_file_existing p f w :
  is_Some (funcx_dir w !! p.1) →
  ∃ w', write_file p f w = (Ok tt, w')
        ∧ lookup_file w' p = Some f
        ∧ (∀ q, q ≠ p → lookup_file w' q = lookup_file w q)
        ∧ procs w' = procs w ∧ env w' = env w ∧ self_pid w' = self_pid w.
Proof.
  intros [d Hd]. unfold write_file. rewrite Hd. eexists. split; [done|].
  split_and!; try done.
  - unfold lookup_file. cbn. rewrite lookup_insert_eq. cbn. apply lookup_insert_eq.
  - intros q Hq. unfold lookup_file. cbn. destruct p as [pd pf], q as [qd qf]. cbn in *.
    destruct (decide (pd = qd)) as [->|Hne].
    + rewrite lookup_insert_eq, Hd. cbn. rewrite lookup_insert_ne; [done|congruence].
    + by rewrite lookup_insert_ne.
Qed.

(** [json.dump] of a value that can be dumped is one write of the
    document. *)
Lemma json_dump_eq j p w :
  serializable j → json_dump j p w = write_file p (json_text j) w.
Proof.
  intros Hj. unfold json_dump, bind, write_file.
  destruct (funcx_dir w !! p.1) as [d|] eqn:Hd; cbn; [|done].
  destruct j; try (by destruct (Hj class)); cbn;
    by rewrite lookup_insert_eq, !insert_insert_eq.
Qed.

Lemma configured_dir w name cfg :
  configured w name cfg → is_Some (funcx_dir w !! name).
Proof.
  intros (f & Hf & _). unfold lookup_file in Hf. cbn in Hf.
  destruct (funcx_dir w !! name); [eauto|done].
Qed.

Lemma load_config_configured w name cfg :
  configured w name cfg → load_config (name, "config.py") w = (Ok cfg, w).
Proof.
  intros (f & Hf & Hm). unfold load_config, bind, read_file. by rewrite Hf, Hm.
Qed.

(** ** check_pidfile *)

Lemma live_namedb_spec w pid name :
  live_namedb w pid name = true ↔ live_named w pid name.
Proof.
  unfold live_namedb, live_named. destruct (procs w !! pid) as [pr|].
  - rewrite String.eqb_eq. split.
    + intros H. exists pr. done.
    + intros (pr' & [= <-] & H). done.
  - split; [done | intros (pr' & H & _); done].
Qed.

(** [check_pidfile], case by case. *)
Lemma check_pidfile_eq p mn en lg w :
  check_pidfile p mn en lg w =
  match lookup_file w p with
  | None => (Ok {| pr_exists := 0; pr_active := 0 |}, w)
  | Some f =>
      match as_int f with
      | None => (Raise ValueError, w)
      | Some pid =>
          if pid <? 0 then (Raise ValueError, w)
          else
            let found := live_namedb w pid mn in
            (Ok {| pr_exists := 1; pr_active := if found then 1 else 0 |},
             if lg then set_trace (trace w ++ check_pidfile_log en found) w else w)
      end
  end.
Proof.
  unfold check_pidfile, bind, os_path_exists, read_int, read_file, bind.
  destruct (lookup_file w p) as [f|] eqn:Hf; cbn; [|done].
  rewrite Hf. destruct (as_int f) as [pid|]; cbn; [|done].
  unfold try_except, bind, psutil_Process_name, live_namedb.
  destruct (pid <? 0); cbn; [done|].
  destruct (procs w !! pid) as [pr|]; cbn.
  - destruct (String.eqb (pname pr) mn); cbn; destruct lg; cbn;
      rewrite <- ?app_assoc; done.
  - destruct lg; cbn; rewrite <- ?app_assoc; done.
Qed.

(** A pidfile that does not hold a decimal pid makes [check_pidfile] raise:
    no record is returned. *)
Lemma check_pidfile_malformed p mn en lg w f :
  lookup_file w p = Some f → as_int f = None →
  check_pidfile p mn en lg w = (Raise ValueError, w).
Proof. intros Hf Hi. rewrite check_pidfile_eq, Hf, Hi. done. Qed.

(** C3, as the program has it.  Without a pidfile [check_pidfile] returns
    [{exists:0, active:0}].  With a pidfile that holds a pid (a decimal
    number that is not negative), it returns [{exists:1, active:1}] exactly
    when a live process has that pid and the expected name, and
    [{exists:1, active:0}] otherwise.  With a pidfile that holds no such
    number (it is empty, is not a number, is negative) it returns no record:
    it raises [ValueError], the state untouched.  Every record it returns
    satisfies [exists=0 ⇒ active=0] and [active=1 ⇒ exists=1]. *)
Theorem check_pidfile_spec (w : world) (p : path) (match_name en : string) (lg : bool) :
  (lookup_file w p = None →
     (check_pidfile p match_name en lg w).1 = Ok {| pr_exists := 0; pr_active := 0 |})
  ∧ (∀ f pid, lookup_file w p = Some f → as_int f = Some pid → 0 ≤ pid →
       (live_named w pid match_name ↔
          (check_pidfile p match_name en lg w).1 = Ok {| pr_exists := 1; pr_active := 1 |})
       ∧ (¬ live_named w pid match_name ↔
          (check_pidfile p match_name en lg w).1 = Ok {| pr_exists := 1; pr_active := 0 |}))
  ∧ (∀ r, (check_pidfile p match_name en lg w).1 = Ok r →
       (pr_exists r = 0 → pr_active r = 0) ∧ (pr_active r = 1 → pr_exists r = 1))
  ∧ (∀ f, lookup_file w p = Some f →
       as_int f = None ∨ (∃ pid, as_int f = Some pid ∧ pid < 0) →
       check_pidfile p match_name en lg w = (Raise ValueError, w)).
Proof.
  rewrite check_pidfile_eq. split; [|split; [|split]]; cycle 3.
  { intros f -> [->|(pid & -> & Hneg)]; [done|].
    by destruct (Z.ltb_spec pid 0) as [_|?]; [|lia]. }
  - intros ->. done.
  - intros f pid -> -> Hpid.
    destruct (Z.ltb_spec pid 0) as [?|_]; [lia|]. cbn.
    rewrite <- live_namedb_spec.
    destruct (live_namedb w pid match_name); cbn; split; split;
      try done; intros H; try discriminate H; exfalso; by apply H.
  - intros r. destruct (lookup_file w p) as [f|]; cbn.
    + destruct (as_int f) as [pid|]; cbn; [|done].
      destruct (pid <? 0); cbn; [done|].
      intros [= <-]; cbn. destruct (live_namedb w pid match_name); done.
    + intros [= <-]; done.
Qed.

Lemma check_pidfile_spec_witness :
  (check_pidfile (pid_file_of "default") default_match_name "default" false ex_active).1
  = Ok {| pr_exists := 1; pr_active := 1 |}.
Proof.
  destruct (check_pidfile_spec ex_active (pid_file_of "default")
              default_match_name "default" false) as (_ & H & _).
  apply (H (pid_text 4242) 4242); [reflexivity|reflexivity|lia|].
  eexists. split; reflexivity.
Defined.

(** C3, as stated, fails: a pidfile that exists and is empty (the daemon was
    interrupted between creating the file and writing its pid) is not
    reported as [{exists:1, active:0}]; [int()] raises and no record is
    returned. *)
Lemma check_pidfile_garbled_counterexample :
  lookup_file ex_garbled (pid_file_of "default") = Some empty_text
  ∧ ¬ live_named ex_garbled 4242 default_match_name
  ∧ check_pidfile (pid_file_of "default") default_match_name "default" false ex_garbled
    = (Raise ValueError, ex_garbled)
  ∧ (check_pidfile (pid_file_of "default") default_match_name "default" false ex_garbled).1
    ≠ Ok {| pr_exists := 1; pr_active := 0 |}.
Proof.
  split_and!; [reflexivity| |reflexivity|discriminate].
  intros (pr & Hpr & _). vm_compute in Hpr. discriminate Hpr.
Qed.

#[local] Arguments check_pidfile : simpl never.

(** ** Signals *)

Lemma procs_release_pidfile pid name w : procs (release_pidfile pid name w) = procs w.
Proof.
  unfold release_pidfile. destruct (_ ≫= _) as [r|]; [|done]. by destruct (r =? pid).
Qed.

Lemma procs_close_context pid pr w : procs (close_context pid pr w) = procs w.
Proof. unfold close_context. destruct (holds pr); [apply procs_release_pidfile|done]. Qed.

Lemma trace_release_pidfile pid name w : trace (release_pidfile pid name w) = trace w.
Proof.
  unfold release_pidfile. destruct (_ ≫= _) as [r|]; [|done]. by destruct (r =? pid).
Qed.

Lemma trace_close_context pid pr w : trace (close_context pid pr w) = trace w.
Proof. unfold close_context. destruct (holds pr); [apply trace_release_pidfile|done]. Qed.

(** Releasing a lock leaves every pidfile as it was or removes it. *)
Lemma lookup_file_release_pidfile pid name w p :
  lookup_file (release_pidfile pid name w) p = lookup_file w p
  ∨ lookup_file (release_pidfile pid name w) p = None.
Proof.
  unfold release_pidfile. destruct (_ ≫= _) as [r|]; [|by left].
  destruct (r =? pid); [|by left].
  destruct p as [dn fn]. unfold lookup_file, remove_file; cbn.
  rewrite lookup_alter. case_decide as Hd; [subst dn|by left].
  destruct (funcx_dir w !! name) as [d|] eqn:Hw; cbn; [|by left].
  destruct (decide (fn = "daemon.pid")) as [->|Hne].
  - right. apply lookup_delete_eq.
  - left. by rewrite lookup_delete_ne.
Qed.

Lemma lookup_file_close_context pid pr w p :
  lookup_file (close_context pid pr w) p = lookup_file w p
  ∨ lookup_file (close_context pid pr w) p = None.
Proof.
  unfold close_context. destruct (holds pr); [apply lookup_file_release_pidfile|by left].
Qed.

Lemma lookup_file_release_pidfile_other pid name w p :
  p.2 ≠ "daemon.pid" →
  lookup_file (release_pidfile pid name w) p = lookup_file w p.
Proof.
  intros Hp. unfold release_pidfile. destruct (_ ≫= _) as [r|]; [|done].
  destruct (r =? pid); [|done].
  destruct p as [dn fn]. unfold lookup_file, remove_file; cbn in *.
  rewrite lookup_alter. case_decide as Hd; [subst dn|done].
  destruct (funcx_dir w !! name) as [d|]; cbn; [|done].
  by rewrite lookup_delete_ne.
Qed.

Lemma lookup_file_close_context_other pid pr w p :
  p.2 ≠ "daemon.pid" →
  lookup_file (close_context pid pr w) p = lookup_file w p.
Proof.
  intros Hp. unfold close_context.
  destruct (holds pr); [by apply lookup_file_release_pidfile_other|done].
Qed.

Lemma close_context_set_trace pid pr t w :
  close_context pid pr (set_trace t w) = set_trace t (close_context pid pr w).
Proof.
  unfold close_context, release_pidfile. destruct (holds pr) as [name|]; [|done].
  rewrite lookup_file_set_trace. destruct (_ ≫= _) as [r|]; [|done].
  by destruct (r =? pid).
Qed.

Ltac norm :=
  repeat first
    [ rewrite lookup_file_set_trace | rewrite lookup_file_drop_process
    | rewrite close_context_set_trace | rewrite trace_close_context
    | rewrite procs_close_context | rewrite lookup_delete_eq
    | progress cbn [trace procs set_trace drop_process set_procs env fst snd] ].

(** What the [try] body of [stop_endpoint] does, by the state of the
    recorded process. *)
Lemma signal_endpoint_fails name pid w :
  signalling_fails w pid = true →
  ∃ e w1, signal_endpoint name pid w = (Raise e, w1) ∧ is_OSError e = true
    ∧ (lookup_file w1 (pid_file_of name) = lookup_file w (pid_file_of name)
       ∨ lookup_file w1 (pid_file_of name) = None)
    ∧ ∃ es, trace w1 = (trace w ++ es)%list.
Proof.
  unfold signalling_fails, signal_endpoint, bind, os_kill, logger, emit, modify, time_sleep.
  cbn. destruct (procs w !! pid) as [pr|] eqn:Hp; cbn.
  2:{ intros _. do 2 eexists. split_and!; [done|done|by left|by eexists]. }
  destruct (killable pr) eqn:Hk; cbn.
  2:{ intros _. do 2 eexists. split_and!; [done|done|by left|by eexists]. }
  unfold deliver. cbn [env set_trace].
  destruct (on_sigterm (env w) pid) eqn:Hr; norm; rewrite ?Hp, ?Hk; cbn; try done.
  - intros _. do 2 eexists. split_and!; [done|done|by left|].
    rewrite <- !app_assoc. by eexists.
  - intros _. do 2 eexists. split_and!; [done|done| |].
    + norm. apply lookup_file_close_context.
    + norm. rewrite <- !app_assoc. by eexists.
Qed.

Lemma signal_endpoint_ok name pid w :
  signalling_fails w pid = false →
  ∃ w1, signal_endpoint name pid w = (Ok tt, w1) ∧ procs w1 !! pid = None
    ∧ (lookup_file w1 (pid_file_of name) = lookup_file w (pid_file_of name)
       ∨ lookup_file w1 (pid_file_of name) = None).
Proof.
  unfold signalling_fails, signal_endpoint, bind, os_kill, logger, emit, modify, time_sleep.
  cbn. destruct (procs w !! pid) as [pr|] eqn:Hp; cbn; [|done].
  destruct (killable pr) eqn:Hk; cbn; [|done].
  unfold deliver. cbn [env set_trace].
  destruct (on_sigterm (env w) pid) eqn:Hr; norm; rewrite ?Hp, ?Hk; cbn; try done.
  - intros _. unfold os_path_exists. norm.
    destruct (lookup_file w (pid_file_of name)) eqn:E; cbn; eexists; split_and!;
      try done; norm; rewrite ?E; auto.
  - intros _. unfold os_path_exists. norm.
    destruct (lookup_file (close_context pid pr w) (pid_file_of name)) eqn:E; cbn;
      eexists; split_and!; try done; norm; auto.
    apply lookup_file_close_context.
Qed.

Lemma signalling_fails_set_trace t w pid :
  signalling_fails (set_trace t w) pid = signalling_fails w pid.
Proof.
  unfold signalling_fails, os_kill. cbn.
  destruct (procs w !! pid) as [pr|] eqn:Hp; cbn; [|done].
  destruct (killable pr) eqn:Hk; cbn; [|done].
  unfold deliver. cbn [env set_trace].
  destruct (on_sigterm (env w) pid); norm; rewrite ?Hp, ?Hk; done.
Qed.

(** Signalling touches no file but pidfiles. *)
Lemma signal_endpoint_other_files name pid w p :
  p.2 ≠ "daemon.pid" →
  lookup_file (signal_endpoint name pid w).2 p = lookup_file w p.
Proof.
  intros Hp.
  unfold signal_endpoint, bind, os_kill, logger, emit, modify, time_sleep.
  cbn. destruct (procs w !! pid) as [pr|] eqn:Hpr; cbn; [|done].
  destruct (killable pr) eqn:Hk; cbn; [|done].
  unfold deliver. cbn [env set_trace].
  destruct (on_sigterm (env w) pid) eqn:Hr; norm; rewrite ?Hpr, ?Hk; cbn;
    unfold os_path_exists; norm;
    repeat match goal with
           | |- context [bool_decide ?P] => destruct (bool_decide P); cbn
           end;
    norm; rewrite ?lookup_file_close_context_other by done; done.
Qed.

(** ** stop_endpoint *)

(** Without a pidfile [stop_endpoint] only says so. *)
Lemma stop_endpoint_absent name w :
  lookup_file w (pid_file_of name) = None →
  stop_endpoint name w
  = (Ok tt, logged [Log INFO "Endpoint <{}> is not active." [VStr name]] w).
Proof.
  intros H. unfold stop_endpoint, bind, os_path_exists. rewrite H. done.
Qed.

Lemma stop_endpoint_present name w f pid :
  lookup_file w (pid_file_of name) = Some f →
  as_int f = Some pid →
  stop_endpoint name w
  = try_except (signal_endpoint name pid) is_OSError (λ _, stop_cleanup name)
      (logged [Log DEBUG_ "{} has a daemon.pid file" [VStr name]] w).
Proof.
  intros Hf Hpid.
  unfold stop_endpoint, bind, os_path_exists. rewrite Hf. cbn.
  unfold read_int, bind, read_file. rewrite lookup_file_set_trace, Hf, Hpid. cbn.
  unfold try_except, logged.
  by destruct (signal_endpoint name pid _) as [[]].
Qed.

Lemma stop_cleanup_eq name w :
  stop_cleanup name w =
  let w' := logged [Log WARNING "Endpoint {} could not be terminated" [VStr name];
                    Log WARNING "Attempting Endpoint {} cleanup" [VStr name]] w in
  match lookup_file w (pid_file_of name) with
  | Some _ => (Raise (SystemExit (-1)), remove_file (pid_file_of name) w')
  | None => (Raise FileNotFoundError, w')
  end.
Proof.
  unfold stop_cleanup, bind, logger, emit, modify, os_remove, logged. cbn.
  rewrite !lookup_file_set_trace, <- !app_assoc.
  by destruct (lookup_file w (pid_file_of name)).
Qed.

(** [stop_endpoint] touches no file but pidfiles. *)
Lemma stop_endpoint_other_files name w p :
  pidfile_readable w name → p.2 ≠ "daemon.pid" →
  lookup_file (stop_endpoint name w).2 p = lookup_file w p.
Proof.
  intros Hread Hp.
  destruct (lookup_file w (pid_file_of name)) as [f|] eqn:Hf.
  - destruct (Hread f Hf) as (pid & Hpid & _).
    rewrite (stop_endpoint_present name w f pid Hf Hpid). unfold try_except.
    pose proof (signal_endpoint_other_files name pid
                  (logged [Log DEBUG_ "{} has a daemon.pid file" [VStr name]] w) p Hp) as Hs.
    destruct (signal_endpoint name pid _) as [[[]|e|] w1]; cbn [fst snd] in *; try done.
    destruct (is_OSError e); [|done]. rewrite stop_cleanup_eq. cbv zeta.
    destruct (lookup_file w1 (pid_file_of name)); cbn [snd]; [|done].
    rewrite lookup_file_remove_file_other, lookup_file_logged; [done|].
    destruct p. unfold pid_file_of. cbn in Hp. congruence.
  - by rewrite stop_endpoint_absent.
Qed.

(** When [stop_endpoint] returns, the process its pidfile names, if the
    pidfile is still there, is gone. *)
Lemma stop_endpoint_returns name w w1 :
  pidfile_readable w name →
  stop_endpoint name w = (Ok tt, w1) →
  (lookup_file w1 (pid_file_of name) = lookup_file w (pid_file_of name)
   ∨ lookup_file w1 (pid_file_of name) = None)
  ∧ ∀ pid, pidfile_records w1 name pid → procs w1 !! pid = None.
Proof.
  intros Hread.
  destruct (lookup_file w (pid_file_of name)) as [f|] eqn:Hf.
  - destruct (Hread f Hf) as (pid & Hpid & _).
    rewrite (stop_endpoint_present name w f pid Hf Hpid). unfold try_except.
    set (w0 := logged _ w).
    destruct (signalling_fails w0 pid) eqn:Hfail.
    + destruct (signal_endpoint_fails name pid w0 Hfail) as (e & w2 & -> & -> & _).
      rewrite stop_cleanup_eq. cbv zeta. by destruct (lookup_file w2 (pid_file_of name)).
    + destruct (signal_endpoint_ok name pid w0 Hfail) as (w2 & -> & Hgone & Hpf).
      intros [= <-]. subst w0. rewrite lookup_file_logged, Hf in Hpf.
      split; [exact Hpf|].
      intros pid' (f' & Hf' & Hpid' & _). destruct Hpf as [Hpf|Hpf]; [|congruence].
      rewrite Hpf in Hf'. injection Hf' as <-. congruence.
  - rewrite stop_endpoint_absent by done. intros [= <-]. split; [by left|].
    intros pid (f & Hf' & _). rewrite lookup_file_logged in Hf'. congruence.
Qed.

(** C7. For an endpoint name (one path component) whose directory holds
    no [daemon.pid], [stop] reports the endpoint as not active, raises
    nothing and changes nothing but the log; run twice in a row it does the
    same both times. *)
Theorem stop_absent_idempotent (w : world) (name : string) :
  endpoint_name name →
  lookup_file w (pid_file_of name) = None →
  let not_active := Log INFO "Endpoint <{}> is not active." [VStr name] in
  stop_endpoint name w = (Ok tt, logged [not_active] w)
  ∧ stop_endpoint name (stop_endpoint name w).2
    = (Ok tt, logged [not_active] (logged [not_active] w))
  ∧ funcx_dir (stop_endpoint name (stop_endpoint name w).2).2 = funcx_dir w
  ∧ procs (stop_endpoint name (stop_endpoint name w).2).2 = procs w.
Proof.
  intros _ H not_active. subst not_active.
  rewrite (stop_endpoint_absent name w H). cbn [snd].
  rewrite stop_endpoint_absent by done.
  done.
Qed.

Lemma stop_absent_idempotent_witness :
  stop_endpoint "default" ex_initialized
  = (Ok tt, logged [Log INFO "Endpoint <{}> is not active." [VStr "default"]] ex_initialized)
  ∧ procs (stop_endpoint "default" (stop_endpoint "default" ex_initialized).2).2
    = procs ex_initialized.
Proof.
  assert (H : lookup_file ex_initialized (pid_file_of "default") = None)
    by reflexivity.
  assert (Hn : endpoint_name "default").
  { unfold endpoint_name, path_component.
    split_and!; first [reflexivity | intros E; discriminate E]. }
  destruct (stop_absent_idempotent ex_initialized "default" Hn H) as (H1 & _ & _ & H4).
  exact (conj H1 H4).
Defined.

(** C6. When the pidfile exists and signalling the recorded pid, the id
    of a process, fails (one of the [os.kill] calls raises), [stop] logs a
    warning, the pidfile is gone afterwards, and the command ends with an
    exception that gives a non-zero exit status: [sys.exit(-1)] after
    removing the pidfile, or the [FileNotFoundError] of [os.remove] when the
    signalled process had removed the pidfile itself. *)
Theorem stop_signal_failure (w : world) (name : string) (f : file) (pid : Z) :
  lookup_file w (pid_file_of name) = Some f →
  as_int f = Some pid →
  process_id pid →
  signalling_fails w pid = true →
  let r := (stop_endpoint name w).1 in
  let w' := (stop_endpoint name w).2 in
  In (Log WARNING "Endpoint {} could not be terminated" [VStr name]) (trace w')
  ∧ lookup_file w' (pid_file_of name) = None
  ∧ (r = Raise (SystemExit (-1)) ∨ r = Raise FileNotFoundError)
  ∧ (∃ c, exit_status r = Some c ∧ c ≠ 0).
Proof.
  intros Hf Hpid _ Hfail. cbv zeta.
  rewrite (stop_endpoint_present name w f pid Hf Hpid).
  unfold logged in *.
  rewrite <- (signalling_fails_set_trace
    (trace w ++ [Log DEBUG_ "{} has a daemon.pid file" [VStr name]])) in Hfail.
  destruct (signal_endpoint_fails name pid _ Hfail) as (e & w1 & Hrun & He & Hpf & es & Htr).
  rewrite lookup_file_set_trace in Hpf.
  unfold try_except. rewrite Hrun, He, stop_cleanup_eq. cbv zeta.
  destruct Hpf as [Hpf|Hpf]; rewrite Hpf, ?Hf; cbn [fst snd].
  - rewrite lookup_file_remove_file. split_and!; [|done|by left|by eexists].
    cbn. rewrite !in_app_iff. cbn. tauto.
  - split_and!; [|done|by right|by eexists].
    cbn. rewrite !in_app_iff. cbn. tauto.
Qed.

Lemma stop_signal_failure_witness :
  (stop_endpoint "default" ex_stale).1 = Raise (SystemExit (-1))
  ∧ lookup_file (stop_endpoint "default" ex_stale).2 (pid_file_of "default") = None
  ∧ exit_status (stop_endpoint "default" ex_stale).1 = Some 255.
Proof.
  assert (Hf : lookup_file ex_stale (pid_file_of "default") = Some (pid_text 4242))
    by reflexivity.
  assert (Hp : as_int (pid_text 4242) = Some 4242) by reflexivity.
  assert (Hs : signalling_fails ex_stale 4242 = true) by reflexivity.
  assert (Hid : process_id 4242) by (unfold process_id; lia).
  destruct (stop_signal_failure ex_stale "default" _ 4242 Hf Hp Hid Hs) as (_ & H2 & _ & _).
  split; [reflexivity|]. split; [exact H2|reflexivity].
Defined.

(** ** start_endpoint *)

(** The identity block, case by case. *)
Lemma endpoint_identity_eq name u w :
  endpoint_identity name u w =
  match lookup_file w (record_file name) with
  | Some f =>
      let w' := logged [Log DEBUG_ "Connection info loaded from prior registration record" []] w in
      match as_json f with
      | Some (VDict d) =>
          match d !! "endpoint_id" with
          | Some e => (Ok e, w')
          | None => (Raise (KeyError "endpoint_id"), w')
          end
      | Some _ => (Raise TypeError, w')
      | None => (Raise JSONDecodeError, w')
      end
  | None => if truthy u then (Ok u, w) else (Ok (VStr (next_uuid (env w))), w)
  end.
Proof.
  unfold endpoint_identity, record_file, bind, os_path_exists.
  destruct (lookup_file w (name, "endpoint.json")) as [f|] eqn:Hf; cbn.
  - unfold json_load, bind, read_file. rewrite lookup_file_set_trace, Hf. cbn.
    destruct (as_json f) as [[]|]; cbn; try done.
    unfold getitem. by destruct (d !! "endpoint_id").
  - by destruct (truthy u).
Qed.

Lemma endpoint_identity_readable name u w :
  record_readable w name →
  ∃ id es, endpoint_identity name u w = (Ok id, logged es w).
Proof.
  intros Hr. rewrite endpoint_identity_eq.
  destruct (lookup_file w (record_file name)) as [f|] eqn:Hf.
  - destruct (Hr f Hf) as (d & e & -> & He). cbn. rewrite He. eauto.
  - exists (if truthy u then u else VStr (next_uuid (env w))), [].
    unfold logged. rewrite app_nil_r. destruct w; cbn. by destruct (truthy u).
Qed.

(** The supervision loop does not return. *)
Lemma supervise_no_return fuel name cfg u w : (supervise fuel name cfg u w).1 ≠ Ok tt.
Proof.
  revert w. induction fuel as [|fuel IH]; intros w; [done|].
  cbn [supervise]. unfold bind.
  repeat match goal with
         | |- context [match ?m ?w with _ => _ end] =>
             lazymatch m with
             | supervise _ _ _ _ => fail
             | _ => destruct (m w) as [[?|?|] ?]; cbn [fst]; try done
             end
         end.
Qed.

Lemma with_context_no_return fuel name p detach cfg u w :
  (with_context name p detach (supervise fuel name cfg u) w).1 ≠ Ok tt.
Proof.
  unfold with_context, bind, finally.
  destruct (daemon_open name p detach w) as [[?|?|] w1]; cbn; try done.
  pose proof (supervise_no_return fuel name cfg u w1) as H.
  destruct (supervise fuel name cfg u w1) as [[[]|?|] w2]; cbn in *; done.
Qed.

(** Once past the pidfile check, [start_endpoint] does not return. *)
Lemma start_daemon_no_return fuel name cfg u w :
  (start_daemon fuel name cfg u w).1 ≠ Ok tt.
Proof.
  unfold start_daemon, bind.
  destruct (_ w) as [[?|?|] w1]; cbn; try done.
  destruct (load_config _ w1) as [[?|?|] w2]; cbn; try done.
  apply with_context_no_return.
Qed.

(** [start_endpoint] on a configured endpoint: identity, pidfile check,
    then either the return or the daemon. *)
Lemma start_endpoint_eq fuel name u w cfg :
  configured w name cfg →
  start_endpoint fuel name u w =
  match endpoint_identity name u w with
  | (Ok id, w1) =>
      match check_pidfile (pid_file_of name) default_match_name name true
              (logged [Log INFO "Starting endpoint with uuid: {}" [id]] w1) with
      | (Ok record, w2) =>
          if negb (pr_exists record =? 0) then (Ok tt, w2)
          else start_daemon fuel name cfg id w2
      | (Raise e, w2) => (Raise e, w2)
      | (Running, w2) => (Running, w2)
      end
  | (Raise e, w1) => (Raise e, w1)
  | (Running, w1) => (Running, w1)
  end.
Proof.
  intros Hc. unfold start_endpoint, bind at 1, dir_exists.
  rewrite bool_decide_eq_true_2 by (by eapply configured_dir). cbn [negb].
  unfold bind at 1. rewrite (load_config_configured _ _ _ Hc).
  unfold bind at 1. destruct (endpoint_identity name u w) as [[id|e|] w1]; try done.
  unfold bind at 1. cbn [logger emit modify]. unfold bind at 1.
  unfold logger, emit, modify, logged, pid_file_of.
  destruct (check_pidfile _ _ _ _ _) as [[record|e|] w2]; try done.
  by destruct (negb _).
Qed.

(** With a readable pidfile in place [start_endpoint] logs and returns. *)
Lemma start_endpoint_refuses fuel name u w cfg pid :
  configured w name cfg → record_readable w name → pidfile_records w name pid →
  ∃ id es, start_endpoint fuel name u w
           = (Ok tt, logged (es ++ start_refusal_log name id
                                     (live_namedb w pid default_match_name)) w).
Proof.
  intros Hc Hr (f & Hf & Hpid & Hge).
  destruct (endpoint_identity_readable name u w Hr) as (id & es & Hid).
  rewrite (start_endpoint_eq fuel name u w cfg Hc), Hid, check_pidfile_eq.
  rewrite !lookup_file_logged, Hf, Hpid.
  destruct (Z.ltb_spec pid 0) as [?|_]; [lia|]. cbn.
  exists id, es. rewrite !live_namedb_logged.
  unfold logged, start_refusal_log. cbn. by rewrite <- !app_assoc.
Qed.

(** Without a pidfile it goes on to the daemon. *)
Lemma start_endpoint_launches fuel name u w cfg :
  configured w name cfg → record_readable w name →
  lookup_file w (pid_file_of name) = None →
  ∃ id es, start_endpoint fuel name u w
           = start_daemon fuel name cfg id
               (logged (es ++ [Log INFO "Starting endpoint with uuid: {}" [id]]) w).
Proof.
  intros Hc Hr Hp.
  destruct (endpoint_identity_readable name u w Hr) as (id & es & Hid).
  rewrite (start_endpoint_eq fuel name u w cfg Hc), Hid, check_pidfile_eq.
  rewrite !lookup_file_logged, Hp. cbn.
  exists id, es. by rewrite logged_logged.
Qed.

(** The identity block of [start_endpoint], by the value its parameter
    [endpoint_uuid] has: the [endpoint_id] of the persisted registration
    record when there is one, whatever the value; else the value, when it is
    truthy; else a freshly minted identifier.  Two runs that find the same
    record resolve the same identity, also right after a registration has
    persisted it; and it is this identity the daemon is started with. *)
Theorem start_identity_precedence (w : world) (name : string) (u : value) :
  (∀ f d e, lookup_file w (record_file name) = Some f →
     as_json f = Some (VDict d) → d !! "endpoint_id" = Some e →
     (endpoint_identity name u w).1 = Ok e)
  ∧ (lookup_file w (record_file name) = None → truthy u = true →
     (endpoint_identity name u w).1 = Ok u)
  ∧ (lookup_file w (record_file name) = None → truthy u = false →
     (endpoint_identity name u w).1 = Ok (VStr (next_uuid (env w))))
  ∧ (∀ w2 u2, is_Some (lookup_file w (record_file name)) →
     lookup_file w2 (record_file name) = lookup_file w (record_file name) →
     (endpoint_identity name u2 w2).1 = (endpoint_identity name u w).1)
  ∧ (∀ d e, is_Some (funcx_dir w !! name) → d !! "endpoint_id" = Some e →
     (endpoint_identity name u (json_dump (VDict d) (record_file name) w).2).1 = Ok e)
  ∧ (∀ fuel cfg id w1, configured w name cfg →
     lookup_file w (pid_file_of name) = None →
     endpoint_identity name u w = (Ok id, w1) →
     start_endpoint fuel name u w
     = start_daemon fuel name cfg id
         (logged [Log INFO "Starting endpoint with uuid: {}" [id]] w1)).
Proof.
  split_and!.
  - intros f d e Hf Hj He. by rewrite endpoint_identity_eq, Hf, Hj, He.
  - intros Hf Hu. by rewrite endpoint_identity_eq, Hf, Hu.
  - intros Hf Hu. by rewrite endpoint_identity_eq, Hf, Hu.
  - intros w2 u2 [f Hf] H2. rewrite !endpoint_identity_eq, H2, Hf. cbn.
    destruct (as_json f) as [[]|]; try done. by destruct (d !! "endpoint_id").
  - intros d e Hd He. rewrite json_dump_eq by done.
    rewrite endpoint_identity_eq, lookup_file_write_file_eq by done. cbn. by rewrite He.
  - intros fuel cfg id w1 Hc Hp Hid.
    rewrite (start_endpoint_eq fuel name u w cfg Hc), Hid, check_pidfile_eq.
    assert (lookup_file w1 (pid_file_of name) = None) as Hp1.
    { rewrite endpoint_identity_eq in Hid.
      destruct (lookup_file w (record_file name)) as [f|].
      - cbn in Hid. destruct (as_json f) as [[]|]; try done.
        destruct (d !! "endpoint_id"); [|done]. injection Hid as _ <-. done.
      - destruct (truthy u); injection Hid as _ <-; done. }
    by rewrite lookup_file_logged, Hp1.
Qed.

Lemma start_identity_precedence_witness :
  (endpoint_identity "default" (VStr "caller-supplied") ex_stale).1
  = Ok (VStr "6f1c2a0e-5b7d-4c3a-9e21-0a4d8b7c1f55")
  ∧ (endpoint_identity "default" (VStr "caller-supplied") ex_initialized).1
    = Ok (VStr "caller-supplied")
  ∧ (endpoint_identity "default" VNone ex_initialized).1
    = Ok (VStr "0b9d6c5e-3f42-4a8b-b1d7-2c6e9a0f4d13").
Proof.
  split_and!.
  - destruct (start_identity_precedence ex_stale "default" (VStr "caller-supplied"))
      as (H & _).
    eapply (H (json_text ex_reg_info)); reflexivity.
  - destruct (start_identity_precedence ex_initialized "default" (VStr "caller-supplied"))
      as (_ & H & _).
    apply H; reflexivity.
  - destruct (start_identity_precedence ex_initialized "default" VNone)
      as (_ & _ & H & _).
    apply H; reflexivity.
Defined.

(** C1, as the program has it.  On a configured endpoint whose record and
    pidfile are readable, [start] returns without starting exactly when the
    pidfile exists, live or stale: with a pidfile it only logs (for a stale
    one, the advice to run [stop]) and leaves files and processes as they
    are; without one it goes on to the daemon, and does not return. *)
Theorem start_refuses_iff_pidfile (fuel : nat) (w : world) (name : string)
    (u : value) (cfg : config) :
  configured w name cfg →
  record_readable w name →
  pidfile_readable w name →
  ((start_endpoint fuel name u w).1 = Ok tt
     ↔ is_Some (lookup_file w (pid_file_of name)))
  ∧ (∀ pid, pidfile_records w name pid →
       ∃ id es, start_endpoint fuel name u w
         = (Ok tt, logged (es ++ start_refusal_log name id
                                   (live_namedb w pid default_match_name)) w))
  ∧ (lookup_file w (pid_file_of name) = None →
       ∃ id es, start_endpoint fuel name u w
         = start_daemon fuel name cfg id
             (logged (es ++ [Log INFO "Starting endpoint with uuid: {}" [id]]) w)).
Proof.
  intros Hc Hr Hp. split_and!.
  - split.
    + intros Hret. destruct (lookup_file w (pid_file_of name)) as [f|] eqn:Hf; [eauto|].
      destruct (start_endpoint_launches fuel name u w cfg Hc Hr Hf) as (id & es & Heq).
      rewrite Heq in Hret. by apply start_daemon_no_return in Hret.
    + intros [f Hf]. destruct (Hp f Hf) as (pid & Hpid & Hge).
      by destruct (start_endpoint_refuses fuel name u w cfg pid Hc Hr
                     ltac:(by exists f)) as (id & es & ->).
  - intros pid Hrec. by apply (start_endpoint_refuses fuel name u w cfg pid).
  - intros Hf. by apply start_endpoint_launches.
Qed.

Lemma start_refuses_iff_pidfile_witness :
  (start_endpoint 3 "default" VNone ex_active).1 = Ok tt
  ∧ (start_endpoint 3 "default" VNone ex_initialized).1 ≠ Ok tt.
Proof.
  assert (Hc : ∀ w, lookup_file w ("default", "config.py") = Some (module_text ex_config)
                → configured w "default" ex_config).
  { intros w H. exists (module_text ex_config). split; [exact H|reflexivity]. }
  assert (Hrec : ∀ w f, lookup_file w (record_file "default") = Some f →
                 Some f = Some (json_text ex_reg_info) →
                 ∃ d e, as_json f = Some (VDict d) ∧ d !! "endpoint_id" = Some e).
  { intros w f _ [= ->]. eexists _, _. split; reflexivity. }
  split.
  - apply (start_refuses_iff_pidfile 3 ex_active "default" VNone ex_config).
    + apply Hc. reflexivity.
    + intros f Hf. apply (Hrec ex_active f Hf). rewrite <- Hf. reflexivity.
    + intros f Hf. exists 4242. split; [|lia].
      assert (Some f = Some (pid_text 4242)) as [= ->] by (rewrite <- Hf; reflexivity).
      reflexivity.
    + exists (pid_text 4242). reflexivity.
  - intros H.
    apply (start_refuses_iff_pidfile 3 ex_initialized "default" VNone ex_config) in H.
    + destruct H as [f Hf]. vm_compute in Hf. discriminate Hf.
    + apply Hc. reflexivity.
    + intros f Hf. vm_compute in Hf. discriminate Hf.
    + intros f Hf. vm_compute in Hf. discriminate Hf.
Defined.

(** C1, as stated, fails: on an endpoint with a stale pidfile
    [check_pidfile] reports [{exists:1, active:0}] and [start] returns
    without starting: files and processes are as before. *)
Lemma start_refuses_stale_counterexample :
  configured ex_stale "default" ex_config
  ∧ stale ex_stale "default"
  ∧ (check_pidfile (pid_file_of "default") default_match_name "default" true ex_stale).1
    = Ok {| pr_exists := 1; pr_active := 0 |}
  ∧ (start_endpoint 3 "default" VNone ex_stale).1 = Ok tt
  ∧ funcx_dir (start_endpoint 3 "default" VNone ex_stale).2 = funcx_dir ex_stale
  ∧ procs (start_endpoint 3 "default" VNone ex_stale).2 = procs ex_stale.
Proof.
  split_and!.
  - exists (module_text ex_config). split; reflexivity.
  - exists 4242. split; [|reflexivity].
    exists (pid_text 4242). split_and!; [reflexivity|reflexivity|lia].
  - reflexivity.
  - reflexivity.
  - reflexivity.
  - reflexivity.
Qed.

(** ** list_endpoints *)

(** One row, for an endpoint whose files are readable. *)
Lemma list_row_readable w name :
  record_readable w name → pidfile_readable w name →
  list_row name w = (Ok (expected_row w name), w).
Proof.
  intros Hr Hp. unfold list_row, expected_row, expected_status, recorded_id, bind,
    os_path_exists, record_file in *.
  destruct (lookup_file w (name, "endpoint.json")) as [f|] eqn:Hf; cbn; [|done].
  destruct (Hr f Hf) as (d & e & Hj & He).
  unfold json_load, bind, read_file. rewrite Hf, Hj. cbn. rewrite He. cbn.
  fold (pid_file_of name). rewrite check_pidfile_eq.
  destruct (lookup_file w (pid_file_of name)) as [pf|] eqn:Hpf; cbn; [|done].
  destruct (Hp pf Hpf) as (pid & -> & Hge).
  destruct (Z.ltb_spec pid 0) as [?|_]; [lia|]. cbn.
  by destruct (live_namedb w pid default_match_name).
Qed.

Lemma for_each_list_row w names :
  (∀ name, name ∈ names → record_readable w name ∧ pidfile_readable w name) →
  for_each list_row names w = (Ok (expected_row w <$> names), w).
Proof.
  induction names as [|name names IH]; intros H; [done|].
  cbn [for_each]. unfold bind at 1.
  rewrite list_row_readable by (apply H; left).
  unfold bind at 1. rewrite IH; [done|].
  intros n Hn. apply H. by right.
Qed.

(** The directories [glob] finds are those with a [config.py] whose name
    does not start with a dot. *)
Lemma elem_of_glob_config_files w name :
  name ∈ glob_config_files w ↔
  hidden name = false ∧ is_Some (lookup_file w (name, "config.py")).
Proof.
  unfold glob_config_files, lookup_file. cbn.
  rewrite list_elem_of_fmap. split.
  - intros ([n d] & -> & Hin). cbn.
    apply list_elem_of_In, filter_In in Hin as [Hin Hf]. cbn in Hf.
    apply list_elem_of_In, elem_of_map_to_list in Hin. rewrite Hin. cbn.
    apply andb_true_iff in Hf as [Hh Hc]. apply negb_true_iff in Hh.
    by apply bool_decide_eq_true in Hc.
  - intros [Hh Hc]. destruct (funcx_dir w !! name) as [d|] eqn:Hd; cbn in Hc.
    + exists (name, d). split; [done|].
      apply list_elem_of_In, filter_In. split.
      * by apply list_elem_of_In, elem_of_map_to_list.
      * cbn. rewrite Hh. cbn. by apply bool_decide_eq_true.
    + by destruct Hc.
Qed.

Lemma check_pidfile_quiet p mn en w :
  (check_pidfile p mn en false w).2 = w
  ∧ (check_pidfile p mn en false w).1 ≠ Running.
Proof.
  rewrite check_pidfile_eq. destruct (lookup_file w p) as [f|]; [|done].
  destruct (as_int f) as [pid|]; [|done]. by destruct (pid <? 0).
Qed.

(** Computing a row reads only; the row carries the name it was asked for. *)
Lemma list_row_reads name w :
  (list_row name w).2 = w
  ∧ (list_row name w).1 ≠ Running
  ∧ ∀ r, (list_row name w).1 = Ok r → row_name r = name.
Proof.
  unfold list_row, bind, os_path_exists.
  destruct (lookup_file w (name, "endpoint.json")) as [f|] eqn:Hf; cbn.
  2:{ split_and!; [done|done|]. by intros r [= <-]. }
  unfold json_load, bind, read_file. rewrite Hf.
  destruct (as_json f) as [j|]; cbn; [|done].
  unfold getitem. destruct j; try done. destruct (d !! "endpoint_id"); cbn; [|done].
  destruct (check_pidfile_quiet (name, "daemon.pid") default_match_name "" w) as [Hw Hr].
  destruct (check_pidfile _ _ _ _ w) as [[rec|e|] w1]; cbn in *; subst; try done.
  destruct (negb _); cbn; (split_and!; [done|done|]); by intros r [= <-].
Qed.

Lemma for_each_list_row_reads names w :
  (for_each list_row names w).2 = w
  ∧ (for_each list_row names w).1 ≠ Running
  ∧ (∀ rows, (for_each list_row names w).1 = Ok rows → row_name <$> rows = names)
  ∧ (∀ name, name ∈ names → raises (list_row name w).1 = true →
       raises (for_each list_row names w).1 = true).
Proof.
  induction names as [|name names (IH1 & IH2 & IH3 & IH4)].
  { split_and!; try done. - by intros rows [= <-]. - by intros name H%elem_of_nil. }
  assert (Heq : for_each list_row (name :: names) w
                = match list_row name w with
                  | (Ok r, w1) =>
                      match for_each list_row names w1 with
                      | (Ok rows, w2) => (Ok (r :: rows), w2)
                      | (Raise e, w2) => (Raise e, w2)
                      | (Running, w2) => (Running, w2)
                      end
                  | (Raise e, w1) => (Raise e, w1)
                  | (Running, w1) => (Running, w1)
                  end).
  { cbn [for_each]. unfold bind. by destruct (list_row name w) as [[r|e|] w1]. }
  rewrite Heq. clear Heq.
  destruct (list_row_reads name w) as (Hw & Hr & Hn).
  destruct (list_row name w) as [[r|e|] w1] eqn:Hrow; cbn [fst snd] in *; subst; try done.
  destruct (for_each list_row names w) as [[rows|e|] w1]; cbn [fst snd] in *;
    subst; try done.
  split_and!; try done.
  - intros rows' [= <-]. cbn. by rewrite (Hn r), (IH3 rows).
  - intros n [->|Hin]%elem_of_cons Hraise; [by rewrite Hrow in Hraise|].
    by apply IH4 in Hraise.
Qed.

(** C5, as the program has it.  With a [State.FUNCX_DIR] that [glob]
    reads literally, and provided that the registration record and the
    pidfile of every endpoint directory found under the root are readable,
    [list] draws one row per directory: status [Initialized] and no id
    without a registration record; with a record, the record's [endpoint_id]
    and [Active] when [check_pidfile] on the directory's [daemon.pid] reports
    active (a live process with the recorded pid and the expected name),
    [Inactive] otherwise (no pidfile, no such process, another name).  When
    the row of one of the directories cannot be computed, [list] raises and
    draws no row for any of them. *)
Theorem list_reports_status (w : world) :
  literal_root w →
  ((∀ name, name ∈ glob_config_files w →
      record_readable w name ∧ pidfile_readable w name) →
   list_endpoints w
   = (Ok tt, logged [DrawTable headings (expected_row w <$> glob_config_files w)] w)
   ∧ ∀ name, name ∈ glob_config_files w →
       list_row name w = (Ok (expected_row w name), w)
       ∧ (lookup_file w (record_file name) = None →
            expected_row w name = (name, "Initialized", None))
       ∧ (∀ f d e, lookup_file w (record_file name) = Some f →
            as_json f = Some (VDict d) → d !! "endpoint_id" = Some e →
            (∀ r, (check_pidfile (pid_file_of name) default_match_name "" false w).1 = Ok r →
               expected_row w name
               = (name, if pr_active r =? 0 then "Inactive" else "Active", Some e))
            ∧ (lookup_file w (pid_file_of name) = None →
                 expected_row w name = (name, "Inactive", Some e))
            ∧ (∀ pid, pidfile_records w name pid →
                 expected_row w name
                 = (name, if live_namedb w pid default_match_name
                          then "Active" else "Inactive", Some e))))
  ∧ (∀ name, name ∈ glob_config_files w → raises (list_row name w).1 = true →
       ∃ e, list_endpoints w = (Raise e, w)).
Proof.
  intros _. split.
  - intros H. split.
    + unfold list_endpoints, list_rows, bind, get_world.
      by rewrite for_each_list_row.
    + intros name Hn. destruct (H name Hn) as [Hr Hp]. split_and!.
      * by apply list_row_readable.
      * intros Hf. unfold expected_row, expected_status, recorded_id. by rewrite Hf.
      * intros f d e Hf Hj He.
        unfold expected_row, expected_status, recorded_id.
        rewrite Hf. cbn. rewrite Hj, He, check_pidfile_eq. split_and!.
        -- intros r. destruct (lookup_file w (pid_file_of name)) as [pf|]; cbn.
           ++ destruct (as_int pf) as [pid|]; cbn; [|done].
              destruct (pid <? 0); cbn; [done|]. intros [= <-]. cbn.
              by destruct (live_namedb w pid default_match_name).
           ++ by intros [= <-].
        -- by intros ->.
        -- intros pid (pf & -> & -> & Hge).
           destruct (Z.ltb_spec pid 0) as [?|_]; [lia|]. cbn.
           by destruct (live_namedb w pid default_match_name).
  - intros name Hn Hraise.
    destruct (for_each_list_row_reads (glob_config_files w) w) as (Hw & _ & _ & Hx).
    specialize (Hx name Hn Hraise).
    unfold list_endpoints, list_rows, bind at 1. unfold bind, get_world.
    destruct (for_each list_row (glob_config_files w) w) as [[rows|e|] w1];
      cbn [fst snd raises] in *; subst; [done| |done].
    by exists e.
Qed.

Lemma list_reports_status_witness :
  list_endpoints ex_active
  = (Ok tt, logged [DrawTable headings
      [("default", "Active", Some (VStr "6f1c2a0e-5b7d-4c3a-9e21-0a4d8b7c1f55"))]]
      ex_active).
Proof.
  refine (proj1 (proj1 (list_reports_status ex_active _) _)); [reflexivity|].
  intros name Hn.
  assert (name = "default") as ->.
  { vm_compute in Hn. apply list_elem_of_In in Hn. destruct Hn as [<-|[]]. reflexivity. }
  split.
  - intros f Hf. assert (Some f = Some (json_text ex_reg_info)) as [= ->]
      by (rewrite <- Hf; reflexivity).
    eexists _, _. split; reflexivity.
  - intros f Hf. assert (Some f = Some (pid_text 4242)) as [= ->]
      by (rewrite <- Hf; reflexivity).
    exists 4242. split; [reflexivity|lia].
Defined.

(** C5, as stated, fails: of two endpoint directories found under the root,
    [default] has no registration record and [gpu] has one that was cut
    short; [list] does not report [default] as [Initialized], it raises on
    the record of [gpu] and draws nothing. *)
Lemma list_unreadable_record_counterexample :
  literal_root ex_two
  ∧ "default" ∈ glob_config_files ex_two
  ∧ lookup_file ex_two (record_file "default") = None
  ∧ list_endpoints ex_two = (Raise JSONDecodeError, ex_two)
  ∧ trace (list_endpoints ex_two).2 = [].
Proof.
  split_and!; try reflexivity.
  apply elem_of_glob_config_files. split; [reflexivity|]. eexists. reflexivity.
Qed.

(** ** register_with_hub *)

Lemma str_or_not (v : value) : (∃ a, v = VStr a) ∨ (∀ a, v ≠ VStr a).
Proof. destruct v; eauto. Qed.

Lemma register_with_hub_bad_address u dir address redis w :
  (∀ a, address ≠ VStr a) →
  register_with_hub u dir address redis w
  = (Raise TypeError, logged [Print "Picking source as a mock site" []] w).
Proof.
  intros Ha. unfold register_with_hub, bind, try_except, add_str.
  destruct address; try done. by destruct (Ha s).
Qed.

Lemma register_with_hub_post_raises u dir a redis w e :
  next_hub_reply w = PostRaises e →
  register_with_hub u dir (VStr a) redis w
  = if is_ConnectionError e
    then (Raise (SystemExit (-1)),
          logged [Log CRITICAL "Unable to reach the funcX hub at {}" [VStr a]]
            (hub_posted u a redis w))
    else (Raise e, hub_posted u a redis w).
Proof.
  unfold next_hub_reply. intros Hr.
  unfold register_with_hub, bind, try_except, add_str, requests_post, hub_posted, logged.
  cbn. rewrite Hr. cbn. rewrite <- !app_assoc. by destruct (is_ConnectionError e).
Qed.

Lemma register_with_hub_rejected u dir a redis w c reason body :
  next_hub_reply w = Response c reason body → c ≠ 200 →
  register_with_hub u dir (VStr a) redis w
  = (Raise (RegistrationError reason),
     logged [Print "{}" [VObject "dir(r)"]; Print "<Response [{}]>" [VInt c]]
       (hub_posted u a redis w)).
Proof.
  unfold next_hub_reply. intros Hr Hc.
  unfold register_with_hub, bind, try_except, add_str, requests_post, hub_posted, logged.
  cbn. rewrite Hr. cbn. destruct (Z.eqb_spec c 200) as [?|_]; [done|]. cbn.
  by rewrite <- !app_assoc.
Qed.

Lemma register_with_hub_accepted u dir a redis w reason j d :
  next_hub_reply w = Response 200 reason (Some j) → serializable j →
  funcx_dir w !! dir = Some d →
  register_with_hub u dir (VStr a) redis w
  = (Ok j,
     logged [Log DEBUG_ "Registration info written to {}/endpoint.json"
               [VStr (endpoint_dir_path w dir)]]
       (set_funcx_dir (<[dir := <["endpoint.json" := json_text j]> d]> (funcx_dir w))
          (hub_posted u a redis w))).
Proof.
  unfold next_hub_reply. intros Hr Hj Hd.
  unfold register_with_hub, bind, try_except, add_str, requests_post.
  cbn. rewrite Hr. cbn. unfold write_file at 1. cbn. rewrite Hd. cbn.
  rewrite json_dump_eq by done. unfold write_file. cbn. rewrite lookup_insert_eq. cbn.
  rewrite !insert_insert_eq. unfold hub_posted, logged. cbn.
  by rewrite <- !app_assoc.
Qed.

(** A 200 reply without a JSON body: the record has been opened for
    writing when [r.json()] raises. *)
Lemma register_with_hub_no_json u dir a redis w reason d :
  next_hub_reply w = Response 200 reason None →
  funcx_dir w !! dir = Some d →
  register_with_hub u dir (VStr a) redis w
  = (Raise JSONDecodeError,
     set_funcx_dir (<[dir := <["endpoint.json" := empty_text]> d]> (funcx_dir w))
       (hub_posted u a redis w)).
Proof.
  unfold next_hub_reply. intros Hr Hd.
  unfold register_with_hub, bind, try_except, add_str, requests_post.
  cbn. rewrite Hr. cbn. unfold write_file at 1. cbn. rewrite Hd. cbn.
  unfold hub_posted, logged. cbn. by rewrite <- !app_assoc.
Qed.

(** C10, as the program has it.  [register_with_hub] changes the files only
    if the hub replied with status 200; on any other status it raises
    [RegistrationError] with the files as they were; on a connection error it
    logs at critical level and ends the process with [exit(-1)], the files as
    they were; on a 200 reply with a JSON body it leaves that body in
    [endpoint.json] and returns it.  The write is not all or nothing: on a
    200 reply whose body is not JSON the call raises after [endpoint.json]
    has been opened for writing, and the file is left empty. *)
Theorem register_with_hub_writes_after_200 (w : world) (endpoint_uuid : value)
    (endpoint_dir : string) (address redis_host : value) :
  let run := register_with_hub endpoint_uuid endpoint_dir address redis_host w in
  (funcx_dir run.2 ≠ funcx_dir w →
     ∃ reason body, next_hub_reply w = Response 200 reason body)
  ∧ (∀ a c reason body, address = VStr a →
       next_hub_reply w = Response c reason body → c ≠ 200 →
       run.1 = Raise (RegistrationError reason) ∧ funcx_dir run.2 = funcx_dir w)
  ∧ (∀ a e, address = VStr a →
       next_hub_reply w = PostRaises e → is_ConnectionError e = true →
       run.1 = Raise (SystemExit (-1)) ∧ funcx_dir run.2 = funcx_dir w
       ∧ In (Log CRITICAL "Unable to reach the funcX hub at {}" [address]) (trace run.2))
  ∧ (∀ a reason j, address = VStr a →
       next_hub_reply w = Response 200 reason (Some j) → serializable j →
       is_Some (funcx_dir w !! endpoint_dir) →
       run.1 = Ok j
       ∧ lookup_file run.2 (record_file endpoint_dir) = Some (json_text j))
  ∧ (∀ a reason, address = VStr a →
       next_hub_reply w = Response 200 reason None →
       is_Some (funcx_dir w !! endpoint_dir) →
       run.1 = Raise JSONDecodeError
       ∧ lookup_file run.2 (record_file endpoint_dir) = Some empty_text).
Proof.
  cbv zeta. split_and!.
  - intros Hch. destruct (next_hub_reply w) as [e|c reason body] eqn:Hr.
    + exfalso. apply Hch.
      destruct (str_or_not address) as [[a ->]|Ha].
      * rewrite (register_with_hub_post_raises _ _ _ _ _ _ Hr).
        by destruct (is_ConnectionError e).
      * by rewrite register_with_hub_bad_address.
    + destruct (decide (c = 200)) as [->|Hc]; [eauto|].
      exfalso. apply Hch.
      destruct (str_or_not address) as [[a ->]|Ha].
      * by rewrite (register_with_hub_rejected _ _ _ _ _ _ _ _ Hr Hc).
      * by rewrite register_with_hub_bad_address.
  - intros a c reason body -> Hr Hc.
    by rewrite (register_with_hub_rejected _ _ _ _ _ _ _ _ Hr Hc).
  - intros a e -> Hr He.
    rewrite (register_with_hub_post_raises _ _ _ _ _ _ Hr), He. split_and!; [done|done|].
    cbn. rewrite !in_app_iff. cbn. tauto.
  - intros a reason j -> Hr Hj [d Hd].
    rewrite (register_with_hub_accepted _ _ _ _ _ _ _ _ Hr Hj Hd). split; [done|].
    unfold lookup_file. cbn. rewrite lookup_insert_eq. cbn. apply lookup_insert_eq.
  - intros a reason -> Hr [d Hd].
    rewrite (register_with_hub_no_json _ _ _ _ _ _ _ Hr Hd). split; [done|].
    unfold lookup_file. cbn. rewrite lookup_insert_eq. cbn. apply lookup_insert_eq.
Qed.

Lemma register_with_hub_writes_after_200_witness :
  (register_with_hub (VStr "0b9d6c5e") "default" (VStr "http://hub:8080")
     (VStr default_redis_host) ex_initialized).1 = Ok ex_reg_info
  ∧ lookup_file (register_with_hub (VStr "0b9d6c5e") "default" (VStr "http://hub:8080")
       (VStr default_redis_host) ex_initialized).2 (record_file "default")
    = Some (json_text ex_reg_info).
Proof.
  destruct (register_with_hub_writes_after_200 ex_initialized (VStr "0b9d6c5e")
              "default" (VStr "http://hub:8080") (VStr default_redis_host))
    as (_ & _ & _ & H & _).
  apply (H "http://hub:8080" "OK" ex_reg_info).
  - reflexivity.
  - reflexivity.
  - intros c Hc. discriminate Hc.
  - eexists. reflexivity.
Defined.

(** C10, as stated, fails: the hub answers 200 with a body that is not
    JSON.  The call fails, and the registration record that was there is
    gone: the write is not atomic with respect to this failure. *)
Lemma hub_truncates_record_counterexample :
  next_hub_reply (answering (Response 200 "OK" None) ex_stale) = Response 200 "OK" None
  ∧ lookup_file (answering (Response 200 "OK" None) ex_stale) (record_file "default")
    = Some (json_text ex_reg_info)
  ∧ (register_with_hub (VStr "0b9d6c5e") "default" (VStr "http://hub:8080")
       (VStr default_redis_host) (answering (Response 200 "OK" None) ex_stale)).1
    = Raise JSONDecodeError
  ∧ lookup_file
      (register_with_hub (VStr "0b9d6c5e") "default" (VStr "http://hub:8080")
         (VStr default_redis_host) (answering (Response 200 "OK" None) ex_stale)).2
      (record_file "default")
    = Some empty_text.
Proof. split_and!; reflexivity. Qed.

(** ** register_endpoint *)

Lemma attempt_throws name u dir w e :
  next_service_reply w = Throws e →
  register_endpoint_attempt name u dir w = (Raise e, client_called name u w).
Proof.
  unfold next_service_reply. intros Hr.
  unfold register_endpoint_attempt, bind, funcx_client_register_endpoint, client_called, logged.
  cbn. rewrite Hr. by rewrite <- !app_assoc.
Qed.

Lemma attempt_returns name u dir w r d :
  next_service_reply w = Returns r → serializable r →
  funcx_dir w !! dir = Some d →
  register_endpoint_attempt name u dir w
  = (Ok r,
     logged [Log DEBUG_ "Registration info written to {}/endpoint.json"
               [VStr (endpoint_dir_path w dir)]]
       (set_funcx_dir (<[dir := <["endpoint.json" := json_text r]> d]> (funcx_dir w))
          (client_called name u w))).
Proof.
  unfold next_service_reply. intros Hr Hs Hd.
  unfold register_endpoint_attempt, bind, funcx_client_register_endpoint, client_called, logged.
  cbn. rewrite Hr. rewrite json_dump_eq by done. unfold write_file. cbn. rewrite Hd. cbn.
  by rewrite <- !app_assoc.
Qed.

(** One turn of the retry loop of [register_endpoint] whose attempt raised
    an [Exception]. *)
Lemma retry_step fuel f tries w e w1 :
  tries < 0 → f w = (Raise e, w1) → is_Exception e = true →
  retry_internal (S fuel) f is_Exception tries 5 None 1 0 true w
  = retry_internal fuel f is_Exception (tries - 1) 5 None 1 0 true
      (logged [Retrying e 5; Sleep 5] w1).
Proof.
  intros Ht Hf He. cbn [retry_internal].
  destruct (Z.eqb_spec tries 0) as [?|_]; [lia|].
  unfold try_except. rewrite Hf, He.
  destruct (Z.eqb_spec (tries - 1) 0) as [?|_]; [lia|].
  unfold bind, emit, modify, time_sleep, logged. cbn. by rewrite <- !app_assoc.
Qed.

Lemma retry_done fuel f tries w r w1 :
  tries < 0 → f w = (Ok r, w1) →
  retry_internal (S fuel) f is_Exception tries 5 None 1 0 true w = (Ok r, w1).
Proof.
  intros Ht Hf. cbn [retry_internal].
  destruct (Z.eqb_spec tries 0) as [?|_]; [lia|].
  unfold try_except. by rewrite Hf.
Qed.

Lemma retry_out_of_fuel f tries w :
  tries < 0 →
  retry_internal 0 f is_Exception tries 5 None 1 0 true w = (Running, w).
Proof.
  intros Ht. cbn [retry_internal]. by destruct (Z.eqb_spec tries 0) as [?|_]; [lia|].
Qed.

(** No [Exception] gets past the retry loop. *)
Lemma retry_internal_surfaces fuel f tries w e :
  tries < 0 →
  (retry_internal fuel f is_Exception tries 5 None 1 0 true w).1 = Raise e →
  is_Exception e = false.
Proof.
  revert tries w. induction fuel as [|fuel IH]; intros tries w Ht;
    [by rewrite retry_out_of_fuel|].
  destruct (f w) as [[r|e'|] w1] eqn:Hf.
  - by rewrite (retry_done fuel f tries w r w1).
  - destruct (is_Exception e') eqn:He.
    + rewrite (retry_step fuel f tries w e' w1) by done. apply IH. lia.
    + cbn [retry_internal]. destruct (Z.eqb_spec tries 0) as [?|_]; [lia|].
      unfold try_except. rewrite Hf, He. cbn. by intros [= <-].
  - cbn [retry_internal]. destruct (Z.eqb_spec tries 0) as [?|_]; [lia|].
    unfold try_except. by rewrite Hf.
Qed.

Lemma slept_app t1 t2 : slept (t1 ++ t2) = (slept t1 ++ slept t2)%list.
Proof. apply omap_app. Qed.

(** The loop goes on until an attempt succeeds: [n] failed attempts, each
    followed by a sleep of 5, then the result of the next one. *)
Lemma retry_until_accepted name u dir r n :
  ∀ tries w fuel,
    tries < 0 →
    (∀ k, (k < n)%nat → ∃ e, service_reply (env w) (requests w + k)%nat = Throws e
                              ∧ is_Exception e = true) →
    service_reply (env w) (requests w + n)%nat = Returns r →
    serializable r →
    is_Some (funcx_dir w !! dir) →
    (n < fuel)%nat →
    let run := retry_internal fuel (register_endpoint_attempt name u dir)
                 is_Exception tries 5 None 1 0 true w in
    run.1 = Ok r
    ∧ slept (trace run.2) = (slept (trace w) ++ replicate n 5%Q)%list
    ∧ requests run.2 = (requests w + n + 1)%nat
    ∧ lookup_file run.2 (record_file dir) = Some (json_text r).
Proof.
  induction n as [|n IH]; intros tries w fuel Ht Hthrow Hret Hs [d Hd] Hfuel;
    (destruct fuel as [|fuel]; [lia|]); cbv zeta.
  - rewrite Nat.add_0_r in Hret.
    rewrite (retry_done fuel _ tries w r _ Ht (attempt_returns name u dir w r d Hret Hs Hd)).
    cbn. split_and!; [done| |lia|].
    + rewrite !slept_app. cbn. by rewrite !app_nil_r.
    + unfold lookup_file. cbn. rewrite lookup_insert_eq. cbn. apply lookup_insert_eq.
  - destruct (Hthrow 0%nat) as (e & He & Hex); [lia|]. rewrite Nat.add_0_r in He.
    rewrite (retry_step fuel _ tries w e _ Ht (attempt_throws name u dir w e He) Hex).
    set (w' := logged _ _).
    assert (Hthrow' : ∀ k, (k < n)%nat →
              ∃ e, service_reply (env w') (requests w' + k)%nat = Throws e
                   ∧ is_Exception e = true).
    { intros k Hk. destruct (Hthrow (S k)) as (e' & He' & Hex'); [lia|].
      exists e'. split; [|done]. cbn. by rewrite <- Nat.add_succ_r. }
    assert (Hret' : service_reply (env w') (requests w' + n)%nat = Returns r).
    { cbn. by rewrite <- Nat.add_succ_r. }
    assert (Hd' : is_Some (funcx_dir w' !! dir)).
    { subst w'. cbn. rewrite Hd. eauto. }
    destruct (IH (tries - 1) w' fuel ltac:(lia) Hthrow' Hret' Hs Hd' ltac:(lia))
      as (H1 & H2 & H3 & H4).
    split_and!; [done| |cbn in H3; lia|done].
    rewrite H2. subst w'. cbn. rewrite !slept_app. cbn.
    rewrite !app_nil_r, <- app_assoc. done.
Qed.

(** While every attempt raises an [Exception] the loop is still running,
    however much fuel it is given. *)
Lemma retry_never_gives_up name u dir fuel :
  ∀ tries w,
    tries < 0 →
    (∀ k, ∃ e, service_reply (env w) (requests w + k)%nat = Throws e
               ∧ is_Exception e = true) →
    (retry_internal fuel (register_endpoint_attempt name u dir)
       is_Exception tries 5 None 1 0 true w).1 = Running.
Proof.
  induction fuel as [|fuel IH]; intros tries w Ht Hthrow;
    [by rewrite retry_out_of_fuel|].
  destruct (Hthrow 0%nat) as (e & He & Hex). rewrite Nat.add_0_r in He.
  rewrite (retry_step fuel _ tries w e _ Ht (attempt_throws name u dir w e He) Hex).
  apply IH; [lia|]. intros k. destruct (Hthrow (S k)) as (e' & He' & Hex').
  exists e'. split; [|done]. cbn. by rewrite <- Nat.add_succ_r.
Qed.

(** C2, as the program has it.  [register_endpoint] runs its attempt under
    a fixed delay retry, delay 5, with no bound on the attempts and no
    exception left out: every [Exception] an attempt raises, a connectivity
    failure and a [RegistrationError] alike, is followed by a sleep of 5 and
    another attempt, so none gets past the retry; the record of the first
    attempt that succeeds is persisted and returned, and while attempts keep
    failing the loop keeps running.  A [RegistrationError] reaches the caller
    without a retry only from [register_with_hub], after its one POST. *)
Theorem register_endpoint_retry_policy (w : world) (name : string) (u : value)
    (dir : string) :
  (∀ fuel e, (register_endpoint fuel name u dir w).1 = Raise e →
             is_Exception e = false)
  ∧ (∀ n r fuel,
       (∀ k, (k < n)%nat → ∃ e, service_reply (env w) (requests w + k)%nat = Throws e
                                 ∧ is_Exception e = true) →
       service_reply (env w) (requests w + n)%nat = Returns r →
       serializable r → is_Some (funcx_dir w !! dir) → (n < fuel)%nat →
       let run := register_endpoint fuel name u dir w in
       run.1 = Ok r
       ∧ slept (trace run.2) = (slept (trace w) ++ replicate n 5%Q)%list
       ∧ requests run.2 = (requests w + n + 1)%nat
       ∧ lookup_file run.2 (record_file dir) = Some (json_text r))
  ∧ (∀ fuel,
       (∀ k, ∃ e, service_reply (env w) (requests w + k)%nat = Throws e
                  ∧ is_Exception e = true) →
       (register_endpoint fuel name u dir w).1 = Running)
  ∧ (∀ a redis c reason body,
       next_hub_reply w = Response c reason body → c ≠ 200 →
       let run := register_with_hub u dir (VStr a) redis w in
       run.1 = Raise (RegistrationError reason)
       ∧ requests run.2 = S (requests w)
       ∧ slept (trace run.2) = slept (trace w)).
Proof.
  unfold register_endpoint. split_and!.
  - intros fuel e. by apply retry_internal_surfaces.
  - intros n r fuel Hthrow Hret Hs Hd Hfuel.
    by apply retry_until_accepted.
  - intros fuel Hthrow. by apply retry_never_gives_up.
  - intros a redis c reason body Hr Hc. cbv zeta.
    rewrite (register_with_hub_rejected _ _ _ _ _ _ _ _ Hr Hc). split_and!; [done|done|].
    cbn. rewrite !slept_app. cbn. by rewrite !app_nil_r.
Qed.

Lemma register_endpoint_retry_policy_witness :
  (register_endpoint 2 "default" (VStr "0b9d6c5e") "default" ex_initialized).1
  = Ok ex_reg_info.
Proof.
  destruct (register_endpoint_retry_policy ex_initialized "default" (VStr "0b9d6c5e")
              "default") as (_ & H & _).
  apply (H 1%nat ex_reg_info 2%nat).
  - intros k Hk. assert (k = 0%nat) as -> by lia.
    exists (RegistrationError "Forbidden"). split; reflexivity.
  - reflexivity.
  - intros c Hc. discriminate Hc.
  - eexists. reflexivity.
  - lia.
Defined.

(** C2, as stated, fails: the service rejects the first registration with a
    [RegistrationError]; [register_endpoint] does not raise it, it sleeps 5,
    registers again and returns the record of the second call. *)
Lemma registration_error_retried_counterexample :
  next_service_reply ex_initialized = Throws (RegistrationError "Forbidden")
  ∧ (register_endpoint 2 "default" (VStr "0b9d6c5e") "default" ex_initialized).1
    = Ok ex_reg_info
  ∧ In (Retrying (RegistrationError "Forbidden") 5)
       (trace (register_endpoint 2 "default" (VStr "0b9d6c5e") "default" ex_initialized).2)
  ∧ slept (trace (register_endpoint 2 "default" (VStr "0b9d6c5e") "default"
                    ex_initialized).2) = [5%Q]
  ∧ requests (register_endpoint 2 "default" (VStr "0b9d6c5e") "default"
                ex_initialized).2 = 2%nat.
Proof.
  split_and!; try reflexivity.
  vm_compute. tauto.
Qed.

(** ** What registration and supervision leave alone *)

Section Frame.
Context (R : world → world → Prop).
Hypothesis R_refl : ∀ w, R w w.
Hypothesis R_trans : ∀ w1 w2 w3, R w1 w2 → R w2 w3 → R w1 w3.
Hypothesis R_logged : ∀ es w, R w (logged es w).
Hypothesis R_requests : ∀ n w, R w (set_requests n w).
Hypothesis R_record : ∀ dir f d w,
  funcx_dir w !! dir = Some d →
  R w (set_funcx_dir (<[dir := <["endpoint.json" := f]> d]> (funcx_dir w)) w).

Lemma keeps_ret {A} (a : A) : keeps R (ret a).
Proof. intros w. apply R_refl. Qed.

Lemma keeps_raise {A} e : keeps R (raise (A := A) e).
Proof. intros w. apply R_refl. Qed.

Lemma keeps_bind {A B} (m : M A) (k : A → M B) :
  keeps R m → (∀ a, keeps R (k a)) → keeps R (bind m k).
Proof.
  intros Hm Hk w. unfold bind. specialize (Hm w).
  destruct (m w) as [[a|e|] w1]; cbn in *; try done.
  eapply R_trans; [exact Hm|apply Hk].
Qed.

Lemma keeps_try_except {A} (m : M A) handles h :
  keeps R m → (∀ e, keeps R (h e)) → keeps R (try_except m handles h).
Proof.
  intros Hm Hh w. unfold try_except. specialize (Hm w).
  destruct (m w) as [[a|e|] w1]; cbn in *; try done.
  destruct (handles e); [|done]. eapply R_trans; [exact Hm|apply Hh].
Qed.

Lemma keeps_emit e : keeps R (emit e).
Proof. intros w. apply (R_logged [e]). Qed.

Lemma keeps_get_world : keeps R get_world.
Proof. intros w. apply R_refl. Qed.

Lemma keeps_write_record dir f : keeps R (write_file (dir, "endpoint.json") f).
Proof.
  intros w. unfold write_file. cbn.
  destruct (funcx_dir w !! dir) eqn:Hd; cbn; [by apply R_record|apply R_refl].
Qed.

Lemma keeps_json_dump j dir : keeps R (json_dump j (dir, "endpoint.json")).
Proof.
  apply keeps_bind; [apply keeps_write_record|]. intros _.
  destruct j; first [apply keeps_write_record|apply keeps_raise].
Qed.

Lemma keeps_client name u : keeps R (funcx_client_register_endpoint name u).
Proof.
  intros w. unfold funcx_client_register_endpoint.
  assert (R w (set_requests (S (requests w))
                (set_trace (trace w ++ [ClientRegister name u]) w))).
  { eapply R_trans; [apply (R_logged [ClientRegister name u])|apply R_requests]. }
  by destruct (service_reply (env w) (requests w)).
Qed.

Lemma keeps_getitem obj key : keeps R (getitem obj key).
Proof.
  destruct obj; try apply keeps_raise. cbn.
  destruct (d !! key); [apply keeps_ret|apply keeps_raise].
Qed.

Lemma keeps_pure {A} (m : M A) : (∀ w, (m w).2 = w) → keeps R m.
Proof. intros H w. rewrite H. apply R_refl. Qed.

Lemma keeps_random_pick seq : keeps R (random_pick seq).
Proof. by apply keeps_pure. Qed.

Lemma keeps_add_str v s : keeps R (add_str v s).
Proof. apply keeps_pure. intros w. by destruct v. Qed.

Lemma keeps_response_json r : keeps R (response_json r).
Proof. apply keeps_pure. intros w. by destruct r as [|? ? [|]]. Qed.

Lemma keeps_str_split v : keeps R (str_split v).
Proof. apply keeps_pure. intros w. by destruct v. Qed.

Lemma keeps_funcx_config_item key : keeps R (funcx_config_item key).
Proof. apply keeps_pure. intros w. unfold funcx_config_item. by destruct (_ !! _). Qed.

Lemma keeps_requests_post url body : keeps R (requests_post url body).
Proof.
  intros w. unfold requests_post.
  assert (R w (set_requests (S (requests w))
                (set_trace (trace w ++ [Post url body]) w))).
  { eapply R_trans; [apply (R_logged [Post url body])|apply R_requests]. }
  by destruct (hub_reply (env w) (requests w)).
Qed.

Create HintDb keeps.
Hint Resolve keeps_ret keeps_raise keeps_emit keeps_get_world keeps_json_dump
  keeps_client keeps_write_record keeps_getitem keeps_random_pick keeps_add_str
  keeps_response_json keeps_str_split keeps_funcx_config_item
  keeps_requests_post : keeps.

Ltac keeps_step :=
  first [ solve [auto with keeps]
        | progress unfold logger, print, time_sleep, sys_exit
        | apply keeps_bind; [|intros ?]
        | apply keeps_try_except; [|intros ?]
        | match goal with
          | |- keeps _ (if ?b then _ else _) => destruct b
          end ].

Lemma keeps_attempt name u dir : keeps R (register_endpoint_attempt name u dir).
Proof. unfold register_endpoint_attempt. repeat keeps_step. Qed.

Lemma keeps_retry f exceptions max_delay backoff jitter log :
  keeps R f →
  ∀ fuel tries delay,
    keeps R (retry_internal fuel f exceptions tries delay max_delay backoff jitter log).
Proof.
  intros Hf fuel. induction fuel as [|fuel IH]; intros tries delay; cbn [retry_internal];
    (destruct (tries =? 0); [apply keeps_ret|]).
  - intros w. apply R_refl.
  - apply keeps_try_except; [done|]. intros e.
    destruct (tries - 1 =? 0); [apply keeps_raise|].
    apply keeps_bind; [destruct log; auto with keeps|intros _].
    apply keeps_bind; [unfold time_sleep; auto with keeps|intros _].
    apply IH.
Qed.

Lemma keeps_register_endpoint fuel name u dir :
  keeps R (register_endpoint fuel name u dir).
Proof. apply keeps_retry, keeps_attempt. Qed.

Lemma keeps_register_with_hub u dir address redis :
  keeps R (register_with_hub u dir address redis).
Proof. unfold register_with_hub. repeat keeps_step. Qed.

Lemma keeps_interchange_optionals name reg_info :
  keeps R (interchange_optionals name reg_info).
Proof. unfold interchange_optionals. repeat keeps_step. Qed.

(** The supervision loop, however long it runs. *)
Lemma keeps_supervise name cfg u fuel : keeps R (supervise fuel name cfg u).
Proof.
  induction fuel as [|fuel IH]; cbn [supervise].
  - intros w. apply R_refl.
  - pose proof keeps_register_with_hub. pose proof keeps_register_endpoint.
    pose proof keeps_interchange_optionals.
    repeat keeps_step.
Qed.
End Frame.

Lemma supervise_steady lock name cfg u fuel :
  keeps (steady lock) (supervise fuel name cfg u).
Proof.
  apply keeps_supervise; unfold steady.
  - done.
  - intros w1 w2 w3 [H1 H2] [H3 H4]. split; congruence.
  - done.
  - done.
  - intros dir f d w Hd. split; [|done].
    unfold lookup_file, pid_file_of. cbn.
    destruct (decide (dir = lock)) as [->|Hne].
    + rewrite lookup_insert_eq, Hd. cbn. by rewrite lookup_insert_ne.
    + by rewrite lookup_insert_ne.
Qed.

(** ** The daemon *)

(** Entering the daemon context of an endpoint without a pidfile. *)
Lemma daemon_open_unlocked name (detach : bool) w :
  is_Some (funcx_dir w !! name) →
  lookup_file w (pid_file_of name) = None →
  let pid := if detach then fork_pid (env w) else self_pid w in
  ∃ w', daemon_open name (pid_file_of name) detach w = (Ok tt, w')
        ∧ lookup_file w' (pid_file_of name) = Some (pid_text pid)
        ∧ procs w' !! pid = Some (daemon_process w name).
Proof.
  intros Hd Hp. cbv zeta.
  set (w0 := if detach then set_self_pid (fork_pid (env w)) w else w).
  destruct (write_file_existing (pid_file_of name) (pid_text (self_pid w0)) w0)
    as (w1 & Hw & Hl & _ & Hpr & Hen & Hsp).
  { by destruct detach. }
  assert (Hp0 : lookup_file w0 (pid_file_of name) = None) by (by destruct detach).
  assert (Hrun : daemon_open name (pid_file_of name) detach w
                 = (Ok tt, set_procs (<[self_pid w1 := daemon_process w1 name]> (procs w1)) w1)).
  { unfold daemon_open, bind at 1.
    replace ((if detach then modify (λ w, set_self_pid (fork_pid (env w)) w) else ret tt) w)
      with (Ok tt, w0) by (by destruct detach).
    unfold bind at 1, os_path_exists. rewrite Hp0. cbn.
    unfold bind at 1. cbn. unfold bind. rewrite Hw. done. }
  rewrite Hrun. eexists. split; [done|].
  assert (self_pid w0 = if detach then fork_pid (env w) else self_pid w) as <-
    by (by destruct detach).
  rewrite Hsp. split.
  - exact Hl.
  - cbn. rewrite lookup_insert_eq. unfold daemon_process. rewrite Hen.
    by destruct detach.
Qed.

(** Opening the output files of the daemon. *)
Lemma start_daemon_outputs name cfg w :
  configured w name cfg → launchable cfg →
  ∃ w', (if detach_endpoint cfg
         then bind (write_file (name, stdout cfg) empty_text)
                (λ _, write_file (name, stderr cfg) empty_text)
         else ret tt) w = (Ok tt, w')
        ∧ configured w' name cfg
        ∧ lookup_file w' (pid_file_of name) = lookup_file w (pid_file_of name)
        ∧ env w' = env w ∧ self_pid w' = self_pid w ∧ procs w' = procs w.
Proof.
  intros Hc Hl. pose proof (configured_dir _ _ _ Hc) as Hd.
  destruct (detach_endpoint cfg) eqn:Hdet; [|by eexists].
  destruct (Hl Hdet) as (Ho1 & Ho2 & He1 & He2 & _).
  destruct (write_file_existing (name, stdout cfg) empty_text w Hd)
    as (w1 & Hw1 & _ & Hq1 & Hp1 & Hen1 & Hs1).
  assert (Hd1 : is_Some (funcx_dir w1 !! name)).
  { destruct Hc as (f & Hf & _). apply (lookup_file_dir w1 (name, "config.py")).
    rewrite Hq1; [eauto|congruence]. }
  destruct (write_file_existing (name, stderr cfg) empty_text w1 Hd1)
    as (w2 & Hw2 & _ & Hq2 & Hp2 & Hen2 & Hs2).
  exists w2. unfold bind. rewrite Hw1, Hw2. split_and!; try congruence.
  - destruct Hc as (f & Hf & Hm). exists f. split; [|done].
    rewrite Hq2, Hq1; [done|congruence..].
  - unfold pid_file_of. rewrite Hq2, Hq1; [done|congruence..].
Qed.

(** While the daemon of an endpoint that had no pidfile is in its
    supervision loop, the pidfile holds its pid and the process is there. *)
Lemma start_daemon_running fuel name cfg id w :
  configured w name cfg → launchable cfg →
  lookup_file w (pid_file_of name) = None →
  (start_daemon fuel name cfg id w).1 = Running →
  lookup_file (start_daemon fuel name cfg id w).2 (pid_file_of name)
  = Some (pid_text (daemon_pid w cfg))
  ∧ procs (start_daemon fuel name cfg id w).2 !! daemon_pid w cfg
    = Some (daemon_process w name).
Proof.
  intros Hc Hl Hp.
  destruct (start_daemon_outputs name cfg w Hc Hl)
    as (w1 & Hw1 & Hc1 & Hp1 & Hen1 & Hs1 & Hpr1).
  rewrite Hp in Hp1.
  destruct (daemon_open_unlocked name (detach_endpoint cfg) w1
              (configured_dir _ _ _ Hc1) Hp1) as (w2 & Hw2 & Hl2 & Hpr2).
  assert (Hrun : start_daemon fuel name cfg id w
                 = finally (supervise fuel name cfg id) (daemon_close name) w2).
  { unfold start_daemon, bind at 1. rewrite Hw1.
    unfold bind at 1. rewrite (load_config_configured _ _ _ Hc1).
    unfold with_context, bind. fold (pid_file_of name). by rewrite Hw2. }
  rewrite Hrun. unfold finally.
  pose proof (supervise_steady name name cfg id fuel w2) as [Hs Hs'].
  destruct (supervise fuel name cfg id w2) as [[[]|e|] w3]; cbn [fst snd] in *; try done.
  intros _. rewrite Hs, Hs', Hl2. unfold daemon_pid.
  rewrite <- Hen1, <- Hs1. split; [done|].
  rewrite Hpr2. unfold daemon_process. by rewrite Hen1.
Qed.

(** ** restart_endpoint *)

(** [restart] after a [stop] step that has returned: the [start] step runs
    in the state [stop] left. *)
Lemma restart_endpoint_eq fuel name w :
  restart_endpoint fuel name w
  = match stop_endpoint name w with
    | (Ok _, w1) => start_endpoint fuel name endpoint_uuid_default w1
    | (Raise e, w1) => (Raise e, w1)
    | (Running, w1) => (Running, w1)
    end.
Proof. unfold restart_endpoint, bind. by destruct (stop_endpoint name w) as [[]]. Qed.

(** [stop_endpoint] leaves the configuration and the registration record. *)
Lemma stop_endpoint_keeps_configured name w w1 cfg :
  pidfile_readable w name → configured w name cfg → record_readable w name →
  stop_endpoint name w = (Ok tt, w1) →
  configured w1 name cfg ∧ record_readable w1 name.
Proof.
  intros Hread Hc Hr Hstop. split.
  - destruct Hc as (f & Hf & Hm). exists f. split; [|done].
    rewrite <- Hf, <- (stop_endpoint_other_files name w (name, "config.py")) by done.
    by rewrite Hstop.
  - intros f Hf. apply Hr. rewrite <- Hf.
    rewrite <- (stop_endpoint_other_files name w (record_file name)) by done.
    by rewrite Hstop.
Qed.

(** What it is to be active: the liveness check of the pidfile says so. *)
Lemma running_daemon_active name w pid :
  lookup_file w (pid_file_of name) = Some (pid_text pid) →
  0 ≤ pid →
  (∃ pr, procs w !! pid = Some pr ∧ pname pr = default_match_name) →
  (check_pidfile (pid_file_of name) default_match_name name false w).1
  = Ok {| pr_exists := 1; pr_active := 1 |}.
Proof.
  intros Hf Hge (pr & Hpr & Hn). rewrite check_pidfile_eq, Hf. cbn [as_int pid_text].
  destruct (Z.ltb_spec pid 0) as [?|_]; [lia|].
  cbn. unfold live_namedb. rewrite Hpr, Hn. by rewrite String.eqb_refl.
Qed.

(** C8 fails on the program: [restart] of an active endpoint whose daemon
    is still running 0.1 s after SIGTERM.  [stop_endpoint] sends SIGKILL,
    which ends the daemon without its cleanup, so the pidfile stays;
    [start_endpoint] then finds the pidfile and returns.  After [restart] no
    process runs the endpoint, the pidfile holds the old pid, not a new one,
    and the endpoint is reported as not active.  A daemon that is gone
    within the 0.1 s does no better: the second [os.kill] raises and
    [stop_endpoint] ends the command before [start_endpoint] is called. *)
Theorem restart_active_leaves_endpoint_dead :
  (check_pidfile (pid_file_of "default") default_match_name "default" false ex_active).1
  = Ok {| pr_exists := 1; pr_active := 1 |}
  ∧ signalling_fails ex_active 4242 = false
  ∧ (restart_endpoint 3 "default" ex_active).1 = Ok tt
  ∧ lookup_file (restart_endpoint 3 "default" ex_active).2 (pid_file_of "default")
    = Some (pid_text 4242)
  ∧ procs (restart_endpoint 3 "default" ex_active).2 = ∅
  ∧ (check_pidfile (pid_file_of "default") default_match_name "default" false
       (restart_endpoint 3 "default" ex_active).2).1
    = Ok {| pr_exists := 1; pr_active := 0 |}
  ∧ ∀ r, r = Dies ∨ r = ExitsCleanly →
      raises (restart_endpoint 3 "default" (reacting r ex_active)).1 = true
      ∧ procs (restart_endpoint 3 "default" (reacting r ex_active)).2 = ∅.
Proof.
  split_and!; try reflexivity.
  intros r [->| ->]; split; reflexivity.
Qed.

(** C4 fails on the program: [restart] of an endpoint that was never
    registered.  [restart_endpoint] calls [start_endpoint(name)] as a plain
    function, so [endpoint_uuid] is the default of the parameter, the
    [typer.Option(..)] object; there is no record, and [not endpoint_uuid] is
    false for an object, so no identifier is minted: the object itself is the
    identity that is logged and sent with every registration request.  The
    [start] command on the same state, given no identifier, mints one. *)
Theorem restart_identity_is_option_object :
  lookup_file ex_initialized (record_file "default") = None
  ∧ (endpoint_identity "default" VNone ex_initialized).1
    = Ok (VStr (next_uuid (env ex_initialized)))
  ∧ (endpoint_identity "default" endpoint_uuid_default ex_initialized).1
    = Ok (VObject "typer.models.OptionInfo")
  ∧ restart_endpoint 3 "default" ex_initialized
    = start_daemon 3 "default" ex_config (VObject "typer.models.OptionInfo")
        (logged [Log INFO "Endpoint <{}> is not active." [VStr "default"];
                 Log INFO "Starting endpoint with uuid: {}"
                   [VObject "typer.models.OptionInfo"]] ex_initialized)
  ∧ registrations (trace (restart_endpoint 3 "default" ex_initialized).2)
    = [("default", VObject "typer.models.OptionInfo");
       ("default", VObject "typer.models.OptionInfo");
       ("default", VObject "typer.models.OptionInfo")].
Proof. split_and!; vm_compute; reflexivity. Qed.

(** The other ways a live daemon can react to SIGTERM.  One that is gone
    within the 0.1 s makes the SIGKILL fail: [stop_endpoint] exits, or, when
    the daemon has removed its pidfile, fails in [os.remove]; [start] is not
    reached.  Only a daemon that has released the pidfile and can still be
    signalled lets [restart] start a new one. *)
Example restart_active_daemon_dies :
  (restart_endpoint 3 "default" (reacting Dies ex_active)).1 = Raise (SystemExit (-1))
  ∧ procs (restart_endpoint 3 "default" (reacting Dies ex_active)).2 = ∅.
Proof. split; reflexivity. Qed.

Example restart_active_daemon_exits_cleanly :
  (restart_endpoint 3 "default" (reacting ExitsCleanly ex_active)).1
  = Raise FileNotFoundError
  ∧ procs (restart_endpoint 3 "default" (reacting ExitsCleanly ex_active)).2 = ∅.
Proof. split; reflexivity. Qed.

Example restart_active_daemon_releasing :
  (restart_endpoint 3 "default" (reacting Releasing ex_active)).1 = Running
  ∧ lookup_file (restart_endpoint 3 "default" (reacting Releasing ex_active)).2
      (pid_file_of "default") = Some (pid_text 5150)
  ∧ (check_pidfile (pid_file_of "default") default_match_name "default" false
       (restart_endpoint 3 "default" (reacting Releasing ex_active)).2).1
    = Ok {| pr_exists := 1; pr_active := 1 |}.
Proof. split_and!; reflexivity. Qed.

(** A stale pidfile: [stop_endpoint] cannot signal, cleans up and exits;
    the [start] step is not reached. *)
Example restart_stale_exits :
  (restart_endpoint 3 "default" ex_stale).1 = Raise (SystemExit (-1))
  ∧ procs (restart_endpoint 3 "default" ex_stale).2 = ∅
  ∧ lookup_file (restart_endpoint 3 "default" ex_stale).2 (pid_file_of "default") = None.
Proof. split_and!; reflexivity. Qed.

(** ** delete_endpoint *)

Lemma delete_endpoint_eq name autoconfirm w :
  confirmed w autoconfirm →
  delete_endpoint name autoconfirm w
  = if bool_decide (is_Some (lookup_file w (pid_file_of name)))
    then bind (stop_endpoint name) (λ _, shutil_rmtree name) (asked name autoconfirm w)
    else shutil_rmtree name (asked name autoconfirm w).
Proof.
  intros Hc. unfold delete_endpoint, bind at 1, asked.
  assert ((if negb autoconfirm
           then typer_confirm "Are you sure you want to delete the endpoint <{}>?" [VStr name]
           else ret tt) w
          = (Ok tt, if autoconfirm then w
                    else logged [Print "Are you sure you want to delete the endpoint <{}>?"
                                   [VStr name]] w)) as ->.
  { destruct autoconfirm; [done|]. destruct Hc as [?|Hc]; [done|].
    unfold typer_confirm, bind, print, emit, modify. cbn. by rewrite Hc. }
  unfold bind at 1, os_path_exists. fold (pid_file_of name).
  assert (lookup_file (if autoconfirm then w else logged _ w) (pid_file_of name)
          = lookup_file w (pid_file_of name)) as -> by (by destruct autoconfirm).
  destruct (bool_decide _); [done|].
  unfold bind. done.
Qed.

(** Without a pidfile [delete] removes the directory, and [list] no longer
    finds it. *)
Lemma delete_endpoint_without_pidfile name autoconfirm w :
  confirmed w autoconfirm → is_Some (funcx_dir w !! name) →
  lookup_file w (pid_file_of name) = None →
  (delete_endpoint name autoconfirm w).1 = Ok tt
  ∧ funcx_dir (delete_endpoint name autoconfirm w).2 !! name = None
  ∧ name ∉ glob_config_files (delete_endpoint name autoconfirm w).2.
Proof.
  intros Hc [d Hd] Hp. rewrite (delete_endpoint_eq name autoconfirm w Hc), Hp.
  rewrite bool_decide_eq_false_2 by (by intros [? ?]).
  unfold shutil_rmtree, asked.
  destruct autoconfirm; cbn; rewrite Hd; cbn;
    (split_and!; [done|apply lookup_delete_eq|]);
    rewrite elem_of_glob_config_files; unfold lookup_file; cbn;
    rewrite lookup_delete_eq; by intros [_ [? ?]].
Qed.

(** When signalling fails inside [delete], [stop_endpoint] ends the command
    before the directory is removed: every file but the pidfile is still
    there. *)
Lemma delete_endpoint_signal_failure name autoconfirm w f pid :
  confirmed w autoconfirm →
  lookup_file w (pid_file_of name) = Some f → as_int f = Some pid →
  signalling_fails w pid = true →
  raises (delete_endpoint name autoconfirm w).1 = true
  ∧ ∀ p, p.2 ≠ "daemon.pid" →
      lookup_file (delete_endpoint name autoconfirm w).2 p = lookup_file w p.
Proof.
  intros Hc Hf Hpid Hfail.
  rewrite (delete_endpoint_eq name autoconfirm w Hc), Hf.
  rewrite bool_decide_eq_true_2 by eauto.
  set (w0 := asked name autoconfirm w).
  assert (Hw0 : ∀ p, lookup_file w0 p = lookup_file w p)
    by (intros p; subst w0; unfold asked; by destruct autoconfirm).
  assert (Hfail0 : signalling_fails w0 pid = true).
  { subst w0. unfold asked. destruct autoconfirm; [done|].
    unfold logged. by rewrite signalling_fails_set_trace. }
  unfold bind.
  assert (Hf0 : lookup_file w0 (pid_file_of name) = Some f) by (by rewrite Hw0).
  rewrite (stop_endpoint_present name w0 f pid Hf0 Hpid). unfold try_except.
  set (w1 := logged _ w0).
  assert (Hfail1 : signalling_fails w1 pid = true)
    by (subst w1; unfold logged; by rewrite signalling_fails_set_trace).
  destruct (signal_endpoint_fails name pid w1 Hfail1) as (e & w2 & Hrun & He & _).
  pose proof (signal_endpoint_other_files name pid w1) as Hs.
  rewrite Hrun in *. rewrite He, stop_cleanup_eq. cbv zeta. cbn [snd] in Hs.
  destruct (lookup_file w2 (pid_file_of name)) eqn:E; cbn [fst snd raises];
    (split; [done|]); intros p Hp.
  - rewrite lookup_file_remove_file_other, lookup_file_logged, Hs by
      (try done; destruct p; unfold pid_file_of; cbn in Hp; congruence).
    subst w1. by rewrite lookup_file_logged, Hw0.
  - rewrite lookup_file_logged, Hs by done.
    subst w1. by rewrite lookup_file_logged, Hw0.
Qed.

(** C9 fails on the program: [delete -y] of an endpoint whose pidfile is
    stale.  [stop_endpoint] cannot signal the recorded pid, removes the
    pidfile and calls [sys.exit(-1)]; [shutil.rmtree] is never reached.  The
    configuration and the registration record are still there and [list]
    still reports the endpoint. *)
Theorem delete_stale_keeps_directory :
  stale ex_stale "default"
  ∧ (delete_endpoint "default" true ex_stale).1 = Raise (SystemExit (-1))
  ∧ lookup_file (delete_endpoint "default" true ex_stale).2 ("default", "config.py")
    = Some (module_text ex_config)
  ∧ lookup_file (delete_endpoint "default" true ex_stale).2 (record_file "default")
    = Some (json_text ex_reg_info)
  ∧ lookup_file (delete_endpoint "default" true ex_stale).2 (pid_file_of "default") = None
  ∧ (list_rows (delete_endpoint "default" true ex_stale).2).1
    = Ok [("default", "Inactive", Some (VStr "6f1c2a0e-5b7d-4c3a-9e21-0a4d8b7c1f55"))].
Proof.
  split_and!; try reflexivity.
  exists 4242. split; [|reflexivity].
  exists (pid_text 4242). split_and!; [reflexivity|reflexivity|lia].
Qed.

(** [delete] of an active endpoint whose daemon is stopped by the two
    signals: the directory is removed and [list] has no row left. *)
Example delete_active_removes_directory :
  (delete_endpoint "default" true ex_active).1 = Ok tt
  ∧ funcx_dir (delete_endpoint "default" true ex_active).2 = ∅
  ∧ (list_rows (delete_endpoint "default" true ex_active).2).1 = Ok [].
Proof. split_and!; reflexivity. Qed.

(** * Further properties *)

(** ** More on start_endpoint *)

(** With a directory that has no [config.py], [start_endpoint] fails on
    loading it. *)
Lemma start_needs_config_missing fuel name u w :
  is_Some (funcx_dir w !! name) → lookup_file w (name, "config.py") = None →
  start_endpoint fuel name u w = (Raise FileNotFoundError, w).
Proof.
  intros Hd Hf. unfold start_endpoint, bind at 1, dir_exists.
  rewrite bool_decide_eq_true_2 by done. cbn [negb].
  unfold bind, load_config, bind, read_file. by rewrite Hf.
Qed.

(** X1. [start] needs a configuration and creates none.  For an endpoint
    name (one path component) that has no directory under the root it prints
    the guidance and returns; with a directory whose [config.py] is missing or
    does not load it raises before anything is logged, read or written.  In
    each case files and processes are as they were. *)
Theorem start_needs_configuration (fuel : nat) (name : string) (u : value) (w : world) :
  (endpoint_name name → funcx_dir w !! name = None →
     start_endpoint fuel name u w = (Ok tt, logged [not_configured_message name] w))
  ∧ (is_Some (funcx_dir w !! name) → lookup_file w (name, "config.py") = None →
     start_endpoint fuel name u w = (Raise FileNotFoundError, w))
  ∧ (∀ f, lookup_file w (name, "config.py") = Some f → as_module f = None →
     start_endpoint fuel name u w = (Raise ModuleLoadError, w)).
Proof.
  split_and!.
  - intros _ Hd. unfold start_endpoint, bind, dir_exists. rewrite Hd. done.
  - apply start_needs_config_missing.
  - intros f Hf Hm. unfold start_endpoint, bind at 1, dir_exists.
    rewrite bool_decide_eq_true_2 by (by apply (lookup_file_dir w (name, "config.py"))).
    cbn [negb]. unfold bind, load_config, bind, read_file. by rewrite Hf, Hm.
Qed.

Lemma start_needs_configuration_witness :
  start_endpoint 3 "staging" VNone ex_initialized
  = (Ok tt, logged [not_configured_message "staging"] ex_initialized).
Proof.
  apply (proj1 (start_needs_configuration 3 "staging" VNone ex_initialized)).
  - plain_name.
  - reflexivity.
Defined.

(** ** More on check_pidfile and the pidfile *)

Lemma logged_nil w : logged [] w = w.
Proof. unfold logged. rewrite app_nil_r. by destruct w. Qed.

(** X2. The liveness check is read-only.  [check_pidfile] changes nothing
    but the log: without [log] the state is the one it was called in, and so
    it is when it raises; with [log] the only change is one of the two
    messages at the end of the log. *)
Theorem check_pidfile_only_logs (p : path) (mn en : string) (lg : bool) (w : world) :
  let w' := (check_pidfile p mn en lg w).2 in
  (lg = false → w' = w)
  ∧ (raises (check_pidfile p mn en lg w).1 = true → w' = w)
  ∧ ∃ es, w' = logged es w
          ∧ (es = [] ∨ es = check_pidfile_log en true ∨ es = check_pidfile_log en false).
Proof.
  cbv zeta. rewrite check_pidfile_eq.
  destruct (lookup_file w p) as [f|]; cbn.
  2:{ split_and!; [done|done|]. exists []. by rewrite logged_nil; auto. }
  destruct (as_int f) as [pid|]; cbn.
  2:{ split_and!; [done|done|]. exists []. by rewrite logged_nil; auto. }
  destruct (pid <? 0); cbn.
  { split_and!; [done|done|]. exists []. by rewrite logged_nil; auto. }
  split_and!.
  - by intros ->.
  - done.
  - destruct lg.
    + exists (check_pidfile_log en (live_namedb w pid mn)). split; [done|].
      destruct (live_namedb w pid mn); auto.
    + exists []. by rewrite logged_nil; auto.
Qed.

Lemma stop_endpoint_garbled name w :
  pidfile_garbled w name →
  stop_endpoint name w
  = (Raise ValueError, logged [Log DEBUG_ "{} has a daemon.pid file" [VStr name]] w).
Proof.
  intros (f & Hf & Hi). unfold stop_endpoint, bind, os_path_exists. rewrite Hf. cbn.
  unfold read_int, bind, read_file. rewrite lookup_file_set_trace, Hf, Hi. done.
Qed.

(** X3. A pidfile that does not hold a number blocks every command that
    looks at it: [int()] raises [ValueError] in [check_pidfile] and in
    [stop_endpoint], so [stop], [start], [restart] and [delete] all end with
    that exception, with the files (the pidfile too) and the processes as
    they were; [list] fails on the endpoint's row once it is registered. *)
Theorem garbled_pidfile_blocks (w : world) (name : string) :
  pidfile_garbled w name →
  let same (w' : world) := funcx_dir w' = funcx_dir w ∧ procs w' = procs w in
  (∀ mn en lg, check_pidfile (pid_file_of name) mn en lg w = (Raise ValueError, w))
  ∧ ((stop_endpoint name w).1 = Raise ValueError ∧ same (stop_endpoint name w).2)
  ∧ (∀ fuel u cfg, configured w name cfg → record_readable w name →
       (start_endpoint fuel name u w).1 = Raise ValueError
       ∧ same (start_endpoint fuel name u w).2)
  ∧ (∀ fuel, (restart_endpoint fuel name w).1 = Raise ValueError
             ∧ same (restart_endpoint fuel name w).2)
  ∧ (∀ autoconfirm, confirmed w autoconfirm →
       (delete_endpoint name autoconfirm w).1 = Raise ValueError
       ∧ same (delete_endpoint name autoconfirm w).2)
  ∧ (is_Some (lookup_file w (record_file name)) → record_readable w name →
       list_row name w = (Raise ValueError, w)).
Proof.
  intros Hg same. pose proof Hg as (f & Hf & Hi). subst same. cbv beta.
  split_and!; try (by rewrite stop_endpoint_garbled).
  - intros mn en lg. by apply (check_pidfile_malformed _ _ _ _ _ f).
  - intros fuel u cfg Hc Hr.
    destruct (endpoint_identity_readable name u w Hr) as (id & es & Hid).
    rewrite (start_endpoint_eq fuel name u w cfg Hc), Hid.
    rewrite (check_pidfile_malformed _ _ _ _ _ f); done.
  - intros fuel. by rewrite restart_endpoint_eq, stop_endpoint_garbled.
  - intros autoconfirm Hc. rewrite (delete_endpoint_eq name autoconfirm w Hc), Hf.
    rewrite bool_decide_eq_true_2 by eauto. unfold bind.
    rewrite stop_endpoint_garbled.
    + unfold asked. by destruct autoconfirm.
    + exists f. unfold asked. by destruct autoconfirm.
  - intros [rf Hrf] Hr. destruct (Hr rf Hrf) as (d & e & Hj & He).
    unfold list_row, bind, os_path_exists. unfold record_file in Hrf. rewrite Hrf. cbn.
    unfold json_load, bind, read_file. rewrite Hrf, Hj. cbn. rewrite He. cbn.
    fold (pid_file_of name). by rewrite (check_pidfile_malformed _ _ _ _ _ f).
Qed.

Lemma garbled_pidfile_blocks_witness :
  (stop_endpoint "default" ex_garbled).1 = Raise ValueError
  ∧ (delete_endpoint "default" true ex_garbled).1 = Raise ValueError.
Proof.
  assert (Hg : pidfile_garbled ex_garbled "default").
  { exists empty_text. split; reflexivity. }
  destruct (garbled_pidfile_blocks ex_garbled "default" Hg) as (_ & [H1 _] & _ & _ & H2 & _).
  split; [exact H1|]. apply (H2 true). left. reflexivity.
Defined.

(** X4. [stop] signals the pid the pidfile records without looking at what
    runs under it.  When both signals can be delivered, [stop] returns, the
    recorded process is gone from the process table whatever its name, both
    SIGTERM and SIGKILL have been sent in this order with 0.1 s after each,
    and [stop] itself removes no file: the pidfile is gone afterwards only if
    the signalled process released it, and only then is the endpoint reported
    as stopped. *)
Theorem stop_kills_recorded_pid (w : world) (name : string) (f : file) (pid : Z) :
  lookup_file w (pid_file_of name) = Some f →
  as_int f = Some pid →
  signalling_fails w pid = false →
  let w' := (stop_endpoint name w).2 in
  let released := bool_decide (lookup_file w' (pid_file_of name) = None) in
  (stop_endpoint name w).1 = Ok tt
  ∧ procs w' = delete pid (procs w)
  ∧ trace w' = (trace w ++ stop_events name pid released)%list
  ∧ (released = false → lookup_file w' (pid_file_of name) = Some f)
  ∧ (released = true → on_sigterm (env w) pid = Releasing)
  ∧ (on_sigterm (env w) pid = Lingers → funcx_dir w' = funcx_dir w).
Proof.
  intros Hf Hpid Hfail. cbv zeta.
  rewrite (stop_endpoint_present name w f pid Hf Hpid).
  revert Hfail.
  unfold try_except, signalling_fails, signal_endpoint, bind, os_kill, logger, emit,
    modify, time_sleep, logged.
  cbn. destruct (procs w !! pid) as [pr|] eqn:Hp; cbn; [|done].
  destruct (killable pr) eqn:Hk; cbn; [|done].
  unfold deliver. cbn [env set_trace].
  destruct (on_sigterm (env w) pid) eqn:Hr; norm; rewrite ?Hp, ?Hk; cbn; try done.
  - intros _. unfold os_path_exists. norm. rewrite Hf. cbn. norm. rewrite Hf. cbn.
    rewrite <- !app_assoc. done.
  - intros _. unfold os_path_exists. norm.
    destruct (lookup_file (close_context pid pr w) (pid_file_of name)) eqn:E; cbn;
      norm; rewrite E; cbn; rewrite <- !app_assoc; split_and!; try done.
    intros _. destruct (lookup_file_close_context pid pr w (pid_file_of name)); congruence.
Qed.

Lemma stop_kills_recorded_pid_witness :
  (stop_endpoint "default" ex_active).1 = Ok tt
  ∧ procs (stop_endpoint "default" ex_active).2 = delete 4242 (procs ex_active).
Proof.
  destruct (stop_kills_recorded_pid ex_active "default" (pid_text 4242) 4242)
    as (H1 & H2 & _); [reflexivity|reflexivity|reflexivity|].
  exact (conj H1 H2).
Defined.

(** ** More on stop_endpoint *)

Lemma pidfile_records_readable w name pid :
  pidfile_records w name pid → pidfile_readable w name.
Proof. intros (f & Hf & Hpid & Hge) f' Hf'. exists pid. split; [congruence|done]. Qed.

(** A failed signalling ends [stop_endpoint] with the pidfile gone. *)
Lemma stop_endpoint_failing name w f pid :
  lookup_file w (pid_file_of name) = Some f → as_int f = Some pid →
  signalling_fails w pid = true →
  raises (stop_endpoint name w).1 = true
  ∧ lookup_file (stop_endpoint name w).2 (pid_file_of name) = None.
Proof.
  intros Hf Hpid Hfail.
  rewrite (stop_endpoint_present name w f pid Hf Hpid).
  unfold logged in *.
  rewrite <- (signalling_fails_set_trace
    (trace w ++ [Log DEBUG_ "{} has a daemon.pid file" [VStr name]])) in Hfail.
  destruct (signal_endpoint_fails name pid _ Hfail) as (e & w1 & Hrun & He & Hpf & _).
  rewrite lookup_file_set_trace in Hpf.
  unfold try_except. rewrite Hrun, He, stop_cleanup_eq. cbv zeta.
  destruct Hpf as [Hpf|Hpf]; rewrite Hpf, ?Hf; cbn [fst snd]; [|done].
  by rewrite lookup_file_remove_file.
Qed.

(** ** More on the daemon *)

Lemma undisturbed_refl w : undisturbed w w.
Proof. done. Qed.

Lemma undisturbed_trans w1 w2 w3 :
  undisturbed w1 w2 → undisturbed w2 w3 → undisturbed w1 w3.
Proof.
  intros (H1 & H2 & H3 & H4 & H5 & H6 & H7 & H8) (G1 & G2 & G3 & G4 & G5 & G6 & G7 & G8).
  split_and!; try congruence.
  - intros p Hp. by rewrite G1, H1.
  - intros dir. by rewrite G2, H2.
Qed.

Lemma undisturbed_record dir f d w :
  funcx_dir w !! dir = Some d →
  undisturbed w (set_funcx_dir (<[dir := <["endpoint.json" := f]> d]> (funcx_dir w)) w).
Proof.
  intros Hd. split_and!; try done.
  - intros [pd pf] Hp. unfold lookup_file. cbn in *.
    destruct (decide (dir = pd)) as [->|Hne].
    + rewrite lookup_insert_eq, Hd. cbn. by rewrite lookup_insert_ne.
    + by rewrite lookup_insert_ne.
  - intros dir'. cbn. destruct (decide (dir = dir')) as [->|Hne].
    + rewrite lookup_insert_eq, Hd. split; eauto.
    + by rewrite lookup_insert_ne.
Qed.

Lemma supervise_undisturbed name cfg u fuel :
  keeps undisturbed (supervise fuel name cfg u).
Proof.
  by apply (keeps_supervise undisturbed undisturbed_refl undisturbed_trans
              ltac:(done) ltac:(done) undisturbed_record).
Qed.

(** The state in which the supervision loop of a fresh daemon starts. *)
Lemma start_daemon_enters fuel name cfg id w :
  configured w name cfg → launchable cfg →
  lookup_file w (pid_file_of name) = None →
  ∃ w2, start_daemon fuel name cfg id w
        = finally (supervise fuel name cfg id) (daemon_close name) w2
        ∧ lookup_file w2 (pid_file_of name) = Some (pid_text (daemon_pid w cfg))
        ∧ self_pid w2 = daemon_pid w cfg
        ∧ configured w2 name cfg
        ∧ procs w2 = <[daemon_pid w cfg := daemon_process w name]> (procs w)
        ∧ env w2 = env w.
Proof.
  intros Hc Hl Hp.
  destruct (start_daemon_outputs name cfg w Hc Hl)
    as (w1 & Hw1 & Hc1 & Hp1 & Hen1 & Hs1 & Hpr1).
  rewrite Hp in Hp1.
  set (w0 := if detach_endpoint cfg then set_self_pid (fork_pid (env w1)) w1 else w1).
  destruct (write_file_existing (pid_file_of name) (pid_text (self_pid w0)) w0)
    as (w2 & Hw & Hl2 & Hq2 & Hpr & Hen & Hsp).
  { subst w0. destruct (detach_endpoint cfg); by apply (configured_dir _ _ cfg). }
  assert (Hp0 : lookup_file w0 (pid_file_of name) = None)
    by (subst w0; by destruct (detach_endpoint cfg)).
  assert (Hpid : self_pid w0 = daemon_pid w cfg).
  { subst w0. unfold daemon_pid. rewrite <- Hen1, <- Hs1. by destruct (detach_endpoint cfg). }
  exists (set_procs (<[self_pid w2 := daemon_process w2 name]> (procs w2)) w2).
  split_and!.
  - unfold start_daemon, bind at 1. rewrite Hw1.
    unfold bind at 1. rewrite (load_config_configured _ _ _ Hc1).
    unfold with_context, bind at 1. fold (pid_file_of name).
    unfold daemon_open, bind at 1.
    replace ((if detach_endpoint cfg
              then modify (λ w, set_self_pid (fork_pid (env w)) w) else ret tt) w1)
      with (Ok tt, w0) by (subst w0; by destruct (detach_endpoint cfg)).
    unfold bind at 1, os_path_exists. rewrite Hp0. cbn.
    unfold bind at 1. cbn. unfold bind. rewrite Hw. done.
  - change (lookup_file w2 (pid_file_of name) = Some (pid_text (daemon_pid w cfg))).
    by rewrite Hl2, Hpid.
  - cbn. by rewrite Hsp.
  - destruct Hc1 as (f & Hf & Hm). exists f. split; [|done].
    change (lookup_file w2 (name, "config.py") = Some f). rewrite Hq2.
    + subst w0. by destruct (detach_endpoint cfg).
    + unfold pid_file_of. congruence.
  - cbn. rewrite Hsp, Hpid, Hpr. unfold daemon_process. rewrite Hen.
    subst w0. destruct (detach_endpoint cfg); cbn; by rewrite Hen1, Hpr1.
  - cbn. rewrite Hen. subst w0. by destruct (detach_endpoint cfg).
Qed.

Lemma configured_undisturbed w w' name cfg :
  undisturbed w w' → configured w name cfg → configured w' name cfg.
Proof.
  intros (H & _) (f & Hf & Hm). exists f. split; [|done]. by rewrite H.
Qed.

(** The identity block logs at most; it is not a loop. *)
Lemma endpoint_identity_logs name u w :
  ∃ r es, endpoint_identity name u w = (r, logged es w) ∧ r ≠ Running.
Proof.
  rewrite endpoint_identity_eq.
  destruct (lookup_file w (record_file name)) as [f|].
  - cbv zeta. destruct (as_json f) as [[]|]; try (by eexists _, _).
    destruct (d !! "endpoint_id"); by eexists _, _.
  - exists (Ok (if truthy u then u else VStr (next_uuid (env w)))), [].
    rewrite logged_nil. by destruct (truthy u).
Qed.

(** X5. An exception that leaves the supervision loop releases the lock.
    When [start], on a configured endpoint without a pidfile, ends with an
    exception (a rejected registration on the mock path, a registration
    record without the fields the loop reads, ...), the daemon context is
    closed on the way out: no pidfile is left and the daemon process is gone,
    so the failure does not block the next [start].  The output files of the
    daemon are plain file names in the endpoint directory, other than those
    of the configuration, the pidfile and the registration record. *)
Theorem start_failure_releases_pidfile (fuel : nat) (w : world) (name : string)
    (u : value) (cfg : config) :
  configured w name cfg → record_readable w name → launchable cfg →
  lookup_file w (pid_file_of name) = None →
  raises (start_endpoint fuel name u w).1 = true →
  let w' := (start_endpoint fuel name u w).2 in
  lookup_file w' (pid_file_of name) = None
  ∧ procs w' = delete (daemon_pid w cfg) (procs w)
  ∧ configured w' name cfg.
Proof.
  intros Hc Hr Hl Hp. cbv zeta.
  destruct (start_endpoint_launches fuel name u w cfg Hc Hr Hp) as (id & es & ->).
  set (w0 := logged _ w).
  destruct (start_daemon_enters fuel name cfg id w0 Hc Hl Hp)
    as (w2 & -> & Hl2 & Hs2 & Hc2 & Hpr2 & Hen2).
  change (daemon_pid w0 cfg) with (daemon_pid w cfg) in *.
  unfold finally.
  pose proof (supervise_undisturbed name cfg id fuel w2) as Hu.
  pose proof (supervise_no_return fuel name cfg id w2) as Hn.
  destruct (supervise fuel name cfg id w2) as [[[]|e|] w3]; cbn [fst snd raises] in *;
    try done.
  intros _. pose proof (configured_undisturbed _ _ _ _ Hu Hc2) as Hc3.
  destruct Hu as (Hf3 & _ & Hpr3 & Hs3 & _).
  assert (Hl3 : lookup_file w3 (pid_file_of name) = Some (pid_text (daemon_pid w cfg)))
    by (by rewrite Hf3).
  unfold daemon_close, release_pidfile. fold (pid_file_of name).
  rewrite Hl3, Hs3, Hs2. cbn [mbind option_bind as_int pid_text].
  rewrite Z.eqb_refl. split_and!.
  - by rewrite lookup_file_drop_process, lookup_file_remove_file.
  - cbn. rewrite Hpr3, Hpr2. by rewrite delete_insert_eq.
  - destruct Hc3 as (f & Hf & Hm). exists f. split; [|done].
    rewrite lookup_file_drop_process, lookup_file_remove_file_other; [done|].
    unfold pid_file_of. congruence.
Qed.

Lemma start_failure_releases_pidfile_witness :
  (start_endpoint 2 "default" VNone ex_broker).1
  = Raise (RegistrationError "Service Unavailable")
  ∧ lookup_file (start_endpoint 2 "default" VNone ex_broker).2 (pid_file_of "default")
    = None.
Proof.
  split; [reflexivity|].
  refine (proj1 (start_failure_releases_pidfile 2 ex_broker "default" VNone ex_config
                   _ _ _ _ _)).
  - exists (module_text ex_config). split; reflexivity.
  - intros f Hf. vm_compute in Hf. discriminate Hf.
  - intros _. unfold path_component.
    split_and!; first [reflexivity | intros H; discriminate H].
  - reflexivity.
  - reflexivity.
Defined.

(** X6. One daemon per endpoint.  While the daemon that [start] launched
    is in its supervision loop, another [start] of the same endpoint does not
    launch a second one: it finds the pidfile and returns (or fails while
    reading the registration record), leaving the pidfile with the first
    daemon's pid and the processes as they are; when the daemon runs under
    the expected process name the log says that the endpoint is already
    active.  The output files of the daemon are plain file names in the
    endpoint directory, other than those of the configuration, the pidfile and
    the registration record. *)
Theorem second_start_refused (fuel : nat) (w : world) (name : string)
    (u : value) (cfg : config) :
  configured w name cfg → record_readable w name → launchable cfg →
  lookup_file w (pid_file_of name) = None →
  0 ≤ daemon_pid w cfg →
  (start_endpoint fuel name u w).1 = Running →
  let w' := (start_endpoint fuel name u w).2 in
  ∀ fuel2 u2,
    let again := start_endpoint fuel2 name u2 w' in
    again.1 ≠ Running
    ∧ lookup_file again.2 (pid_file_of name) = Some (pid_text (daemon_pid w cfg))
    ∧ procs again.2 = procs w'
    ∧ (record_readable w' name → again.1 = Ok tt)
    ∧ (again.1 = Ok tt → self_name (env w) = default_match_name →
         In (Log INFO "Endpoint is already active" []) (trace again.2)).
Proof.
  intros Hc Hr Hl Hp Hge. cbv zeta.
  destruct (start_endpoint_launches fuel name u w cfg Hc Hr Hp) as (id & es & ->).
  set (w0 := logged _ w).
  destruct (start_daemon_enters fuel name cfg id w0 Hc Hl Hp)
    as (w2 & -> & Hl2 & Hs2 & Hc2 & Hpr2 & Hen2).
  change (daemon_pid w0 cfg) with (daemon_pid w cfg) in *.
  change (daemon_process w0 name) with (daemon_process w name) in *.
  unfold finally.
  pose proof (supervise_undisturbed name cfg id fuel w2) as Hu.
  destruct (supervise fuel name cfg id w2) as [[[]|e|] w3]; cbn [fst snd] in *; try done.
  intros _ fuel2 u2. pose proof (configured_undisturbed _ _ _ _ Hu Hc2) as Hc3.
  destruct Hu as (Hf3 & _ & Hpr3 & Hs3 & Hen3 & _).
  assert (Hl3 : lookup_file w3 (pid_file_of name) = Some (pid_text (daemon_pid w cfg)))
    by (by rewrite Hf3).
  rewrite (start_endpoint_eq fuel2 name u2 w3 cfg Hc3).
  destruct (endpoint_identity_logs name u2 w3) as (r & es2 & Hid & Hrun).
  rewrite Hid. destruct r as [id2|e|]; [| |done].
  - rewrite check_pidfile_eq, !lookup_file_logged, Hl3. cbn [as_int pid_text].
    destruct (Z.ltb_spec (daemon_pid w cfg) 0) as [?|_]; [lia|]. cbv zeta.
    cbn [pr_exists Z.eqb negb fst snd]. split_and!; try done.
    intros _ Hn. rewrite !live_namedb_logged. unfold live_namedb.
    rewrite Hpr3, Hpr2, lookup_insert_eq. cbn [pname daemon_process].
    rewrite Hn, String.eqb_refl. cbn. rewrite !in_app_iff. cbn. tauto.
  - split_and!; try done. intros Hr3. exfalso.
    destruct (endpoint_identity_readable name u2 w3 Hr3) as (? & ? & Hok). congruence.
Qed.

Lemma second_start_refused_witness :
  (start_endpoint 3 "default" VNone ex_initialized).1 = Running
  ∧ (start_endpoint 3 "default" (VStr "another-id")
       (start_endpoint 3 "default" VNone ex_initialized).2).1 = Ok tt.
Proof.
  split; [reflexivity|].
  refine (proj1 (proj2 (proj2 (proj2
    (second_start_refused 3 ex_initialized "default" VNone ex_config _ _ _ _ _ _
       3%nat (VStr "another-id"))))) _).
  - exists (module_text ex_config). split; reflexivity.
  - intros f Hf. vm_compute in Hf. discriminate Hf.
  - intros _. unfold path_component.
    split_and!; first [reflexivity | intros H; discriminate H].
  - reflexivity.
  - vm_compute. discriminate.
  - reflexivity.
  - intros f Hf. vm_compute in Hf. injection Hf as <-. eexists _, _. split; reflexivity.
Defined.

Lemma same_settings_refl w : same_settings w w.
Proof. done. Qed.

Lemma same_settings_trans w1 w2 w3 :
  same_settings w1 w2 → same_settings w2 w3 → same_settings w1 w3.
Proof. unfold same_settings. intros H1 H2. split_and!; destruct_and!; congruence. Qed.

Lemma same_settings_release_pidfile pid name w :
  same_settings w (release_pidfile pid name w).
Proof.
  unfold release_pidfile. destruct (_ ≫= _) as [r|]; [|done]. by destruct (r =? pid).
Qed.

Lemma same_settings_close_context pid pr w : same_settings w (close_context pid pr w).
Proof.
  unfold close_context. destruct (holds pr); [apply same_settings_release_pidfile|done].
Qed.

Lemma same_settings_os_kill pid sig : keeps same_settings (os_kill pid sig).
Proof.
  intros w. unfold os_kill. destruct (procs w !! pid) as [pr|]; [|done].
  destruct (killable pr); [|done]. cbn [snd]. unfold deliver.
  destruct sig; [|done]. cbn [env set_trace].
  destruct (on_sigterm (env w) pid); try done.
  - apply (same_settings_close_context pid pr (set_trace _ w)).
  - apply (same_settings_close_context pid pr (set_trace _ w)).
Qed.

Ltac settings_step :=
  first [ apply (keeps_ret same_settings same_settings_refl)
        | apply (keeps_raise same_settings same_settings_refl)
        | apply same_settings_os_kill
        | progress unfold logger, print, time_sleep, sys_exit, emit, modify
        | apply (keeps_bind same_settings same_settings_trans); [|intros ?]
        | apply (keeps_try_except same_settings same_settings_trans); [|intros ?]
        | match goal with
          | |- keeps _ (if ?b then _ else _) => destruct b
          end
        | by intros ? ].

Lemma same_settings_read_int p : keeps same_settings (read_int p).
Proof.
  intros w. unfold read_int, bind, read_file. destruct (lookup_file w p) as [f|]; [|done].
  by destruct (as_int f).
Qed.

(** [stop_endpoint] changes files and processes only. *)
Lemma stop_endpoint_same_settings name : keeps same_settings (stop_endpoint name).
Proof.
  unfold stop_endpoint. cbv zeta.
  apply (keeps_bind same_settings same_settings_trans); [by intros ?|intros b].
  destruct b; [|by intros ?].
  apply (keeps_bind same_settings same_settings_trans); [by intros ?|intros _].
  apply (keeps_bind same_settings same_settings_trans);
    [apply same_settings_read_int|intros pid].
  apply (keeps_try_except same_settings same_settings_trans).
  - unfold signal_endpoint. repeat settings_step.
  - intros e. unfold stop_cleanup. repeat settings_step.
    intros w. unfold os_remove. by destruct (lookup_file w _).
Qed.

(** X7. [stop] is the cleanup that [start] asks for.  With a pidfile that
    records a process id (positive, within [pid_t]) whose process cannot be
    signalled (a stale pidfile), [start] refuses; [stop] then fails, but it has
    removed the pidfile and left the configuration and the registration
    record, so that a [start] after it goes on to the daemon, which takes the
    pidfile for itself.  The output files of the daemon are plain file names
    other than those of the configuration, the pidfile and the record. *)
Theorem stop_then_start_after_stale (fuel : nat) (w : world) (name : string)
    (u : value) (cfg : config) (pid : Z) :
  configured w name cfg → record_readable w name → launchable cfg →
  pidfile_records w name pid → process_id pid → signalling_fails w pid = true →
  let w1 := (stop_endpoint name w).2 in
  (start_endpoint fuel name u w).1 = Ok tt
  ∧ raises (stop_endpoint name w).1 = true
  ∧ (start_endpoint fuel name u w1).1 ≠ Ok tt
  ∧ ((start_endpoint fuel name u w1).1 = Running →
       lookup_file (start_endpoint fuel name u w1).2 (pid_file_of name)
       = Some (pid_text (daemon_pid w cfg))).
Proof.
  intros Hc Hr Hl Hrec _ Hfail. cbv zeta.
  pose proof Hrec as (f & Hf & Hpid & Hge).
  destruct (stop_endpoint_failing name w f pid Hf Hpid Hfail) as [Hraise Hgone].
  pose proof (pidfile_records_readable _ _ _ Hrec) as Hread.
  assert (Hc1 : configured (stop_endpoint name w).2 name cfg).
  { destruct Hc as (cf & Hcf & Hm). exists cf. split; [|done].
    by rewrite stop_endpoint_other_files. }
  assert (Hr1 : record_readable (stop_endpoint name w).2 name).
  { intros rf Hrf. apply Hr. by rewrite stop_endpoint_other_files in Hrf. }
  destruct (stop_endpoint_same_settings name w) as (Henv & Hself & _).
  split_and!.
  - by destruct (start_endpoint_refuses fuel name u w cfg pid Hc Hr Hrec) as (? & ? & ->).
  - done.
  - destruct (start_endpoint_launches fuel name u _ cfg Hc1 Hr1 Hgone) as (id & es & ->).
    apply start_daemon_no_return.
  - destruct (start_endpoint_launches fuel name u _ cfg Hc1 Hr1 Hgone) as (id & es & ->).
    intros Hrun.
    destruct (start_daemon_running fuel name cfg id
                (logged (es ++ [Log INFO "Starting endpoint with uuid: {}" [id]])
                   (stop_endpoint name w).2) Hc1 Hl Hgone Hrun) as [-> _].
    unfold daemon_pid. cbn [env self_pid logged set_trace].
    by rewrite Henv, Hself.
Qed.

Lemma stop_then_start_after_stale_witness :
  (start_endpoint 3 "default" VNone ex_stale).1 = Ok tt
  ∧ (start_endpoint 3 "default" VNone (stop_endpoint "default" ex_stale).2).1 ≠ Ok tt.
Proof.
  destruct (stop_then_start_after_stale 3 ex_stale "default" VNone ex_config 4242)
    as (H1 & _ & H3 & _).
  - exists (module_text ex_config). split; reflexivity.
  - intros f Hf. vm_compute in Hf. injection Hf as <-. eexists _, _. split; reflexivity.
  - intros _. unfold path_component.
    split_and!; first [reflexivity | intros H; discriminate H].
  - exists (pid_text 4242). split_and!; [reflexivity|reflexivity|lia].
  - unfold process_id. lia.
  - reflexivity.
  - exact (conj H1 H3).
Defined.

(** ** More on the supervision loop *)

Lemma split_on_cons sep s : ∃ x xs, split_on sep s = x :: xs.
Proof.
  induction s as [|c s (x & xs & IH)]; cbn; [by eexists _, _|].
  destruct (Ascii.eqb c sep); [by eexists _, _|]. rewrite IH. by eexists _, _.
Qed.

Lemma join_with_cons sep x y ys :
  join_with sep (x :: y :: ys) = x ++ String sep (join_with sep (y :: ys)).
Proof. done. Qed.

Lemma split_on_join sep s : join_with sep (split_on sep s) = s.
Proof.
  induction s as [|c s IH]; [done|]. cbn [split_on].
  destruct (split_on_cons sep s) as (x & xs & Hs).
  destruct (Ascii.eqb_spec c sep) as [->|Hne].
  - rewrite Hs, join_with_cons, <- Hs, IH. done.
  - rewrite Hs in *. destruct xs as [|y ys].
    + cbn in *. by rewrite IH.
    + rewrite join_with_cons in IH |- *.
      change (String c (x ++ String sep (join_with sep (y :: ys))) = String c s).
      by rewrite IH.
Qed.

Lemma split_on_pieces sep s : Forall (λ x, occurs sep x = false) (split_on sep s).
Proof.
  induction s as [|c s IH]; cbn [split_on]; [by repeat constructor|].
  destruct (Ascii.eqb_spec c sep) as [->|Hne].
  - by constructor.
  - destruct (split_on_cons sep s) as (x & xs & Hs). rewrite Hs in *.
    inversion IH as [|? ? Hx Hxs]; subst. constructor; [|done].
    cbn. rewrite Hx. by destruct (Ascii.eqb_spec c sep).
Qed.

(** X8. The parameters the interchange is started with.  From a
    registration record with an [address] and a [client_ports] string the
    loop builds: [client_address], the record's address; [client_ports], the
    string cut at its commas (the pieces hold no comma and, joined by commas,
    give the string back); [logdir], the endpoint directory;
    [interchange_address] exactly when the global options have an
    [endpoint_address]; [logging_level] exactly in debug mode; and nothing
    else.  A record without one of the two fields raises [KeyError], ports
    that are not a string raise [AttributeError]; the state is untouched. *)
Theorem interchange_optionals_spec (w : world) (name : string) (d : gmap string value) :
  (∀ a s, d !! "address" = Some a → d !! "client_ports" = Some (VStr s) →
     ∃ opts ports,
       interchange_optionals name (VDict d) w = (Ok opts, w)
       ∧ opts !! "client_address" = Some a
       ∧ opts !! "client_ports" = Some (VList (VStr <$> ports))
       ∧ join_with "," ports = s
       ∧ Forall (λ x, occurs "," x = false) ports
       ∧ opts !! "logdir" = Some (VStr (endpoint_dir_path w name))
       ∧ opts !! "interchange_address" = FUNCX_CONFIG w !! "endpoint_address"
       ∧ opts !! "logging_level" = (if DEBUG w then Some (VInt logging_DEBUG) else None)
       ∧ ∀ k, is_Some (opts !! k) → k ∈ optional_keys)
  ∧ (d !! "address" = None →
       interchange_optionals name (VDict d) w = (Raise (KeyError "address"), w))
  ∧ (is_Some (d !! "address") → d !! "client_ports" = None →
       interchange_optionals name (VDict d) w = (Raise (KeyError "client_ports"), w))
  ∧ (∀ v, is_Some (d !! "address") → d !! "client_ports" = Some v →
       (∀ s, v ≠ VStr s) →
       interchange_optionals name (VDict d) w = (Raise AttributeError, w)).
Proof.
  split_and!.
  - intros a s Ha Hp. unfold interchange_optionals, bind, getitem. rewrite Ha. cbn.
    rewrite Hp. cbn.
    eexists _, (split_on "," s). split; [done|].
    split_and!.
    + destruct (DEBUG w), (FUNCX_CONFIG w !! "endpoint_address");
        by repeat (rewrite lookup_insert_ne by done); rewrite ?lookup_insert_eq.
    + destruct (DEBUG w), (FUNCX_CONFIG w !! "endpoint_address");
        by repeat (rewrite lookup_insert_ne by done); rewrite ?lookup_insert_eq.
    + apply split_on_join.
    + apply split_on_pieces.
    + destruct (DEBUG w), (FUNCX_CONFIG w !! "endpoint_address");
        by repeat (rewrite lookup_insert_ne by done); rewrite ?lookup_insert_eq.
    + destruct (DEBUG w), (FUNCX_CONFIG w !! "endpoint_address");
        repeat (rewrite lookup_insert_ne by done); by rewrite ?lookup_insert_eq.
    + destruct (DEBUG w), (FUNCX_CONFIG w !! "endpoint_address");
        repeat (rewrite lookup_insert_ne by done); by rewrite ?lookup_insert_eq.
    + intros k [v Hk]. unfold optional_keys.
      destruct (DEBUG w), (FUNCX_CONFIG w !! "endpoint_address");
        repeat (apply lookup_insert_Some in Hk as [[<- _]|[_ Hk]]; [set_solver|]);
        done.
  - intros Ha. unfold interchange_optionals, bind, getitem. by rewrite Ha.
  - intros [a Ha] Hp. unfold interchange_optionals, bind, getitem. rewrite Ha. cbn.
    by rewrite Hp.
  - intros v [a Ha] Hp Hv. unfold interchange_optionals, bind, getitem. rewrite Ha. cbn.
    rewrite Hp. cbn. destruct v; try done. by destruct (Hv s).
Qed.

Lemma interchange_optionals_spec_witness :
  ∃ opts, interchange_optionals "default" ex_reg_info ex_initialized
          = (Ok opts, ex_initialized)
          ∧ opts !! "client_ports"
            = Some (VList [VStr "55001"; VStr "55002"; VStr "55003"]).
Proof.
  destruct (interchange_optionals_spec ex_initialized "default"
              (<["endpoint_id" := VStr "6f1c2a0e-5b7d-4c3a-9e21-0a4d8b7c1f55"]>
                (<["address" := VStr "10.0.0.7"]>
                  (<["client_ports" := VStr "55001,55002,55003"]> ∅)))) as (H & _).
  destruct (H (VStr "10.0.0.7") "55001,55002,55003") as (opts & ports & H1 & _);
    [reflexivity|reflexivity|].
  exists opts. split; [exact H1|].
  injection H1 as <-. reflexivity.
Defined.

(** ** More on register_with_hub *)

(** X9. A hub that answers 200 without a JSON body costs the endpoint its
    registration record.  [endpoint.json] is opened for writing before
    [r.json()] is evaluated: the call raises the decoding error and the file
    is left empty, whatever record was there; from then on [start] fails on
    the record before it looks at the pidfile. *)
Theorem hub_reply_without_json_truncates (w : world) (u : value) (dir a : string)
    (redis : value) (reason : string) :
  next_hub_reply w = Response 200 reason None →
  is_Some (funcx_dir w !! dir) →
  let run := register_with_hub u dir (VStr a) redis w in
  run.1 = Raise JSONDecodeError
  ∧ lookup_file run.2 (record_file dir) = Some empty_text
  ∧ (∀ p, p ≠ record_file dir → lookup_file run.2 p = lookup_file w p)
  ∧ (∀ u', (endpoint_identity dir u' run.2).1 = Raise JSONDecodeError)
  ∧ (∀ fuel u' cfg, configured w dir cfg →
       (start_endpoint fuel dir u' run.2).1 = Raise JSONDecodeError).
Proof.
  unfold next_hub_reply. intros Hr [d Hd]. cbv zeta.
  set (w1 := set_funcx_dir (<[dir := <["endpoint.json" := empty_text]> d]> (funcx_dir w))
               (hub_posted u a redis w)).
  assert (Hrun : register_with_hub u dir (VStr a) redis w = (Raise JSONDecodeError, w1)).
  { unfold register_with_hub, bind, try_except, add_str, requests_post.
    cbn. rewrite Hr. cbn. unfold write_file at 1. cbn. rewrite Hd. cbn.
    subst w1. unfold hub_posted, logged. cbn. by rewrite <- !app_assoc. }
  assert (Hl1 : lookup_file w1 (record_file dir) = Some empty_text).
  { unfold lookup_file. cbn. rewrite lookup_insert_eq. cbn. apply lookup_insert_eq. }
  assert (Hq1 : ∀ q, q ≠ record_file dir → lookup_file w1 q = lookup_file w q).
  { intros [qd qf] Hq. unfold lookup_file. cbn.
    destruct (decide (dir = qd)) as [->|Hne].
    - rewrite lookup_insert_eq, Hd. cbn. rewrite lookup_insert_ne; [done|].
      unfold record_file in Hq. congruence.
    - by rewrite lookup_insert_ne. }
  rewrite Hrun. cbn [fst snd].
  assert (Hid : ∀ u', (endpoint_identity dir u' w1).1 = Raise JSONDecodeError)
    by (intros u'; by rewrite endpoint_identity_eq, Hl1).
  split_and!; try done.
  intros fuel u' cfg (f & Hf & Hm).
  assert (Hc1 : configured w1 dir cfg).
  { exists f. split; [|done]. rewrite Hq1; [done|]. unfold record_file. congruence. }
  rewrite (start_endpoint_eq fuel dir u' w1 cfg Hc1).
  specialize (Hid u'). by destruct (endpoint_identity dir u' w1) as [[]]; cbn in *; simplify_eq.
Qed.

Lemma hub_reply_without_json_truncates_witness :
  lookup_file (answering (Response 200 "OK" None) ex_stale) (record_file "default")
  = Some (json_text ex_reg_info)
  ∧ lookup_file
      (register_with_hub (VStr "0b9d6c5e") "default" (VStr "http://hub:8080")
         (VStr default_redis_host) (answering (Response 200 "OK" None) ex_stale)).2
      (record_file "default")
    = Some empty_text.
Proof.
  split; [reflexivity|].
  refine (proj1 (proj2 (hub_reply_without_json_truncates
    (answering (Response 200 "OK" None) ex_stale) (VStr "0b9d6c5e") "default"
    "http://hub:8080" (VStr default_redis_host) "OK" _ _))).
  - reflexivity.
  - eexists. reflexivity.
Defined.

(** ** More on list_endpoints *)

Lemma NoDup_glob_config_files w : NoDup (glob_config_files w).
Proof.
  unfold glob_config_files.
  pose proof (NoDup_fst_map_to_list (funcx_dir w)) as Hnd.
  induction (map_to_list (funcx_dir w)) as [|[n d] l IH]; cbn in *; [constructor|].
  apply NoDup_cons in Hnd as [Hn Hl].
  destruct (negb (hidden n) && bool_decide (is_Some (d !! "config.py"))); cbn; [|auto].
  apply NoDup_cons. split; [|auto].
  intros Hin. apply Hn. apply list_elem_of_fmap in Hin as ([n' d'] & -> & Hin).
  apply list_elem_of_In, filter_In in Hin as [Hin _]. apply list_elem_of_fmap.
  exists (n', d'). split; [done|]. by apply list_elem_of_In.
Qed.

(** X10. [list] reads only, and draws all rows or none.  With a
    [State.FUNCX_DIR] that [glob] reads literally, either it draws one table,
    with exactly one row for each directory under the root that has a
    [config.py] and a name not starting with a dot, or it raises and draws
    nothing; in both cases files, processes and settings are as before.  It
    raises as soon as one of these endpoints has a row that cannot be
    computed. *)
Theorem list_reads_only (w : world) :
  literal_root w →
  ((∃ rows, list_endpoints w = (Ok tt, logged [DrawTable headings rows] w)
            ∧ NoDup (row_name <$> rows)
            ∧ ∀ name, name ∈ row_name <$> rows
                ↔ hidden name = false ∧ is_Some (lookup_file w (name, "config.py")))
   ∨ (∃ e, list_endpoints w = (Raise e, w)))
  ∧ (∀ name, hidden name = false → is_Some (lookup_file w (name, "config.py")) →
       raises (list_row name w).1 = true →
       raises (list_endpoints w).1 = true).
Proof.
  intros _.
  unfold list_endpoints, list_rows, bind at 1 3 4. unfold bind, get_world.
  destruct (for_each_list_row_reads (glob_config_files w) w) as (Hw & Hr & Hn & Hx).
  split.
  - destruct (for_each list_row (glob_config_files w) w) as [[rows|e|] w1];
      cbn [fst snd] in *; subst; [left|right|done].
    + exists rows. split; [done|]. rewrite (Hn rows) by done.
      split; [apply NoDup_glob_config_files|]. intros name.
      apply elem_of_glob_config_files.
    + by exists e.
  - intros name Hh Hc Hraise.
    assert (Hin : name ∈ glob_config_files w) by (by apply elem_of_glob_config_files).
    specialize (Hx name Hin Hraise).
    by destruct (for_each list_row (glob_config_files w) w) as [[rows|e|] w1].
Qed.

Lemma list_reads_only_witness : list_endpoints ex_two = (Raise JSONDecodeError, ex_two).
Proof.
  assert (Hroot : literal_root ex_two) by reflexivity.
  pose proof (proj2 (list_reads_only ex_two Hroot) "gpu") as H.
  assert (Hr : raises (list_endpoints ex_two).1 = true).
  { apply H; [reflexivity|eexists; reflexivity|reflexivity]. }
  destruct (proj1 (list_reads_only ex_two Hroot)) as [(rows & Heq & _)|(e & Heq)].
  - rewrite Heq in Hr. discriminate Hr.
  - rewrite Heq. f_equal. vm_compute in Heq. injection Heq as <-. reflexivity.
Defined.

(** ** More on delete_endpoint *)

Lemma delete_endpoint_declined name w :
  confirm_answer (env w) = false →
  delete_endpoint name false w
  = (Raise Abort,
     logged [Print "Are you sure you want to delete the endpoint <{}>?" [VStr name]] w).
Proof.
  intros Hc. unfold delete_endpoint, bind, typer_confirm, bind, print, emit, modify.
  cbn. by rewrite Hc.
Qed.

(** X11. [delete] without effect.  When the confirmation is declined the
    command is aborted after the prompt: no signal is sent and nothing is
    removed, pidfile or not.  When it is confirmed for an endpoint name (one
    path component) that has no directory under the root, [shutil.rmtree]
    raises [FileNotFoundError]; nothing has changed but the prompt on the
    screen. *)
Theorem delete_refused_changes_nothing (w : world) (name : string) :
  (confirm_answer (env w) = false →
     delete_endpoint name false w
     = (Raise Abort,
        logged [Print "Are you sure you want to delete the endpoint <{}>?" [VStr name]] w))
  ∧ (∀ autoconfirm, confirmed w autoconfirm →
       endpoint_name name → funcx_dir w !! name = None →
       delete_endpoint name autoconfirm w
       = (Raise FileNotFoundError, asked name autoconfirm w)).
Proof.
  split; [apply delete_endpoint_declined|].
  intros autoconfirm Hc _ Hd. rewrite (delete_endpoint_eq name autoconfirm w Hc).
  assert (Hp : lookup_file w (pid_file_of name) = None).
  { unfold lookup_file. cbn. by rewrite Hd. }
  rewrite Hp, bool_decide_eq_false_2 by (by intros [? ?]).
  unfold shutil_rmtree. by destruct autoconfirm; cbn; rewrite Hd.
Qed.

Lemma delete_refused_changes_nothing_witness :
  delete_endpoint "default" false (reacting Lingers ex_broker)
  = (Raise Abort,
     logged [Print "Are you sure you want to delete the endpoint <{}>?" [VStr "default"]]
       (reacting Lingers ex_broker))
  ∧ delete_endpoint "staging" true ex_active = (Raise FileNotFoundError, ex_active).
Proof.
  split.
  - apply (proj1 (delete_refused_changes_nothing (reacting Lingers ex_broker) "default")).
    reflexivity.
  - apply (proj2 (delete_refused_changes_nothing ex_active "staging") true).
    + left. reflexivity.
    + plain_name.
    + reflexivity.
Defined.

(** When [stop_endpoint] returns from a state with a pidfile, the recorded
    process is gone. *)
Lemma stop_endpoint_returned_kills name w f pid :
  lookup_file w (pid_file_of name) = Some f → as_int f = Some pid →
  (stop_endpoint name w).1 = Ok tt →
  procs (stop_endpoint name w).2 !! pid = None.
Proof.
  intros Hf Hpid.
  destruct (signalling_fails w pid) eqn:Hfail.
  - destruct (stop_endpoint_failing name w f pid Hf Hpid Hfail) as [Hr _].
    intros Hok. by rewrite Hok in Hr.
  - rewrite (stop_endpoint_present name w f pid Hf Hpid). unfold try_except.
    set (w0 := logged _ w).
    assert (Hfail0 : signalling_fails w0 pid = false)
      by (subst w0; unfold logged; by rewrite signalling_fails_set_trace).
    by destruct (signal_endpoint_ok name pid w0 Hfail0) as (w2 & -> & Hgone & _).
Qed.

(** X12. What [delete] has done when it returns.  The endpoint's directory
    is gone with everything in it and [list] no longer finds it; the process
    that its pidfile recorded is gone; the files of the other endpoints,
    pidfiles apart, are as they were.  Without a pidfile nothing else
    changes: the root has lost exactly this directory, the processes are the
    same. *)
Theorem delete_removes_the_endpoint (w : world) (name : string) (autoconfirm : bool) :
  pidfile_readable w name →
  (delete_endpoint name autoconfirm w).1 = Ok tt →
  let w' := (delete_endpoint name autoconfirm w).2 in
  funcx_dir w' !! name = None
  ∧ (name ∉ glob_config_files w')
  ∧ (∀ p, p.1 ≠ name → p.2 ≠ "daemon.pid" → lookup_file w' p = lookup_file w p)
  ∧ (∀ pid, pidfile_records w name pid → procs w' !! pid = None)
  ∧ (lookup_file w (pid_file_of name) = None →
       funcx_dir w' = delete name (funcx_dir w) ∧ procs w' = procs w).
Proof.
  intros Hread. cbv zeta.
  assert (Hc : (delete_endpoint name autoconfirm w).1 = Ok tt → confirmed w autoconfirm).
  { destruct autoconfirm; [by left|]. destruct (confirm_answer (env w)) eqn:Ha; [by right|].
    by rewrite delete_endpoint_declined. }
  intros Hok. specialize (Hc Hok). revert Hok.
  rewrite (delete_endpoint_eq name autoconfirm w Hc).
  set (w0 := asked name autoconfirm w).
  assert (Hw0 : ∀ p, lookup_file w0 p = lookup_file w p)
    by (intros p; subst w0; unfold asked; by destruct autoconfirm).
  assert (Hp0 : procs w0 = procs w ∧ funcx_dir w0 = funcx_dir w)
    by (subst w0; unfold asked; by destruct autoconfirm).
  assert (Hrm : ∀ w1, (shutil_rmtree name w1).1 = Ok tt →
            funcx_dir (shutil_rmtree name w1).2 = delete name (funcx_dir w1)
            ∧ procs (shutil_rmtree name w1).2 = procs w1).
  { intros w1. unfold shutil_rmtree. by destruct (funcx_dir w1 !! name). }
  assert (Hfin : ∀ w1, (∀ p, p.2 ≠ "daemon.pid" → lookup_file w1 p = lookup_file w p) →
            (shutil_rmtree name w1).1 = Ok tt →
            funcx_dir (shutil_rmtree name w1).2 !! name = None
            ∧ (name ∉ glob_config_files (shutil_rmtree name w1).2)
            ∧ (∀ p, p.1 ≠ name → p.2 ≠ "daemon.pid" →
                 lookup_file (shutil_rmtree name w1).2 p = lookup_file w p)).
  { intros w1 Hsame Hok. destruct (Hrm w1 Hok) as [Hfd _].
    split_and!.
    - rewrite Hfd. apply lookup_delete_eq.
    - rewrite elem_of_glob_config_files. unfold lookup_file. cbn [fst snd].
      rewrite Hfd, lookup_delete_eq. by intros [_ [? ?]].
    - intros p Hp1 Hp2. rewrite <- Hsame by done. unfold lookup_file.
      by rewrite Hfd, lookup_delete_ne. }
  destruct (lookup_file w (pid_file_of name)) as [f|] eqn:Hf.
  - rewrite bool_decide_eq_true_2 by eauto. unfold bind.
    destruct (Hread f Hf) as (pid & Hpid & Hge).
    assert (Hf0 : lookup_file w0 (pid_file_of name) = Some f) by (by rewrite Hw0).
    pose proof (stop_endpoint_returned_kills name w0 f pid Hf0 Hpid) as Hkill.
    assert (Hread0 : pidfile_readable w0 name).
    { intros f' Hf'. rewrite Hw0 in Hf'. by apply Hread. }
    pose proof (λ p, stop_endpoint_other_files name w0 p Hread0) as Hother.
    destruct (stop_endpoint name w0) as [[[]|e|] w1]; cbn [fst snd] in *; try done.
    intros Hok. destruct (Hfin w1) as (H1 & H2 & H3); [|done|].
    { intros p Hp. by rewrite Hother, Hw0. }
    split_and!; try done.
    intros pid' (f' & Hf' & Hpid' & _). assert (pid' = pid) as -> by congruence.
    destruct (Hrm w1 Hok) as [_ ->]. by apply Hkill.
  - rewrite bool_decide_eq_false_2 by (by intros [? ?]).
    intros Hok. destruct (Hfin w0) as (H1 & H2 & H3); [by intros p _|done|].
    destruct (Hrm w0 Hok) as [Hfd Hpr]. destruct Hp0 as [Hp0 Hd0].
    split_and!; try done.
    + intros pid (f' & Hf' & _). congruence.
    + intros _. by rewrite Hfd, Hpr, Hp0, Hd0.
Qed.

Lemma delete_removes_the_endpoint_witness :
  funcx_dir (delete_endpoint "default" true ex_active).2 !! "default" = None
  ∧ procs (delete_endpoint "default" true ex_active).2 !! 4242 = None.
Proof.
  destruct (delete_removes_the_endpoint ex_active "default" true) as (H1 & _ & _ & H4 & _).
  - intros f Hf. vm_compute in Hf. injection Hf as <-. exists 4242. split; [reflexivity|lia].
  - reflexivity.
  - split; [exact H1|]. apply H4.
    exists (pid_text 4242). split_and!; [reflexivity|reflexivity|lia].
Defined.

(** ** More on restart_endpoint *)

(** X13. [restart] does not reach its [start] step when the pidfile
    records a process id (positive, within [pid_t]) and the [stop] step cannot
    signal that process: the whole command is the failed [stop].  It ends
    with the exception of [stop] ([sys.exit(-1)] or the error of
    [os.remove]), the pidfile is removed and no daemon is started; a second
    [restart] is needed to bring the endpoint up. *)
Theorem restart_ends_with_failed_stop (fuel : nat) (w : world) (name : string)
    (f : file) (pid : Z) :
  lookup_file w (pid_file_of name) = Some f → as_int f = Some pid →
  process_id pid → signalling_fails w pid = true →
  restart_endpoint fuel name w = stop_endpoint name w
  ∧ raises (restart_endpoint fuel name w).1 = true
  ∧ lookup_file (restart_endpoint fuel name w).2 (pid_file_of name) = None
  ∧ ∀ cfg u fuel', configured w name cfg → record_readable w name →
      (start_endpoint fuel' name u (restart_endpoint fuel name w).2).1 ≠ Ok tt.
Proof.
  intros Hf Hpid [Hpos _] Hfail.
  destruct (stop_endpoint_failing name w f pid Hf Hpid Hfail) as [Hraise Hgone].
  assert (Heq : restart_endpoint fuel name w = stop_endpoint name w).
  { rewrite restart_endpoint_eq.
    by destruct (stop_endpoint name w) as [[[]|e|] w1]. }
  rewrite Heq. split_and!; try done.
  intros cfg u fuel' Hc Hr.
  assert (Hread : pidfile_readable w name).
  { apply (pidfile_records_readable w name pid). exists f. split_and!; [done|done|lia]. }
  assert (Hc1 : configured (stop_endpoint name w).2 name cfg).
  { destruct Hc as (cf & Hcf & Hm). exists cf. split; [|done].
    by rewrite stop_endpoint_other_files. }
  assert (Hr1 : record_readable (stop_endpoint name w).2 name).
  { intros rf Hrf. apply Hr. by rewrite stop_endpoint_other_files in Hrf. }
  destruct (start_endpoint_launches fuel' name u _ cfg Hc1 Hr1 Hgone) as (id & es & ->).
  apply start_daemon_no_return.
Qed.

Lemma restart_ends_with_failed_stop_witness :
  restart_endpoint 3 "default" ex_stale = stop_endpoint "default" ex_stale.
Proof.
  refine (proj1 (restart_ends_with_failed_stop 3 ex_stale "default" (pid_text 4242) 4242
                   _ _ _ _)); first [reflexivity | unfold process_id; lia].
Defined.

(** ** What the supervision loop lets the outside see *)

Section Emits.
Context (P : event → Prop).

Lemma emits_silent {A} (m : M A) : (∀ w, trace (m w).2 = trace w) → emits P m.
Proof. intros H w. exists []. by rewrite H, app_nil_r. Qed.

Lemma emits_bind {A B} (m : M A) (k : A → M B) :
  emits P m → (∀ a, emits P (k a)) → emits P (bind m k).
Proof.
  intros Hm Hk w. unfold bind. destruct (Hm w) as (es & He & HP).
  destruct (m w) as [[a|e|] w1]; cbn [fst snd] in *; [|by exists es..].
  destruct (Hk a w1) as (es' & He' & HP'). exists (es ++ es')%list.
  rewrite He', He, app_assoc. split; [done|]. by apply Forall_app.
Qed.

Lemma emits_try_except {A} (m : M A) handles h :
  emits P m → (∀ e, emits P (h e)) → emits P (try_except m handles h).
Proof.
  intros Hm Hh w. unfold try_except. destruct (Hm w) as (es & He & HP).
  destruct (m w) as [[a|e|] w1]; cbn [fst snd] in *; [by exists es| |by exists es].
  destruct (handles e); [|by exists es].
  destruct (Hh e w1) as (es' & He' & HP'). exists (es ++ es')%list.
  rewrite He', He, app_assoc. split; [done|]. by apply Forall_app.
Qed.

Lemma emits_emit e : P e → emits P (emit e).
Proof. intros He w. exists [e]. split; [done|]. by constructor. Qed.

Lemma emits_write_file p f : emits P (write_file p f).
Proof. apply emits_silent. intros w. unfold write_file. by destruct (_ !! _). Qed.

Lemma emits_json_dump j p : emits P (json_dump j p).
Proof.
  apply emits_bind; [apply emits_write_file|intros _].
  destruct j; first [apply emits_write_file|by apply emits_silent].
Qed.

Lemma emits_getitem obj key : emits P (getitem obj key).
Proof.
  apply emits_silent. intros w. destruct obj; try done. cbn. by destruct (d !! key).
Qed.

Lemma emits_retry f exceptions max_delay backoff jitter log :
  (∀ e q, P (Retrying e q)) → (∀ q, P (Sleep q)) → emits P f →
  ∀ fuel tries delay,
    emits P (retry_internal fuel f exceptions tries delay max_delay backoff jitter log).
Proof.
  intros HR HS Hf fuel. induction fuel as [|fuel IH]; intros tries delay;
    cbn [retry_internal]; (destruct (tries =? 0); [by apply emits_silent|]).
  - by apply emits_silent.
  - apply emits_try_except; [done|]. intros e.
    destruct (tries - 1 =? 0); [by apply emits_silent|].
    apply emits_bind; [destruct log; [by apply emits_emit|by apply emits_silent]|intros _].
    apply emits_bind; [by apply emits_emit|intros _].
    apply IH.
Qed.
End Emits.

Lemma emits_register_endpoint name cfg u fuel :
  emits (carries_identity name cfg u) (register_endpoint fuel name u name).
Proof.
  apply emits_retry; [done|done|].
  unfold register_endpoint_attempt.
  apply emits_bind; [by apply emits_emit|intros _].
  apply emits_bind; [by apply emits_emit|intros _].
  apply emits_bind; [|intros reg_info].
  { intros w. exists [ClientRegister name u]. unfold funcx_client_register_endpoint.
    split; [by destruct (service_reply _ _)|]. by constructor. }
  apply emits_bind; [apply emits_json_dump|intros _].
  apply emits_bind; [by apply emits_silent|intros w'].
  apply emits_bind; [by apply emits_emit|intros _]. by apply emits_silent.
Qed.

Lemma emits_register_with_hub name cfg u dir address redis :
  emits (carries_identity name cfg u) (register_with_hub u dir address redis).
Proof.
  unfold register_with_hub.
  apply emits_bind; [by apply emits_emit|intros _].
  apply emits_bind; [by apply emits_silent|intros ip].
  apply emits_bind; [|intros r].
  { apply emits_try_except.
    - apply emits_bind; [apply emits_silent; intros w; by destruct address|intros url].
      intros w. eexists [Post url _]. unfold requests_post.
      split; [by destruct (hub_reply _ _)|]. constructor; [|done].
      eexists. split; [done|]. apply lookup_insert_eq.
    - intros e. apply emits_bind; [by apply emits_emit|intros _]. by apply emits_silent. }
  apply emits_bind; [|intros _].
  { destruct (negb _); [|by apply emits_silent].
    apply emits_bind; [by apply emits_emit|intros _].
    apply emits_bind; [by apply emits_emit|intros _]. by apply emits_silent. }
  apply emits_bind; [apply emits_write_file|intros _].
  apply emits_bind; [apply emits_silent; intros w; by destruct r as [|? ? [|]]|intros j].
  apply emits_bind; [apply emits_json_dump|intros _].
  apply emits_bind; [by apply emits_silent|intros w'].
  apply emits_bind; [by apply emits_emit|intros _].
  apply emits_silent; intros w; by destruct r as [|? ? [|]].
Qed.

Lemma emits_interchange_optionals P name reg_info :
  emits P (interchange_optionals name reg_info).
Proof.
  unfold interchange_optionals.
  apply emits_bind; [apply emits_getitem|intros a].
  apply emits_bind; [apply emits_getitem|intros ports].
  apply emits_bind; [apply emits_silent; intros w; by destruct ports|intros cp].
  apply emits_bind; [by apply emits_silent|intros w']. by apply emits_silent.
Qed.

(** X14. One identity for the whole run.  Whatever the services answer and
    however long the loop runs, every registration request it sends (to the
    funcX service or to the mock hub) and every interchange it starts carries
    the identity that [start] resolved, and the configuration loaded before
    the daemon context was entered; the identifier the service returns is
    only logged.  The loop only ever adds to what was observed before. *)
Theorem supervision_keeps_identity (fuel : nat) (name : string) (cfg : config)
    (u : value) (w : world) :
  ∃ es, trace (supervise fuel name cfg u w).2 = (trace w ++ es)%list
        ∧ Forall (carries_identity name cfg u) es.
Proof.
  revert w. change (emits (carries_identity name cfg u) (supervise fuel name cfg u)).
  induction fuel as [|fuel IH]; cbn [supervise]; [by apply emits_silent|].
  apply emits_bind; [by apply emits_emit|intros _].
  apply emits_bind; [by apply emits_silent|intros w'].
  apply emits_bind; [|intros reg_info].
  { destruct (broker_test w').
    - apply emits_bind; [by apply emits_emit|intros _].
      apply emits_bind;
        [apply emits_silent; intros w; unfold funcx_config_item; by destruct (_ !! _)
        |intros a].
      apply emits_bind;
        [apply emits_silent; intros w; unfold funcx_config_item; by destruct (_ !! _)
        |intros r].
      apply emits_register_with_hub.
    - apply emits_register_endpoint. }
  apply emits_bind; [apply emits_getitem|intros id].
  apply emits_bind; [by apply emits_emit|intros _].
  apply emits_bind; [apply emits_interchange_optionals|intros opts].
  apply emits_bind; [by apply emits_emit|intros _].
  apply emits_bind; [by apply emits_emit|intros _].
  apply emits_bind; [by apply emits_emit|intros _].
  apply IH.
Qed.

(** ** configure_endpoint *)

Lemma configure_endpoint_existing inst name c w :
  is_Some (funcx_dir w !! name) → configure_endpoint inst name c w = (Ok tt, w).
Proof.
  intros Hd. unfold configure_endpoint, bind, get_world, dir_exists.
  by rewrite bool_decide_eq_true_2.
Qed.

(** [configure] for a name without a directory: the run of
    [init_endpoint_dir] and the message. *)
Lemma configure_endpoint_fresh inst name c w :
  funcx_dir w !! name = None →
  configure_endpoint inst name c w
  = let w1 := with_endpoint name ∅
                (logged [Log DEBUG_ "Creating endpoint dir {}"
                           [VStr (endpoint_dir_path w name)]] w) in
    let installed (f : file) :=
      (Ok tt, logged (configure_log w name) (with_endpoint name {["config.py" := f]} w)) in
    if truthy c then
      match c with
      | VStr s =>
          match user_files inst !! s with
          | Some f => installed f
          | None => (Raise FileNotFoundError, w1)
          end
      | _ => (Raise TypeError, w1)
      end
    else
      match render_default_config inst name with
      | inl f => installed f
      | inr e => (Raise e, w1)
      end.
Proof.
  intros Hd. unfold configure_endpoint, bind at 1, get_world.
  unfold bind at 1, dir_exists. rewrite bool_decide_eq_false_2 by (rewrite Hd; by intros [? ?]).
  cbn [negb]. unfold bind at 1, init_endpoint_dir, bind at 1, get_world.
  unfold bind at 1, logger, emit, modify. unfold bind at 1, os_makedirs, modify.
  cbn [funcx_dir set_trace]. rewrite Hd. cbv zeta.
  assert (Hw : ∀ f, write_file (name, "config.py") f
                 (set_funcx_dir (<[name := ∅]> (funcx_dir w))
                    (set_trace (trace w ++ [Log DEBUG_ "Creating endpoint dir {}"
                                              [VStr (endpoint_dir_path w name)]]) w))
               = (Ok tt, set_trace (trace w ++ [Log DEBUG_ "Creating endpoint dir {}"
                                              [VStr (endpoint_dir_path w name)]])
                           (with_endpoint name {["config.py" := f]} w))).
  { intros f. unfold write_file, with_endpoint. cbn. rewrite lookup_insert_eq. cbn.
    by rewrite insert_insert_eq, insert_empty. }
  destruct (truthy c).
  - unfold shutil_copyfile. destruct c; try done.
    destruct (user_files inst !! s) as [f|]; [|done].
    unfold bind. rewrite Hw. unfold print, emit, modify, logged, configure_log. cbn.
    by rewrite <- app_assoc.
  - destruct (render_default_config inst name) as [f|e]; [|done].
    unfold bind. rewrite Hw. unfold print, emit, modify, logged, configure_log. cbn.
    by rewrite <- app_assoc.
Qed.

(** X16. [configure] never overwrites.  For a name whose directory exists
    it does nothing at all, whatever the directory holds and whatever file
    [--endpoint-config] names; and since every run creates the directory
    first, a run of [configure] after another, successful or not, is without
    effect. *)
Theorem configure_never_overwrites (inst : installation) (name : string)
    (c : value) (w : world) :
  (is_Some (funcx_dir w !! name) → configure_endpoint inst name c w = (Ok tt, w))
  ∧ ∀ inst' c',
      configure_endpoint inst' name c' (configure_endpoint inst name c w).2
      = (Ok tt, (configure_endpoint inst name c w).2).
Proof.
  split; [apply configure_endpoint_existing|].
  intros inst' c'. apply configure_endpoint_existing.
  destruct (funcx_dir w !! name) as [d|] eqn:Hd.
  - rewrite configure_endpoint_existing by eauto. cbn. rewrite Hd. eauto.
  - rewrite (configure_endpoint_fresh inst name c w Hd). cbv zeta.
    destruct (truthy c).
    + destruct c; cbn; rewrite ?lookup_insert_eq; eauto.
      destruct (user_files inst !! s); cbn; rewrite lookup_insert_eq; eauto.
    + destruct (render_default_config inst name); cbn; rewrite lookup_insert_eq; eauto.
Qed.

Lemma configure_never_overwrites_witness :
  configure_endpoint ex_installation "default" (VStr "/home/user/gpu_config.py") ex_stale
  = (Ok tt, ex_stale).
Proof.
  apply (proj1 (configure_never_overwrites ex_installation "default"
                  (VStr "/home/user/gpu_config.py") ex_stale)).
  eexists. reflexivity.
Defined.

Lemma list_row_initialized name w :
  lookup_file w (record_file name) = None →
  list_row name w = (Ok (name, "Initialized", None), w).
Proof. intros H. unfold list_row, bind, os_path_exists. unfold record_file in H. by rewrite H. Qed.

Lemma lookup_file_with_endpoint name d w p :
  lookup_file (with_endpoint name d w) p
  = if decide (p.1 = name) then d !! p.2 else lookup_file w p.
Proof.
  unfold lookup_file, with_endpoint. cbn [funcx_dir set_funcx_dir].
  case_decide as Hp; [subst; by rewrite lookup_insert_eq|by rewrite lookup_insert_ne].
Qed.

(** X17. What [configure] creates.  For an endpoint name (one path
    component) without a directory under the root it makes the directory and
    puts one file into it, [config.py]: the package template rendered for the
    name, or, with [--endpoint-config], the named file as it is.  Nothing
    else is touched.  From then on, with a [State.FUNCX_DIR] that [glob]
    reads literally, [list] and the completion know the endpoint (if its name
    does not start with a dot), [list] shows it as [Initialized], and, when
    the file loads, [start] goes on to the daemon under the identity it was
    given or a fresh one. *)
Theorem configure_creates_config (inst : installation) (name : string) (c : value)
    (w : world) (f : file) :
  endpoint_name name → literal_root w →
  funcx_dir w !! name = None →
  (truthy c = false ∧ render_default_config inst name = inl f)
  ∨ (∃ src, c = VStr src ∧ src ≠ "" ∧ user_files inst !! src = Some f) →
  let w' := (configure_endpoint inst name c w).2 in
  configure_endpoint inst name c w
  = (Ok tt, logged (configure_log w name) (with_endpoint name {["config.py" := f]} w))
  ∧ funcx_dir w' = <[name := {["config.py" := f]}]> (funcx_dir w)
  ∧ procs w' = procs w
  ∧ (hidden name = false →
       name ∈ glob_config_files w'
       ∧ list_row name w' = (Ok (name, "Initialized", None), w'))
  ∧ (∀ cfg fuel u, as_module f = Some cfg →
       start_endpoint fuel name u w'
       = let id := if truthy u then u else VStr (next_uuid (env w)) in
         start_daemon fuel name cfg id
           (logged [Log INFO "Starting endpoint with uuid: {}" [id]] w')).
Proof.
  intros _ _ Hd Hsrc. cbv zeta.
  assert (Hrun : configure_endpoint inst name c w
                 = (Ok tt, logged (configure_log w name)
                             (with_endpoint name {["config.py" := f]} w))).
  { rewrite (configure_endpoint_fresh inst name c w Hd). cbv zeta.
    destruct Hsrc as [[-> ->]|(src & -> & Hne & ->)]; [done|].
    cbn. by destruct (String.eqb_spec src ""). }
  rewrite Hrun. cbn [snd].
  set (w' := logged _ (with_endpoint _ _ w)).
  assert (Hl : ∀ fn, lookup_file w' (name, fn)
                     = ({["config.py" := f]} : gmap string file) !! fn).
  { intros fn. subst w'. rewrite lookup_file_logged, lookup_file_with_endpoint.
    by rewrite decide_True. }
  split_and!; try done.
  - intros Hh. split.
    + apply elem_of_glob_config_files. split; [done|]. by rewrite Hl, lookup_singleton_eq.
    + apply list_row_initialized. unfold record_file. by rewrite Hl, lookup_singleton_ne.
  - intros cfg fuel u Hm.
    assert (Hc : configured w' name cfg).
    { exists f. split; [|done]. by rewrite Hl, lookup_singleton_eq. }
    rewrite (start_endpoint_eq fuel name u w' cfg Hc), endpoint_identity_eq.
    unfold record_file. rewrite Hl, lookup_singleton_ne by done.
    assert (Hp : ∀ es, lookup_file (logged es w') (pid_file_of name) = None).
    { intros es. rewrite lookup_file_logged. unfold pid_file_of.
      by rewrite Hl, lookup_singleton_ne. }
    destruct (truthy u); rewrite check_pidfile_eq, Hp; done.
Qed.

Lemma configure_creates_config_witness :
  funcx_dir (configure_endpoint ex_installation "gpu" (VStr "/home/user/gpu_config.py")
               ex_initialized).2
  = <["gpu" := {["config.py" := module_text ex_config]}]> (funcx_dir ex_initialized).
Proof.
  refine (proj1 (proj2 (configure_creates_config ex_installation "gpu"
            (VStr "/home/user/gpu_config.py") ex_initialized (module_text ex_config)
            _ _ _ _))).
  - plain_name.
  - reflexivity.
  - reflexivity.
  - right. exists "/home/user/gpu_config.py". split_and!; [reflexivity| |reflexivity].
    intros H. discriminate H.
Defined.

Lemma configure_endpoint_failed inst name c w :
  funcx_dir w !! name = None →
  raises (configure_endpoint inst name c w).1 = true →
  (configure_endpoint inst name c w).2
  = with_endpoint name ∅
      (logged [Log DEBUG_ "Creating endpoint dir {}" [VStr (endpoint_dir_path w name)]] w).
Proof.
  intros Hd. rewrite (configure_endpoint_fresh inst name c w Hd). cbv zeta.
  destruct (truthy c).
  - destruct c; try done. by destruct (user_files inst !! s).
  - by destruct (render_default_config inst name).
Qed.

(** X18. A [configure] that fails leaves the endpoint half made.  For an
    endpoint name (one path component) without a directory under the root,
    the directory is created before the configuration is copied or rendered,
    so when that step raises (the file named by [--endpoint-config] is
    missing, the template does not render) an empty directory stays behind.
    A later [configure] then finds the directory and does nothing, [start]
    fails on the missing [config.py], and [list], with a [State.FUNCX_DIR]
    that [glob] reads literally, does not show the name; [delete] brings back
    the state before the attempt. *)
Theorem configure_failure_leaves_empty_directory (inst : installation) (name : string)
    (c : value) (w : world) :
  endpoint_name name → literal_root w →
  funcx_dir w !! name = None →
  raises (configure_endpoint inst name c w).1 = true →
  let w' := (configure_endpoint inst name c w).2 in
  funcx_dir w' = <[name := ∅]> (funcx_dir w)
  ∧ (∀ inst' c', configure_endpoint inst' name c' w' = (Ok tt, w'))
  ∧ (∀ fuel u, start_endpoint fuel name u w' = (Raise FileNotFoundError, w'))
  ∧ (name ∉ glob_config_files w')
  ∧ (delete_endpoint name true w').1 = Ok tt
  ∧ funcx_dir (delete_endpoint name true w').2 = funcx_dir w.
Proof.
  intros _ _ Hd Hr. cbv zeta. rewrite (configure_endpoint_failed inst name c w Hd Hr).
  set (w1 := with_endpoint name ∅ _).
  assert (Hw1 : funcx_dir w1 = <[name := ∅]> (funcx_dir w)) by done.
  assert (Hdir : is_Some (funcx_dir w1 !! name)) by (rewrite Hw1, lookup_insert_eq; eauto).
  assert (Hl : ∀ fn, lookup_file w1 (name, fn) = None).
  { intros fn. unfold lookup_file. cbn [fst snd]. by rewrite Hw1, lookup_insert_eq. }
  split_and!.
  - done.
  - intros inst' c'. by apply configure_endpoint_existing.
  - intros fuel u. by apply (start_needs_config_missing fuel name u w1).
  - rewrite elem_of_glob_config_files, Hl. by intros [_ [? ?]].
  - rewrite (delete_endpoint_eq name true w1) by (by left).
    unfold pid_file_of. rewrite Hl, bool_decide_eq_false_2 by (by intros [? ?]).
    unfold shutil_rmtree, asked. by rewrite Hw1, lookup_insert_eq.
  - rewrite (delete_endpoint_eq name true w1) by (by left).
    unfold pid_file_of. rewrite Hl, bool_decide_eq_false_2 by (by intros [? ?]).
    unfold shutil_rmtree, asked. rewrite Hw1, lookup_insert_eq. cbn.
    by rewrite delete_insert_eq, delete_id.
Qed.

Lemma configure_failure_leaves_empty_directory_witness :
  (configure_endpoint ex_installation "gpu" (VStr "/home/user/missing.py") ex_initialized).1
  = Raise FileNotFoundError
  ∧ funcx_dir (configure_endpoint ex_installation "gpu" (VStr "/home/user/missing.py")
                 ex_initialized).2
    = <["gpu" := ∅]> (funcx_dir ex_initialized).
Proof.
  split; [reflexivity|].
  refine (proj1 (configure_failure_leaves_empty_directory ex_installation "gpu"
                   (VStr "/home/user/missing.py") ex_initialized _ _ _ _));
    first [reflexivity | plain_name].
Defined.

(** X19. The completion of endpoint names offers what [list] shows.  With
    a [State.FUNCX_DIR] that [glob] reads literally, these are the names of
    the directories under the root that hold a [config.py] and do not start
    with a dot, each once, in the order of the rows of [list]; it touches
    nothing. *)
Theorem completion_matches_list (w : world) :
  literal_root w →
  (complete_endpoint_name w).2 = w
  ∧ (∃ names, (complete_endpoint_name w).1 = Ok names
       ∧ NoDup names
       ∧ (∀ name, name ∈ names
            ↔ hidden name = false ∧ is_Some (lookup_file w (name, "config.py")))
       ∧ (∀ rows, (list_rows w).1 = Ok rows → row_name <$> rows = names)).
Proof.
  intros _.
  split; [done|]. exists (glob_config_files w). split_and!.
  - done.
  - apply NoDup_glob_config_files.
  - intros name. apply elem_of_glob_config_files.
  - intros rows. unfold list_rows, bind, get_world.
    destruct (for_each_list_row_reads (glob_config_files w) w) as (_ & _ & Hn & _).
    apply Hn.
Qed.

Lemma completion_matches_list_witness :
  (complete_endpoint_name ex_two).2 = ex_two
  ∧ ∃ names, (complete_endpoint_name ex_two).1 = Ok names
      ∧ NoDup names
      ∧ (∀ name, name ∈ names
           ↔ hidden name = false ∧ is_Some (lookup_file ex_two (name, "config.py")))
      ∧ (∀ rows, (list_rows ex_two).1 = Ok rows → row_name <$> rows = names).
Proof. apply (completion_matches_list ex_two). reflexivity. Defined.

(** ** init_endpoint and main *)

Lemma init_endpoint_dir_default inst w :
  init_endpoint_dir inst "default" VNone w
  = match render_default_config inst "default" with
    | inl f => (Ok (endpoint_dir_path w "default"), default_installed f w)
    | inr e =>
        (Raise e,
         match funcx_dir w !! "default" with
         | Some _ => logged [Log DEBUG_ "Creating endpoint dir {}"
                               [VStr (endpoint_dir_path w "default")]] w
         | None => with_endpoint "default" ∅
                     (logged [Log DEBUG_ "Creating endpoint dir {}"
                                [VStr (endpoint_dir_path w "default")]] w)
         end)
    end.
Proof.
  unfold init_endpoint_dir, bind at 1, get_world.
  unfold bind at 1, logger, emit, modify. unfold bind at 1, os_makedirs, modify.
  cbn [funcx_dir set_trace truthy].
  destruct (render_default_config inst "default") as [f|e].
  - unfold bind, write_file, default_installed, with_endpoint, logged.
    destruct (funcx_dir w !! "default") as [d|] eqn:Hd; cbn [fst snd funcx_dir set_trace set_funcx_dir].
    + rewrite Hd. done.
    + rewrite lookup_insert_eq. cbn. by rewrite insert_insert_eq.
  - by destruct (funcx_dir w !! "default").
Qed.

(** [init_endpoint] where there is no [config.py] at the root. *)
Lemma init_endpoint_fresh inst h :
  funcx_config_file h = None →
  init_endpoint inst h
  = match init_endpoint_dir inst "default" VNone (commands h) with
    | (Ok _, w') => (Ok tt, {| commands := w';
                               funcx_config_file := Some (global_config_template inst);
                               backup_dir := backup_dir h |})
    | (Raise e, w') => (Raise e, {| commands := w';
                                    funcx_config_file := Some (global_config_template inst);
                                    backup_dir := backup_dir h |})
    | (Running, w') => (Running, {| commands := w';
                                    funcx_config_file := Some (global_config_template inst);
                                    backup_dir := backup_dir h |})
    end.
Proof.
  intros Hc. unfold init_endpoint, bindH at 1. unfold bindH at 1, config_file_exists.
  rewrite Hc. cbn [bool_decide decide_rel]. 
  rewrite bool_decide_eq_false_2 by (by intros [? ?]). cbn [retH].
  unfold bindH at 1, config_file_exists. rewrite Hc.
  rewrite bool_decide_eq_false_2 by (by intros [? ?]).
  unfold bindH at 1, copy_global_template. unfold bindH, lift, retH.
  cbn [commands funcx_config_file backup_dir].
  by destruct (init_endpoint_dir inst "default" VNone (commands h)) as [[?|?|] ?].
Qed.

Lemma added_logged es w : added w (logged es w) = es.
Proof. unfold added, logged. cbn. by rewrite drop_app_length. Qed.

(** [main] where the root has its [config.py]. *)
Lemma main_configured inst sub debug dir h g :
  funcx_config_file h = Some g →
  main inst sub debug dir h
  = let w1 := logged [Log DEBUG_ "Loading config files from {}" [VStr dir]]
                (set_State debug dir
                   (logged [Log DEBUG_ "Command: {}" [VStr sub]] (commands h))) in
    match global_options g with
    | Some o => (Ok tt, {| commands := set_FUNCX_CONFIG o w1;
                           funcx_config_file := Some g; backup_dir := backup_dir h |})
    | None => (Raise ModuleLoadError,
               {| commands := w1; funcx_config_file := Some g;
                  backup_dir := backup_dir h |})
    end.
Proof.
  intros Hc. unfold main, bindH, lift, logger, emit, modify, config_file_exists,
    load_global_options, retH. cbn. rewrite Hc. cbn. rewrite ?Hc.
  by destruct (global_options g).
Qed.

(** [main] where it is missing. *)
Lemma main_unconfigured inst sub debug dir h :
  funcx_config_file h = None →
  main inst sub debug dir h
  = let w0 := logged [Log INFO "No existing configuration found at {}. Initializing..."
                        [VStr (os_path_join dir "config.py")]]
                (set_State debug dir
                   (logged [Log DEBUG_ "Command: {}" [VStr sub]] (commands h))) in
    let template := global_config_template inst in
    match init_endpoint_dir inst "default" VNone w0 with
    | (Ok _, w1) =>
        let w2 := logged [Log DEBUG_ "Loading config files from {}" [VStr dir]] w1 in
        match global_options template with
        | Some o => (Ok tt, {| commands := set_FUNCX_CONFIG o w2;
                               funcx_config_file := Some template;
                               backup_dir := backup_dir h |})
        | None => (Raise ModuleLoadError,
                   {| commands := w2; funcx_config_file := Some template;
                      backup_dir := backup_dir h |})
        end
    | (Raise e, w1) => (Raise e, {| commands := w1; funcx_config_file := Some template;
                                    backup_dir := backup_dir h |})
    | (Running, w1) => (Running, {| commands := w1; funcx_config_file := Some template;
                                    backup_dir := backup_dir h |})
    end.
Proof.
  intros Hc. unfold main, bindH at 1, lift at 1, logger at 1, emit, modify.
  unfold bindH at 1, lift at 1. unfold bindH at 1, config_file_exists at 1.
  cbn [commands funcx_config_file backup_dir fst snd]. rewrite Hc.
  rewrite bool_decide_eq_false_2 by (by intros [? ?]). cbn [negb].
  unfold bindH at 1. unfold bindH at 1, lift at 1, logger at 1, emit, modify.
  cbn [commands funcx_config_file backup_dir fst snd].
  rewrite init_endpoint_fresh by done.
  cbn [commands funcx_config_file backup_dir fst snd]. cbv zeta.
  unfold logged. cbn [trace set_State set_trace].
  destruct (init_endpoint_dir inst "default" VNone _) as [[d|e|] w1]; [|done..].
  unfold bindH, lift, logger, emit, modify, load_global_options.
  cbn [commands funcx_config_file backup_dir fst snd].
  by destruct (global_options (global_config_template inst)).
Qed.

(** X20. With a [config.py] at the root, [main] sets up the settings and
    touches no file.  [State.DEBUG] and [State.FUNCX_DIR] are the options
    given, [State.FUNCX_CONFIG] is the [global_options] of the file --
    whatever it held before -- and the endpoint directories, the processes,
    the root [config.py] and the backup are as they were; [init_endpoint] is
    not run.  When the file does not load, the command ends there. *)
Theorem main_with_configuration (inst : installation) (sub : string) (debug : bool)
    (dir : string) (h : home) (g : global_file) :
  funcx_config_file h = Some g →
  let run := main inst sub debug dir h in
  let w' := commands run.2 in
  funcx_dir w' = funcx_dir (commands h) ∧ procs w' = procs (commands h)
  ∧ funcx_config_file run.2 = Some g ∧ backup_dir run.2 = backup_dir h
  ∧ DEBUG w' = debug ∧ FUNCX_DIR w' = dir
  ∧ added (commands h) w'
    = [Log DEBUG_ "Command: {}" [VStr sub];
       Log DEBUG_ "Loading config files from {}" [VStr dir]]
  ∧ (∀ o, global_options g = Some o → run.1 = Ok tt ∧ FUNCX_CONFIG w' = o)
  ∧ (global_options g = None → run.1 = Raise ModuleLoadError).
Proof.
  intros Hc. cbv zeta. rewrite (main_configured inst sub debug dir h g Hc). cbv zeta.
  assert (Ha : ∀ w, trace w = ((trace (commands h) ++ [Log DEBUG_ "Command: {}" [VStr sub]])
                       ++ [Log DEBUG_ "Loading config files from {}" [VStr dir]])%list →
           added (commands h) w
           = [Log DEBUG_ "Command: {}" [VStr sub];
              Log DEBUG_ "Loading config files from {}" [VStr dir]]).
  { intros w Hw. unfold added. by rewrite Hw, <- app_assoc, drop_app_length. }
  destruct (global_options g) as [o|]; cbn [fst snd commands funcx_config_file backup_dir];
    split_and!; try done; try (by apply Ha); by intros o' [= <-].
Qed.

Lemma main_with_configuration_witness :
  (main ex_installation "list" true "/home/user/.funcx" ex_home).1 = Ok tt
  ∧ FUNCX_CONFIG (commands (main ex_installation "list" true "/home/user/.funcx" ex_home).2)
    = {["broker_test" := VBool false]}.
Proof.
  apply (main_with_configuration ex_installation "list" true "/home/user/.funcx" ex_home
           {| global_options := Some {["broker_test" := VBool false]} |});
    reflexivity.
Defined.

Lemma funcx_dir_default_installed f w :
  funcx_dir (default_installed f w)
  = <["default" := <["config.py" := f]> (default ∅ (funcx_dir w !! "default"))]>
      (funcx_dir w).
Proof. done. Qed.

(** X21. Without a [config.py] at the root, [main] initializes before it
    loads the settings, and it does so without asking and without moving
    anything away.  The root gets the package's global configuration, the
    endpoint [default] gets the rendered template as its [config.py] -- in
    place of the one it had, if the directory was there already -- and
    everything else stays: the other files of [default], the other endpoints,
    the processes, the backup.  The settings are then those of the new root
    file, and [default] is configured. *)
Theorem main_initializes_missing_configuration (inst : installation) (sub : string)
    (debug : bool) (dir : string) (h : home) (f : file) :
  funcx_config_file h = None →
  render_default_config inst "default" = inl f →
  let run := main inst sub debug dir h in
  let w' := commands run.2 in
  funcx_config_file run.2 = Some (global_config_template inst)
  ∧ backup_dir run.2 = backup_dir h
  ∧ funcx_dir w'
    = <["default" := <["config.py" := f]>
                       (default ∅ (funcx_dir (commands h) !! "default"))]>
        (funcx_dir (commands h))
  ∧ procs w' = procs (commands h)
  ∧ (∀ e, e ∈ added (commands h) w' → ∃ lvl fmt args, e = Log lvl fmt args)
  ∧ (∀ o, global_options (global_config_template inst) = Some o →
       run.1 = Ok tt ∧ FUNCX_CONFIG w' = o ∧ DEBUG w' = debug ∧ FUNCX_DIR w' = dir)
  ∧ (∀ cfg, as_module f = Some cfg → configured w' "default" cfg).
Proof.
  intros Hc Hf. cbv zeta. rewrite (main_unconfigured inst sub debug dir h Hc). cbv zeta.
  rewrite init_endpoint_dir_default, Hf.
  set (w0 := logged _ (set_State debug dir _)).
  assert (Hfd : funcx_dir (default_installed f w0)
                = <["default" := <["config.py" := f]>
                                   (default ∅ (funcx_dir (commands h) !! "default"))]>
                    (funcx_dir (commands h))) by done.
  assert (Hadd : ∀ w, trace w
            = (trace (commands h) ++
               [Log DEBUG_ "Command: {}" [VStr sub];
                Log INFO "No existing configuration found at {}. Initializing..."
                  [VStr (os_path_join dir "config.py")];
                Log DEBUG_ "Creating endpoint dir {}" [VStr (os_path_join dir "default")];
                Log DEBUG_ "Loading config files from {}" [VStr dir]])%list →
            ∀ e, e ∈ added (commands h) w → ∃ lvl fmt args, e = Log lvl fmt args).
  { intros w Hw e. unfold added. rewrite Hw, drop_app_length.
    intros He. repeat (apply elem_of_cons in He as [->|He]; [by eexists _, _, _|]).
    by apply elem_of_nil in He. }
  assert (Hcfg : ∀ w cfg, funcx_dir w = funcx_dir (default_installed f w0) →
            as_module f = Some cfg → configured w "default" cfg).
  { intros w cfg Hw Hm. exists f. split; [|done]. unfold lookup_file. cbn [fst snd].
    rewrite Hw, Hfd, lookup_insert_eq. cbn. by rewrite lookup_insert_eq. }
  destruct (global_options (global_config_template inst)) as [o|];
    cbn [fst snd commands funcx_config_file backup_dir];
    (split_and!; [done|done|done|done| | |]).
  - apply Hadd. cbn. by rewrite <- !app_assoc.
  - by intros o' [= <-].
  - intros cfg. by apply Hcfg.
  - apply Hadd. cbn. by rewrite <- !app_assoc.
  - done.
  - intros cfg. by apply Hcfg.
Qed.

Lemma main_initializes_missing_configuration_witness :
  (main ex_installation "start" false "/home/user/.funcx" ex_empty_home).1 = Ok tt
  ∧ configured (commands (main ex_installation "start" false "/home/user/.funcx"
                            ex_empty_home).2) "default" ex_config.
Proof.
  destruct (main_initializes_missing_configuration ex_installation "start" false
              "/home/user/.funcx" ex_empty_home (module_text ex_config))
    as (_ & _ & _ & _ & _ & H1 & H2); [reflexivity|reflexivity|].
  split.
  - apply (H1 ∅). reflexivity.
  - apply H2. reflexivity.
Defined.

(** X22. An initialization that fails half way is not repeated.  When the
    endpoint template does not render, [main] ends with that exception after
    the root [config.py] has been written; the next run on the same
    configuration directory finds the file, takes the configuration for
    complete and loads the settings, and the endpoint [default] is left as the
    failed run left it: without a new [config.py]. *)
Theorem main_does_not_repeat_failed_initialization (inst : installation)
    (sub : string) (debug : bool) (dir : string) (h : home) (e : exn) :
  funcx_config_file h = None →
  render_default_config inst "default" = inr e →
  let run := main inst sub debug dir h in
  run.1 = Raise e
  ∧ funcx_config_file run.2 = Some (global_config_template inst)
  ∧ lookup_file (commands run.2) ("default", "config.py")
    = lookup_file (commands h) ("default", "config.py")
  ∧ ∀ inst' sub' debug',
      let again := main inst' sub' debug' dir run.2 in
      funcx_dir (commands again.2) = funcx_dir (commands run.2)
      ∧ (is_Some (global_options (global_config_template inst)) → again.1 = Ok tt).
Proof.
  intros Hc Hf. cbv zeta. rewrite (main_unconfigured inst sub debug dir h Hc). cbv zeta.
  rewrite init_endpoint_dir_default, Hf. cbn [fst snd commands funcx_config_file].
  split_and!; try done.
  - cbn [funcx_dir logged set_trace set_State].
    unfold lookup_file. cbn [fst snd].
    destruct (funcx_dir (commands h) !! "default") as [d|] eqn:Hd; cbn; rewrite ?Hd; try done.
    by rewrite lookup_insert_eq.
  - intros inst' sub' debug'.
    set (h1 := {| commands := _; funcx_config_file := _; backup_dir := _ |}).
    rewrite (main_configured inst' sub' debug' dir h1 (global_config_template inst))
      by done.
    cbv zeta. destruct (global_options (global_config_template inst)) as [o|]; [done|].
    split; [done|]. by intros [? ?].
Qed.

Lemma main_does_not_repeat_failed_initialization_witness :
  (main ex_broken_installation "start" false "/home/user/.funcx" ex_empty_home).1
  = Raise (KeyError "user")
  ∧ lookup_file
      (commands (main ex_broken_installation "start" false "/home/user/.funcx"
                   ex_empty_home).2) ("default", "config.py") = None.
Proof.
  destruct (main_does_not_repeat_failed_initialization ex_broken_installation "start"
              false "/home/user/.funcx" ex_empty_home (KeyError "user"))
    as (H1 & _ & H3 & _); [reflexivity|reflexivity|].
  split; [exact H1|]. rewrite H3. reflexivity.
Defined.

(** [init_endpoint] on an initialized root, declined. *)
Lemma init_endpoint_declined inst h g :
  funcx_config_file h = Some g → confirm_answer (env (commands h)) = false →
  init_endpoint inst h
  = (Raise Abort,
     {| commands := logged [wipe_prompt (commands h)] (commands h);
        funcx_config_file := Some g; backup_dir := backup_dir h |}).
Proof.
  intros Hc Ha. unfold init_endpoint, bindH at 1. unfold bindH at 1, config_file_exists.
  rewrite Hc, bool_decide_eq_true_2 by eauto.
  unfold bindH at 1, lift at 1, get_world. unfold bindH at 1, lift at 1.
  unfold typer_confirm, bind, print, emit, modify, get_world, raise.
  cbn [commands funcx_config_file backup_dir env set_trace]. rewrite Ha.
  by rewrite Hc.
Qed.

(** [init_endpoint] on an initialized root, confirmed. *)
Lemma init_endpoint_wipe inst h g :
  funcx_config_file h = Some g → confirm_answer (env (commands h)) = true →
  init_endpoint inst h
  = match init_endpoint_dir inst "default" VNone (commands (wiped h)) with
    | (r, w') =>
        (match r with Ok _ => Ok tt | Raise e => Raise e | Running => Running end,
         {| commands := w';
            funcx_config_file := Some (global_config_template inst);
            backup_dir := Some (Some g, funcx_dir (commands h)) |})
    end.
Proof.
  intros Hc Ha.
  unfold init_endpoint, bindH at 1. unfold bindH at 1, config_file_exists at 1.
  rewrite Hc, bool_decide_eq_true_2 by eauto.
  unfold bindH at 1, lift at 1, get_world. unfold bindH at 1, lift at 1.
  unfold typer_confirm, bind, print, emit, modify, get_world.
  cbn [commands funcx_config_file backup_dir env set_trace]. rewrite Ha.
  unfold ret. unfold bindH at 1, lift at 1, logger, emit, modify.
  unfold bindH at 1, lift at 1.
  unfold bindH at 1, remove_backup, os_renames_to_backup.
  cbn [commands funcx_config_file backup_dir trace set_trace fst snd].
  unfold bindH at 1, config_file_exists.
  cbn [commands funcx_config_file backup_dir].
  rewrite bool_decide_eq_false_2 by (by intros [? ?]).
  unfold bindH at 1, copy_global_template. unfold bindH, lift, retH.
  cbn [commands funcx_config_file backup_dir].
  unfold wiped, logged, wipe_prompt. rewrite Hc.
  cbn [commands funcx_config_file backup_dir trace set_trace FUNCX_DIR].
  rewrite <- !app_assoc. cbn [app].
  by destruct (init_endpoint_dir inst "default" VNone _) as [[?|?|] ?].
Qed.

(** X23. What [init_endpoint] does to an initialized root.  It asks first;
    a declined confirmation aborts with nothing changed.  Once confirmed, the
    former backup is discarded and the whole root is moved to the backup
    directory: its [config.py] and every endpoint directory with
    configuration, registration record and pidfile.  The new root holds the
    package's global configuration and the endpoint [default] with the
    rendered template, nothing else.  The processes are not touched: a daemon
    that was running keeps running, while its pidfile is no longer where
    [stop] and [list] look for it. *)
Theorem init_endpoint_moves_root_to_backup (inst : installation) (h : home)
    (g : global_file) :
  funcx_config_file h = Some g →
  let run := init_endpoint inst h in
  (confirm_answer (env (commands h)) = false →
     run = (Raise Abort,
            {| commands := logged [wipe_prompt (commands h)] (commands h);
               funcx_config_file := Some g; backup_dir := backup_dir h |}))
  ∧ (confirm_answer (env (commands h)) = true →
       backup_dir run.2 = Some (Some g, funcx_dir (commands h))
       ∧ funcx_config_file run.2 = Some (global_config_template inst)
       ∧ procs (commands run.2) = procs (commands h)
       ∧ (∀ name, name ≠ "default" → funcx_dir (commands run.2) !! name = None)
       ∧ (∀ name, lookup_file (commands run.2) (pid_file_of name) = None)
       ∧ (∀ f, render_default_config inst "default" = inl f →
            run.1 = Ok tt
            ∧ funcx_dir (commands run.2) = {["default" := {["config.py" := f]}]})).
Proof.
  intros Hc. cbv zeta. split.
  - intros Ha. by apply init_endpoint_declined.
  - intros Ha. rewrite (init_endpoint_wipe inst h g Hc Ha), init_endpoint_dir_default.
    destruct (render_default_config inst "default") as [f|e];
      cbn [fst snd commands funcx_config_file backup_dir]; split_and!; try done.
    + intros name Hn. cbn. by rewrite lookup_insert_ne, lookup_empty.
    + intros name. unfold lookup_file, pid_file_of. cbn.
      destruct (decide (name = "default")) as [->|Hn].
      * rewrite lookup_insert_eq. cbn. by rewrite lookup_insert_ne.
      * by rewrite lookup_insert_ne, lookup_empty.
    + intros f' [= <-]. split; [done|]. cbn. by rewrite insert_empty.
    + intros name Hn. cbn. rewrite lookup_empty. cbn.
      by rewrite lookup_insert_ne, lookup_empty.
    + intros name. unfold lookup_file, pid_file_of. cbn. rewrite lookup_empty. cbn.
      destruct (decide (name = "default")) as [->|Hn].
      * by rewrite lookup_insert_eq.
      * by rewrite lookup_insert_ne, lookup_empty.
Qed.

Lemma init_endpoint_moves_root_to_backup_witness :
  backup_dir (init_endpoint ex_installation ex_home).2
  = Some (funcx_config_file ex_home, funcx_dir ex_active)
  ∧ procs (commands (init_endpoint ex_installation ex_home).2) = procs ex_active
  ∧ lookup_file (commands (init_endpoint ex_installation ex_home).2)
      (pid_file_of "default") = None.
Proof.
  destruct (init_endpoint_moves_root_to_backup ex_installation ex_home
              {| global_options := Some {["broker_test" := VBool false]} |})
    as (_ & H); [reflexivity|].
  destruct H as (H1 & _ & H3 & _ & H5 & _); [reflexivity|].
  split_and!; [exact H1|exact H3|apply H5].
Defined.

(** X24. When [init_endpoint] returns, the root is freshly initialized: its
    [config.py] is the package's global configuration and the endpoint
    [default] has the rendered template as its [config.py], whether the root
    was initialized before or not.  It ends early only by the declined
    confirmation or by a template that does not render; the return for a
    configuration file that is already there is never taken, since either
    there was none or it has just been moved away. *)
Theorem init_endpoint_installs_templates (inst : installation) (h : home) :
  let run := init_endpoint inst h in
  run.1 ≠ Running
  ∧ (run.1 = Ok tt →
       funcx_config_file run.2 = Some (global_config_template inst)
       ∧ ∃ f, render_default_config inst "default" = inl f
              ∧ lookup_file (commands run.2) ("default", "config.py") = Some f)
  ∧ (∀ e, run.1 = Raise e →
       (e = Abort ∧ is_Some (funcx_config_file h)
        ∧ confirm_answer (env (commands h)) = false)
       ∨ render_default_config inst "default" = inr e).
Proof.
  cbv zeta.
  assert (Hin : ∀ f w, lookup_file (default_installed f w) ("default", "config.py") = Some f).
  { intros f w. unfold lookup_file. rewrite funcx_dir_default_installed. cbn [fst snd].
    rewrite lookup_insert_eq. cbn. apply lookup_insert_eq. }
  destruct (funcx_config_file h) as [g|] eqn:Hc.
  - destruct (confirm_answer (env (commands h))) eqn:Ha.
    + rewrite (init_endpoint_wipe inst h g Hc Ha), init_endpoint_dir_default.
      destruct (render_default_config inst "default") as [f|e];
        cbn [fst snd commands funcx_config_file]; split_and!; try done.
      * intros _. split; [done|]. by exists f.
      * intros e' [= <-]. by right.
    + rewrite (init_endpoint_declined inst h g Hc Ha). cbn [fst snd].
      split_and!; try done. intros e [= <-]. left. eauto.
  - rewrite (init_endpoint_fresh inst h Hc), init_endpoint_dir_default.
    destruct (render_default_config inst "default") as [f|e];
      cbn [fst snd commands funcx_config_file]; split_and!; try done.
    + intros _. split; [done|]. by exists f.
    + intros e' [= <-]. by right.
Qed.

(** ** The output files of the daemon *)



